(** * arifian.ai-admin: chat clients, retrieval test harness, confessions panel

    A shallow embedding of the event handlers of four React components
    (TestRetrieval, GroqChat, Chat, Confessions) and the properties their
    specification states about them.

    Conventions of the embedding.
    - A JavaScript string is its list of UTF-16 code units.
    - A JavaScript number that the code only counts with is a [Z]; one it
      divides (durations, scores, progress, averages) is an exact rational
      [Q], so the rounding of IEEE doubles is abstracted away.
    - A [Date] is its epoch time in milliseconds.
    - An [async] handler is a computation in the monad [Eff]: it threads the
      component's live state, the environment (clock and back end) and the
      log of observable events, and it completes normally or by a throw.
      A handler reads the state of the render it was created in (its [snap]
      argument) and writes through functional updates of the live state, as
      a React closure does. *)

From Stdlib Require Import Ascii String DecimalString.
From Stdlib Require Import List Bool Arith ZArith NArith QArith Lia.
From Stdlib Require Import Qround Qabs.
Import ListNotations.

Set Implicit Arguments.
Set Warnings "-register-all".

(* ================================================================== *)
(** ** The JavaScript values the handlers use *)
(* ================================================================== *)

Module Js.

(** A string, by code units. *)
Definition jsstring := list N.

Definition str (s : String.string) : jsstring :=
  List.map Ascii.N_of_ascii (String.list_ascii_of_string s).
Arguments str s%_string.

Definition string_eq_dec : forall a b : jsstring, {a = b} + {a <> b} :=
  list_eq_dec N.eq_dec.

(** [a === b] on strings. *)
Fixpoint eqb (a b : jsstring) : bool :=
  match a, b with
  | [], [] => true
  | x :: a', y :: b' => N.eqb x y && eqb a' b'
  | _, _ => false
  end.

(** [!s] for a string [s]. *)
Definition falsy (s : jsstring) : bool :=
  match s with [] => true | _ :: _ => false end.

(** The code points ECMAScript calls WhiteSpace or LineTerminator; these
    are what [String.prototype.trim] strips. *)
Definition white_space_table : list N :=
  [ 9; 10; 11; 12; 13; 32; 160; 5760;
    8192; 8193; 8194; 8195; 8196; 8197; 8198; 8199; 8200; 8201; 8202;
    8232; 8233; 8239; 8287; 12288; 65279 ]%N.

Definition is_white_space (c : N) : bool :=
  existsb (N.eqb c) white_space_table.

Fixpoint trimStart (s : jsstring) : jsstring :=
  match s with
  | [] => []
  | c :: rest => if is_white_space c then trimStart rest else s
  end.

Definition trimEnd (s : jsstring) : jsstring := rev (trimStart (rev s)).

Definition trim (s : jsstring) : jsstring := trimEnd (trimStart s).

(** Empty or white space only. *)
Definition is_blank (s : jsstring) : bool := forallb is_white_space s.

(** Surrogate code units. *)
Definition is_high_surrogate (c : N) : bool :=
  (55296 <=? c)%N && (c <=? 56319)%N.
Definition is_low_surrogate (c : N) : bool :=
  (56320 <=? c)%N && (c <=? 57343)%N.

(** No lone surrogate. [encodeURIComponent] throws a URIError on a string
    that fails this test. *)
Fixpoint isWellFormed (s : jsstring) : bool :=
  match s with
  | [] => true
  | c :: rest =>
      if is_high_surrogate c then
        match rest with
        | d :: rest' => is_low_surrogate d && isWellFormed rest'
        | [] => false
        end
      else if is_low_surrogate c then false
      else isWellFormed rest
  end.

(** [n.toString()] for an integer [n]. *)
Definition Number_toString (n : Z) : jsstring :=
  str (DecimalString.NilZero.string_of_int (Z.to_int n)).

(** [a.slice(0, -1)]. *)
Definition slice_0_m1 {A} (a : list A) : list A := removelast a.

(** [x || y] where [x] is a string or [undefined]. *)
Definition or_string (x : option jsstring) (y : jsstring) : jsstring :=
  match x with
  | Some (c :: rest) => c :: rest
  | Some [] | None => y
  end.

(** [`${x}`] where [x] is a string or [undefined]. *)
Definition template (x : option jsstring) : jsstring :=
  match x with Some v => v | None => str "undefined" end.

(** [x || y] on numbers ([NaN] is not represented). *)
Definition or_number (x y : Q) : Q := if Qeq_bool x 0 then y else x.

(** A thrown [Error]. *)
Inductive ErrorName := Error_ | TypeError_ | SyntaxError_ | URIError_.
Record JsError := mkError { err_name : ErrorName; message : jsstring }.

(** How a call ends. *)
Inductive Completion (A : Type) : Type :=
| Normal (a : A)
| Throw (e : JsError).
Arguments Normal {A} a.
Arguments Throw {A} e.

(** The value a JSON document denotes.  [JSON.stringify] and [JSON.parse]
    belong to the platform; a document is identified with its value. *)
Inductive Json :=
| JNull
| JBool (b : bool)
| JNum (q : Q)
| JStr (s : jsstring)
| JArr (items : list Json)
| JObj (props : list (jsstring * Json)).

Fixpoint assoc {V} (k : jsstring) (l : list (jsstring * V)) : option V :=
  match l with
  | [] => None
  | (k', v) :: rest => if eqb k' k then Some v else assoc k rest
  end.

(** [doc[k]] on a parsed document. *)
Definition prop (k : jsstring) (doc : Json) : option Json :=
  match doc with JObj props => assoc k props | _ => None end.

Definition elements (doc : Json) : list Json :=
  match doc with JArr items => items | _ => [] end.

(** [x.toFixed(f)] for a number of magnitude below 10^21: the digits of
    the integer [n] that makes [n / 10^f] closest to [x], the larger one of
    two, with [f] of them after the point. *)
Definition toFixed (f : nat) (x : Q) : jsstring :=
  let negative := negb (Qle_bool 0 x) in
  let n := Qfloor (Qabs x * inject_Z (10 ^ Z.of_nat f) + (1 # 2)) in
  let digits := Number_toString n in
  let padded := repeat 48%N (f + 1 - length digits) ++ digits in
  let k := (length padded - f)%nat in
  (if negative then [45%N] else [])
  ++ firstn k padded
  ++ (if (f =? 0)%nat then [] else 46%N :: skipn k padded).

(** [s.split(sep).pop()]: what follows the last [sep] in [s]. *)
Fixpoint last_segment (sep : N) (s : jsstring) : jsstring :=
  match s with
  | [] => []
  | c :: rest =>
      if existsb (N.eqb sep) rest then last_segment sep rest
      else if N.eqb c sep then rest
      else s
  end.

(** The white space a JSON text may begin with. *)
Definition is_json_ws (c : N) : bool :=
  (c =? 32)%N || (c =? 9)%N || (c =? 10)%N || (c =? 13)%N.

(** Whether the first character of a text after such white space is an
    opening bracket.  [JSON.parse] gives an array for no other text. *)
Fixpoint begins_array (s : jsstring) : bool :=
  match s with
  | [] => false
  | c :: rest => if is_json_ws c then begins_array rest else N.eqb c 91
  end.

End Js.

(** A [Map] with string keys.  Iteration follows insertion order, and
  setting a key that is present replaces its value in place. *)
Module JsMap.
Import Js.

Definition t (V : Type) := list (jsstring * V).

Definition empty {V} : t V := [].

Definition get {V} (k : jsstring) (m : t V) : option V := assoc k m.

Fixpoint set {V} (k : jsstring) (v : V) (m : t V) : t V :=
  match m with
  | [] => [(k, v)]
  | (k', v') :: rest =>
      if eqb k' k then (k', v) :: rest else (k', v') :: set k v rest
  end.

(** A map has at most one binding of a key; [delete] drops every one. *)
Fixpoint delete {V} (k : jsstring) (m : t V) : t V :=
  match m with
  | [] => []
  | (k', v') :: rest =>
      if eqb k' k then delete k rest else (k', v') :: delete k rest
  end.

Definition entries {V} (m : t V) : list (jsstring * V) := m.
Definition keys {V} (m : t V) : list jsstring := List.map fst m.
Definition values {V} (m : t V) : list V := List.map snd m.
Definition size {V} (m : t V) : nat := List.length m.

(** [new Map(m)]. *)
Definition copy {V} (m : t V) : t V := m.

End JsMap.

(* ================================================================== *)
(** ** Asynchronous handlers as computations *)
(* ================================================================== *)

Module Effects.
Import Js.

(** What [await fetch(..)] resolves to: the status line and what
    [response.json()] will give. *)
Record Response (D : Type) := mkResponse {
  http_status : Z;                   (* [response.status] *)
  json : Completion D                (* [await response.json()] *)
}.

(** [response.ok]. *)
Definition ok {D} (r : Response D) : bool :=
  (200 <=? http_status r)%Z && (http_status r <=? 299)%Z.

Inductive FetchOutcome (D : Type) : Type :=
| Rejects (e : JsError)
| Resolves (r : Response D).
Arguments Rejects {D} e.
Arguments Resolves {D} r.

Inductive ToastKind := toast_success | toast_error.

Section WithRequests.
(** The requests a component sends, and for each the type its reply
    body has when it parses. *)
Context {Req : Type} {Payload : Req -> Type}.

(** The world outside the component: a clock and a back end.  Each
    reading of the clock and each request may change it. *)
Class Platform (E : Type) := {
  clock : E -> Z * E;
  serve : forall r : Req, E -> FetchOutcome (Payload r) * E
}.

(** What an observer of the page and of the wire sees. *)
Inductive Event :=
| Requested (r : Req)
| Settled (r : Req)
| Toast (k : ToastKind) (msg : jsstring)
| ConsoleError
| StorageGet (key : jsstring)
| StorageSet (key : jsstring)
| StorageRemove (key : jsstring)
| Download (filename : jsstring) (doc : Json).

Context {S E Item : Type} `{Platform E}.

Record Run := mkRun {
  ui : S;                        (* the component's live state *)
  env : E;
  localStorage : JsMap.t Item;
  log : list Event               (* oldest first *)
}.

Definition Eff (A : Type) : Type := Run -> Completion A * Run.

Definition ret {A} (a : A) : Eff A := fun r => (Normal a, r).

Definition bind {A B} (m : Eff A) (k : A -> Eff B) : Eff B :=
  fun r =>
    match m r with
    | (Normal a, r') => k a r'
    | (Throw e, r') => (Throw e, r')
    end.

Definition throw {A} (e : JsError) : Eff A := fun r => (Throw e, r).

Definition lift {A} (c : Completion A) : Eff A := fun r => (c, r).

(** [try { body } catch (e) { handler }] *)
Definition try_catch {A} (body : Eff A) (handler : JsError -> Eff A)
  : Eff A :=
  fun r =>
    match body r with
    | (Normal a, r') => (Normal a, r')
    | (Throw e, r') => handler e r'
    end.

(** [try { body } finally { final }] *)
Definition try_finally {A} (body : Eff A) (final : Eff unit) : Eff A :=
  fun r =>
    match body r with
    | (c, r') =>
        match final r' with
        | (Normal _, r'') => (c, r'')
        | (Throw e, r'') => (Throw e, r'')
        end
    end.

Definition getState : Eff S := fun r => (Normal (ui r), r).

(** A state setter called with an updater function. *)
Definition setState (f : S -> S) : Eff unit :=
  fun r => (Normal tt,
            {| ui := f (ui r); env := env r;
               localStorage := localStorage r; log := log r |}).

Definition emit (ev : Event) : Eff unit :=
  fun r => (Normal tt,
            {| ui := ui r; env := env r;
               localStorage := localStorage r; log := log r ++ [ev] |}).

(** [Date.now()], and [new Date()] as its epoch time. *)
Definition Date_now : Eff Z :=
  fun r =>
    let (t, e') := clock (env r) in
    (Normal t,
     {| ui := ui r; env := e';
        localStorage := localStorage r; log := log r |}).

(** [await fetch(..)]: the request goes out, the handler is suspended
    until it settles, and a rejection is thrown at the [await]. *)
Definition fetch (q : Req) : Eff (Response (Payload q)) :=
  fun r =>
    let (o, e') := serve q (env r) in
    let r' := {| ui := ui r; env := e';
                 localStorage := localStorage r;
                 log := log r ++ [Requested q; Settled q] |} in
    match o with
    | Rejects e => (Throw e, r')
    | Resolves resp => (Normal resp, r')
    end.

(** The requests a log shows going out. *)
Definition requested (l : list Event) : list Req :=
  flat_map (fun ev => match ev with Requested r => [r] | _ => [] end) l.

(** The writings of a key a log shows, and the readings. *)
Definition writes_of (key : jsstring) (l : list Event) : list Event :=
  filter (fun ev => match ev with StorageSet k => eqb k key | _ => false end)
     l.

Definition reads_of (key : jsstring) (l : list Event) : list Event :=
  filter (fun ev => match ev with StorageGet k => eqb k key | _ => false end)
     l.

Definition is_toast (ev : Event) : bool :=
  match ev with Toast _ _ => true | _ => false end.

Definition toast (k : ToastKind) (msg : jsstring) : Eff unit :=
  emit (Toast k msg).

Definition console_error : Eff unit := emit ConsoleError.

Definition localStorage_getItem (key : jsstring) : Eff (option Item) :=
  fun r =>
    (Normal (JsMap.get key (localStorage r)),
     {| ui := ui r; env := env r;
        localStorage := localStorage r;
        log := log r ++ [StorageGet key] |}).

Definition localStorage_setItem (key : jsstring) (v : Item) : Eff unit :=
  fun r =>
    (Normal tt,
     {| ui := ui r; env := env r;
        localStorage := JsMap.set key v (localStorage r);
        log := log r ++ [StorageSet key] |}).

Definition localStorage_removeItem (key : jsstring) : Eff unit :=
  fun r =>
    (Normal tt,
     {| ui := ui r; env := env r;
        localStorage := JsMap.delete key (localStorage r);
        log := log r ++ [StorageRemove key] |}).

End WithRequests.

Arguments Event Req : clear implicits.
Arguments Run Req S E Item : clear implicits.
Arguments Eff Req S E Item A : clear implicits.
Arguments Platform Req Payload E : clear implicits.

Declare Scope eff_scope.
Delimit Scope eff_scope with eff.
Notation "x <- m ;; k" := (bind m (fun x => k))
  (at level 61, m at next level, right associativity) : eff_scope.
Notation "m ;; k" := (bind m (fun _ => k))
  (at level 61, right associativity) : eff_scope.

End Effects.

(* ================================================================== *)
(** ** TestRetrieval: the retrieval test harness *)
(* ================================================================== *)

Module TestRetrieval.
Import Js Effects.
#[local] Open Scope eff_scope.

Record RetrievalResult := {
  title : jsstring;
  score : Q;
  content_preview : jsstring
}.

Record Config := { limit : Z; min_similarity : Q }.

Inductive Status := success | error | pending.

Definition Status_eqb (a b : Status) : bool :=
  match a, b with
  | success, success | error, error | pending, pending => true
  | _, _ => false
  end.

Record TestResult := {
  query : jsstring;
  results_count : Z;
  results : list RetrievalResult;
  duration_seconds : Q;
  config : Config;
  status : Status;
  error_message : option jsstring;     (* [error?: string] *)
  timestamp : Z
}.

Record TestScenario := {
  id : jsstring;
  scenario_query : jsstring;           (* [query] *)
  expectedMatch : option jsstring
}.

(** The body of a reply of [GET /chat/test-retrieval], as the handler
    reads it. *)
Record RetrievalData := {
  data_results_count : Z;
  data_results : list RetrievalResult;
  data_duration_seconds : Q;
  data_config : Config
}.

(** [GET ${BACKEND_URL}/chat/test-retrieval?query=${encodeURIComponent(q)}],
    named by [q]. *)
Inductive Req := GET_test_retrieval (q : jsstring).

Definition Payload (_ : Req) : Type := RetrievalData.

Definition DEFAULT_SCENARIOS : list TestScenario :=
  [ {| id := str "1"; scenario_query := str "siapa Arifian?";
       expectedMatch := Some (str "Arifian") |};
    {| id := str "2"; scenario_query := str "apakah Arifian masih kuliah?";
       expectedMatch := Some (str "kuliah") |};
    {| id := str "3"; scenario_query := str "apa pekerjaan Arifian?";
       expectedMatch := Some (str "pekerjaan") |};
    {| id := str "4"; scenario_query := str "what is AI?";
       expectedMatch := Some (str "AI") |};
    {| id := str "5"; scenario_query := str "machine learning";
       expectedMatch := Some (str "learning") |} ].

Record State := {
  scenarios : list TestScenario;
  st_results : JsMap.t TestResult;     (* [results] *)
  newQuery : jsstring;
  singleQuery : jsstring;
  singleResult : option TestResult;
  isRunningAll : bool;
  isRunningSingle : bool;
  progress : Q
}.

Definition initial : State :=
  {| scenarios := DEFAULT_SCENARIOS; st_results := JsMap.empty;
     newQuery := []; singleQuery := []; singleResult := None;
     isRunningAll := false; isRunningSingle := false; progress := 0 |}.

Definition with_scenarios (v : list TestScenario) (s : State) : State :=
  {| scenarios := v; st_results := st_results s; newQuery := newQuery s;
     singleQuery := singleQuery s; singleResult := singleResult s;
     isRunningAll := isRunningAll s; isRunningSingle := isRunningSingle s;
     progress := progress s |}.

Definition with_results (v : JsMap.t TestResult) (s : State) : State :=
  {| scenarios := scenarios s; st_results := v; newQuery := newQuery s;
     singleQuery := singleQuery s; singleResult := singleResult s;
     isRunningAll := isRunningAll s; isRunningSingle := isRunningSingle s;
     progress := progress s |}.

Definition with_newQuery (v : jsstring) (s : State) : State :=
  {| scenarios := scenarios s; st_results := st_results s; newQuery := v;
     singleQuery := singleQuery s; singleResult := singleResult s;
     isRunningAll := isRunningAll s; isRunningSingle := isRunningSingle s;
     progress := progress s |}.

Definition with_isRunningAll (v : bool) (s : State) : State :=
  {| scenarios := scenarios s; st_results := st_results s;
     newQuery := newQuery s;
     singleQuery := singleQuery s; singleResult := singleResult s;
     isRunningAll := v; isRunningSingle := isRunningSingle s;
     progress := progress s |}.

Definition with_progress (v : Q) (s : State) : State :=
  {| scenarios := scenarios s; st_results := st_results s;
     newQuery := newQuery s;
     singleQuery := singleQuery s; singleResult := singleResult s;
     isRunningAll := isRunningAll s; isRunningSingle := isRunningSingle s;
     progress := v |}.

(** [n] as a number. *)
Definition num (n : nat) : Q := inject_Z (Z.of_nat n).

(** *** The metrics, computed from the results at every render *)

Definition completedTests (results : JsMap.t TestResult) : list TestResult :=
  filter (fun r => negb (Status_eqb (status r) pending))
         (JsMap.values results).

Definition successfulTests (results : JsMap.t TestResult) : list TestResult :=
  filter (fun r => Status_eqb (status r) success && (0 <? results_count r)%Z)
         (completedTests results).

Definition failedTests (results : JsMap.t TestResult) : list TestResult :=
  filter (fun r => Status_eqb (status r) error || (results_count r =? 0)%Z)
         (completedTests results).

(** [r.results[0]?.score || 0] *)
Definition top_score (r : TestResult) : Q :=
  match results r with
  | [] => 0
  | first :: _ => or_number (score first) 0
  end.

Definition avgDuration (results : JsMap.t TestResult) : Q :=
  if (0 <? length (completedTests results))%nat
  then fold_left (fun sum r => sum + duration_seconds r)
                 (completedTests results) 0
       / num (length (completedTests results))
  else 0.

Definition avgScore (results : JsMap.t TestResult) : Q :=
  if (0 <? length (successfulTests results))%nat
  then fold_left (fun sum r => sum + top_score r)
                 (successfulTests results) 0
       / num (length (successfulTests results))
  else 0.

Section Handlers.
Context {E : Type} `{Platform Req Payload E}.

Abbreviation M := (Eff Req State E unit).

Definition setScenarios (v : list TestScenario) : M unit :=
  setState (with_scenarios v).
Definition setResults (v : JsMap.t TestResult) : M unit :=
  setState (with_results v).
Definition setNewQuery (v : jsstring) : M unit :=
  setState (with_newQuery v).
Definition setIsRunningAll (v : bool) : M unit :=
  setState (with_isRunningAll v).
Definition setProgress (v : Q) : M unit :=
  setState (with_progress v).

(** [encodeURIComponent(s)], as far as the handler depends on it: it
    throws on a lone surrogate, and otherwise the request is named by [s]. *)
Definition encodeURIComponent (s : jsstring) : M jsstring :=
  if isWellFormed s then ret s
  else throw (mkError URIError_ (str "URI malformed")).

Definition runSingleTest (q : jsstring) : M TestResult :=
  startTime <- Date_now ;;
  try_catch
    (encoded <- encodeURIComponent q ;;
     response <- fetch (GET_test_retrieval encoded) ;;
     (if negb (ok response)
      then throw (mkError Error_
                    (str "HTTP " ++ Number_toString (http_status response)))
      else ret tt) ;;
     data <- lift (json response) ;;
     now <- Date_now ;;
     ret {| query := q;
            results_count := data_results_count data;
            results := data_results data;
            duration_seconds := data_duration_seconds data;
            config := data_config data;
            status := success;
            error_message := None;
            timestamp := now |})
    (fun err =>
       stopTime <- Date_now ;;
       now <- Date_now ;;
       ret {| query := q;
              results_count := 0;
              results := [];
              duration_seconds := inject_Z (stopTime - startTime) / 1000;
              config := {| limit := 5; min_similarity := 0.25 |};
              status := error;
              error_message := Some (message err);
              timestamp := now |}).

(** The body of the [for] loop of [handleRunAll], from index [i] on;
    [n] is [scenarios.length] and [newResults] the local map. *)
Fixpoint run_from (n i : nat) (rest : list TestScenario)
    (newResults : JsMap.t TestResult) : M (JsMap.t TestResult) :=
  match rest with
  | [] => ret newResults
  | scenario :: rest' =>
      result <- runSingleTest (scenario_query scenario) ;;
      let newResults' := JsMap.set (id scenario) result newResults in
      setResults (JsMap.copy newResults') ;;
      setProgress ((num (i + 1) / num n) * 100) ;;
      run_from n (S i) rest' newResults'
  end.

Definition handleRunAll (snap : State) : M unit :=
  setIsRunningAll true ;;
  setProgress 0 ;;
  _ <- run_from (length (scenarios snap)) 0 (scenarios snap) JsMap.empty ;;
  setIsRunningAll false ;;
  toast toast_success
    (str "Completed "
       ++ Number_toString (Z.of_nat (length (scenarios snap)))
       ++ str " tests").

Definition handleAddScenario (snap : State) : M unit :=
  if falsy (trim (newQuery snap))
  then toast toast_error (str "Please enter a query")
  else
    now <- Date_now ;;
    let newScenario := {| id := Number_toString now;
                          scenario_query := trim (newQuery snap);
                          expectedMatch := None |} in
    setScenarios (scenarios snap ++ [newScenario]) ;;
    setNewQuery [] ;;
    toast toast_success (str "Scenario added").

Definition handleRemoveScenario (snap : State) (i : jsstring) : M unit :=
  setScenarios
    (filter (fun s => negb (eqb (id s) i)) (scenarios snap)) ;;
  setResults (JsMap.delete i (JsMap.copy (st_results snap))).

(** *** Export *)

(** What [JSON.stringify] makes of a result; [toISOString] is the
    platform's [Date.prototype.toISOString]. *)
Definition RetrievalResult_toJSON (r : RetrievalResult) : Json :=
  JObj [ (str "title", JStr (title r));
         (str "score", JNum (score r));
         (str "content_preview", JStr (content_preview r)) ].

Definition Config_toJSON (c : Config) : Json :=
  JObj [ (str "limit", JNum (inject_Z (limit c)));
         (str "min_similarity", JNum (min_similarity c)) ].

Definition Status_toJSON (s : Status) : Json :=
  JStr match s with
       | success => str "success"
       | error => str "error"
       | pending => str "pending"
       end.

(** The own properties of a result object, in creation order; a property
    that is [undefined] is not serialised. *)
Definition TestResult_props (toISOString : Z -> jsstring) (r : TestResult)
  : list (jsstring * Json) :=
  [ (str "query", JStr (query r));
    (str "results_count", JNum (inject_Z (results_count r)));
    (str "results", JArr (List.map RetrievalResult_toJSON (results r)));
    (str "duration_seconds", JNum (duration_seconds r));
    (str "config", Config_toJSON (config r));
    (str "status", Status_toJSON (status r)) ]
  ++ match error_message r with
     | Some m => [ (str "error", JStr m) ]
     | None => []
     end
  ++ [ (str "timestamp", JStr (toISOString (timestamp r))) ].

(** [{ ...target, ...source }]: each property of [source] is assigned in
    turn. *)
Definition spread (target source : list (jsstring * Json))
  : list (jsstring * Json) :=
  fold_left (fun o kv => JsMap.set (fst kv) (snd kv) o) source target.

(** [s.split('T')[0]] *)
Fixpoint before_T (s : jsstring) : jsstring :=
  match s with
  | [] => []
  | c :: rest => if N.eqb c 84 then [] else c :: before_T rest
  end.

Definition export_entry (toISOString : Z -> jsstring)
    (entry : jsstring * TestResult) : Json :=
  JObj (spread [ (str "scenario_id", JStr (fst entry)) ]
               (TestResult_props toISOString (snd entry))).

Definition export_data (toISOString : Z -> jsstring) (now : Z)
    (results : JsMap.t TestResult) : Json :=
  JObj [ (str "timestamp", JStr (toISOString now));
         (str "metrics",
          JObj [ (str "total_tests",
                  JNum (num (length (completedTests results))));
                 (str "successful",
                  JNum (num (length (successfulTests results))));
                 (str "failed",
                  JNum (num (length (failedTests results))));
                 (str "avg_duration", JNum (avgDuration results));
                 (str "avg_score", JNum (avgScore results)) ]);
         (str "results",
          JArr (List.map (export_entry toISOString)
                         (JsMap.entries results))) ].

Definition exportResults (toISOString : Z -> jsstring) (snap : State)
  : M unit :=
  now <- Date_now ;;
  let data := export_data toISOString now (st_results snap) in
  today <- Date_now ;;
  emit (Download (str "retrieval-test-"
                    ++ before_T (toISOString today) ++ str ".json")
                 data) ;;
  toast toast_success (str "Results exported").

End Handlers.

(** The configuration an error result carries. *)
Definition default_config : Config := {| limit := 5; min_similarity := 0.25 |}.

(** *** A scripted environment, for running the handlers on examples *)

Record Script := {
  ticks : list Z;                               (* clock readings to come *)
  replies : list (FetchOutcome RetrievalData)   (* settlements to come *)
}.

Definition failed_to_fetch : JsError :=
  mkError TypeError_ (str "Failed to fetch").

#[global] Instance scripted : Platform Req Payload Script := {
  clock s :=
    match ticks s with
    | [] => (0%Z, s)
    | t :: rest => (t, {| ticks := rest; replies := replies s |})
    end;
  serve _ s :=
    match replies s with
    | [] => (Rejects failed_to_fetch, s)
    | o :: rest => (o, {| ticks := ticks s; replies := rest |})
    end
}.

Definition start (st : State) (s : Script) : Run Req State Script unit :=
  {| ui := st; env := s; localStorage := JsMap.empty; log := [] |}.

(** *** Example runs *)

Definition typed (text : jsstring) (st : State) : State :=
  with_newQuery text st.

(** Two scenarios are added while the clock reads the same millisecond,
    and then all are run. *)
Definition same_instant : Script :=
  {| ticks := [1700000000000; 1700000000000]%Z; replies := [] |}.

Definition added_once : Run Req State Script unit :=
  snd (handleAddScenario (typed (str "first") initial)
         (start (typed (str "first") initial) same_instant)).

Definition added_twice : Run Req State Script unit :=
  snd (handleAddScenario (typed (str "second") (ui added_once))
         {| ui := typed (str "second") (ui added_once);
            env := env added_once;
            localStorage := localStorage added_once;
            log := log added_once |}).

(** A scenario whose query is a lone high surrogate. *)
Definition lone_surrogate : State :=
  with_scenarios
    [ {| id := str "1"; scenario_query := [55296%N];
         expectedMatch := None |} ]
    initial.

(** One hit with score 0.8. *)
Definition one_hit : RetrievalData :=
  {| data_results_count := 1;
     data_results := [ {| title := str "About"; score := 0.8;
                          content_preview := str "Arifian is" |} ];
     data_duration_seconds := 0.12;
     data_config := default_config |}.

(** The first request succeeds with one hit, every later one is rejected. *)
Definition first_succeeds : Script :=
  {| ticks := [1000; 1500; 2000; 2600; 3000]%Z;
     replies := [ Resolves (mkResponse 200 (Normal one_hit)) ] |}.

(** No request gets through. *)
Definition offline : Script := {| ticks := []; replies := [] |}.

(** An environment in which no request ever gets through. *)
Inductive Down := down.

#[global] Instance unreachable : Platform Req Payload Down := {
  clock e := (0%Z, e);
  serve _ e := (Rejects failed_to_fetch, e)
}.

(** The results after the default scenarios were run with only the first
    request answered. *)
Definition one_of_five : JsMap.t TestResult :=
  st_results (ui (snd (handleRunAll initial (start initial first_succeeds)))).

(** *** Notions the properties are stated with *)

(** What one call of [runSingleTest] shows on the wire: a request that
    settles, unless the query cannot be encoded. *)
Definition attempt_events (q : jsstring) : list (Event Req) :=
  if isWellFormed q
  then [ Requested (GET_test_retrieval q); Settled (GET_test_retrieval q) ]
  else [].

Section Notions.
Context {E : Type} `{Platform Req Payload E}.

(** The request for [q] fails in environment [e]: the fetch rejects, the
    status is not 2xx, or the body does not parse. *)
Definition request_fails (q : jsstring) (e : E) : Prop :=
  match fst (serve (GET_test_retrieval q) e) with
  | Rejects _ => True
  | Resolves response =>
      ok response = false \/ exists err, json response = Throw err
  end.

(** The environment when the [catch] block of [runSingleTest q] is
    entered, [e] being the one after [startTime] was read. *)
Definition env_at_catch (q : jsstring) (e : E) : E :=
  if isWellFormed q then snd (serve (GET_test_retrieval q) e) else e.

(** [r] is a result of [runSingleTest] for the query of [s]: what a call
    returns in some state of the component and of the environment. *)
Definition result_of (s : TestScenario) (r : TestResult) : Prop :=
  exists run : Run Req State E unit,
    fst (runSingleTest (scenario_query s) run) = Normal r.

(** [handleRunAll] up to the completion of the first [k] scenarios. *)
Definition run_prefix (snap : State) (k : nat)
  : Eff Req State E unit (JsMap.t TestResult) :=
  setIsRunningAll true ;;
  setProgress 0 ;;
  run_from (length (scenarios snap)) 0 (firstn k (scenarios snap))
    JsMap.empty.

End Notions.

(** The local map of [handleRunAll] after the results [rs] of the
    scenarios with ids [ks] were stored in it, in order. *)
Definition store (ks : list jsstring) (rs : list TestResult)
    (m : JsMap.t TestResult) : JsMap.t TestResult :=
  fold_left (fun acc kr => JsMap.set (fst kr) (snd kr) acc) (combine ks rs) m.

(** The state in which the loop leaves the component when it has run
    [count] iterations, the last of them with index [count - 1 + i]. *)
Definition after_loop (n i count : nat) (m : JsMap.t TestResult) (u : State)
  : State :=
  match count with
  | O => u
  | S c => with_progress ((num (c + i + 1) / num n) * 100) (with_results m u)
  end.

(** The sum of a field over results, and what it is for a number to be
    the arithmetic mean of the field: zero over no results. *)
Fixpoint sum_over (f : TestResult -> Q) (l : list TestResult) : Q :=
  match l with
  | [] => 0
  | r :: rest => f r + sum_over f rest
  end.

Definition is_mean (avg : Q) (f : TestResult -> Q) (l : list TestResult)
  : Prop :=
  match l with
  | [] => avg == 0
  | _ :: _ => avg * num (length l) == sum_over f l
  end.

(** The score of the first hit of a result, zero when it has none. *)
Definition first_score (r : TestResult) : Q :=
  match results r with
  | [] => 0
  | first :: _ => score first
  end.

(** The [metrics] object of an exported document. *)
Record Metrics := {
  total_tests : Q;
  successful : Q;
  failed : Q;
  avg_duration : Q;
  avg_score : Q
}.

(** The four cards of the metrics dashboard, each with the text it
    shows. *)
Record Cards := {
  card_total : jsstring;          (* [{completedTests.length}] *)
  card_with_results : jsstring;   (* [{successfulTests.length}] *)
  card_avg_duration : jsstring;   (* [{avgDuration.toFixed(2)}s] *)
  card_avg_score : jsstring       (* [{(avgScore * 100).toFixed(1)}%] *)
}.

(** [{completedTests.length > 0 && ( .. )}]: the cards a render draws. *)
Definition cards (results : JsMap.t TestResult) : option Cards :=
  if (0 <? length (completedTests results))%nat
  then Some
         {| card_total :=
              Number_toString (Z.of_nat (length (completedTests results)));
            card_with_results :=
              Number_toString (Z.of_nat (length (successfulTests results)));
            card_avg_duration :=
              toFixed 2 (avgDuration results) ++ str "s";
            card_avg_score :=
              toFixed 1 (avgScore results * 100) ++ str "%" |}
  else None.

(** The cards as a reader of an exported document draws them from its
    numbers. *)
Definition cards_of (m : Metrics) : option Cards :=
  if Qle_bool (total_tests m) 0 then None
  else Some
         {| card_total := Number_toString (Qfloor (total_tests m));
            card_with_results := Number_toString (Qfloor (successful m));
            card_avg_duration := toFixed 2 (avg_duration m) ++ str "s";
            card_avg_score := toFixed 1 (avg_score m * 100) ++ str "%" |}.

(** Reading an exported document back. *)
Definition read_number (j : option Json) : option Q :=
  match j with Some (JNum q) => Some q | _ => None end.

Definition read_string (j : option Json) : option jsstring :=
  match j with Some (JStr v) => Some v | _ => None end.

Definition read_metrics (doc : Json) : option Metrics :=
  match prop (str "metrics") doc with
  | Some m =>
      match read_number (prop (str "total_tests") m),
            read_number (prop (str "successful") m),
            read_number (prop (str "failed") m),
            read_number (prop (str "avg_duration") m),
            read_number (prop (str "avg_score") m) with
      | Some a, Some b, Some c, Some d, Some e =>
          Some {| total_tests := a; successful := b; failed := c;
                  avg_duration := d; avg_score := e |}
      | _, _, _, _, _ => None
      end
  | None => None
  end.

(** The scenario id and the result count of an exported entry. *)
Definition read_entry (j : Json) : option (jsstring * Q) :=
  match read_string (prop (str "scenario_id") j),
        read_number (prop (str "results_count") j) with
  | Some i, Some c => Some (i, c)
  | _, _ => None
  end.

Definition read_entries (doc : Json) : list (option (jsstring * Q)) :=
  match prop (str "results") doc with
  | Some arr => List.map read_entry (elements arr)
  | None => []
  end.

(** *** The quick test *)

Definition with_singleQuery (v : jsstring) (s : State) : State :=
  {| scenarios := scenarios s; st_results := st_results s;
     newQuery := newQuery s;
     singleQuery := v; singleResult := singleResult s;
     isRunningAll := isRunningAll s; isRunningSingle := isRunningSingle s;
     progress := progress s |}.

Definition with_singleResult (v : option TestResult) (s : State) : State :=
  {| scenarios := scenarios s; st_results := st_results s;
     newQuery := newQuery s;
     singleQuery := singleQuery s; singleResult := v;
     isRunningAll := isRunningAll s; isRunningSingle := isRunningSingle s;
     progress := progress s |}.

Definition with_isRunningSingle (v : bool) (s : State) : State :=
  {| scenarios := scenarios s; st_results := st_results s;
     newQuery := newQuery s;
     singleQuery := singleQuery s; singleResult := singleResult s;
     isRunningAll := isRunningAll s; isRunningSingle := v;
     progress := progress s |}.

Section QuickTest.
Context {E : Type} `{Platform Req Payload E}.

Definition setSingleResult (v : option TestResult)
  : Eff Req State E unit unit :=
  setState (with_singleResult v).
Definition setIsRunningSingle (v : bool) : Eff Req State E unit unit :=
  setState (with_isRunningSingle v).

Definition handleRunSingle (snap : State) : Eff Req State E unit unit :=
  if falsy (trim (singleQuery snap))
  then toast toast_error (str "Please enter a query")
  else
    setIsRunningSingle true ;;
    setSingleResult None ;;
    try_catch
      (result <- runSingleTest (singleQuery snap) ;;
       setSingleResult (Some result) ;;
       if Status_eqb (status result) success
       then toast toast_success
              (str "Found " ++ Number_toString (results_count result)
                 ++ str " results in "
                 ++ toFixed 3 (duration_seconds result) ++ str "s")
       else toast toast_error
              (str "Test failed: " ++ template (error_message result)))
      (fun error => toast toast_error (str "Failed to run test")) ;;
    setIsRunningSingle false.

End QuickTest.

(** *** A click while run all is suspended *)

Section Interleaving.
Context {E : Type} `{Platform Req Payload E}.

(** [handleRunAll] with a click on the remove button of scenario [i] while
    the run is suspended in the call for the scenario at index [k]; the
    button is not disabled during a run.  The click is handled in the
    render of that moment, and the run goes on with the scenario list and
    the local map of its own closure.  The call in which the run is
    suspended reads and writes no state of the component, and the click
    nothing of the environment, so the click is placed before the call. *)
Definition handleRunAll_interrupted (snap : State) (k : nat) (i : jsstring)
  : Eff Req State E unit unit :=
  setIsRunningAll true ;;
  setProgress 0 ;;
  newResults <- run_from (length (scenarios snap)) 0
                  (firstn k (scenarios snap)) JsMap.empty ;;
  rendered <- getState ;;
  handleRemoveScenario rendered i ;;
  _ <- run_from (length (scenarios snap)) k (skipn k (scenarios snap))
         newResults ;;
  setIsRunningAll false ;;
  toast toast_success
    (str "Completed "
       ++ Number_toString (Z.of_nat (length (scenarios snap)))
       ++ str " tests").

End Interleaving.

(** *** The colour and the badge of a score *)

Definition getScoreColor (score : Q) : jsstring :=
  if Qle_bool 0.5 score then str "text-green-500"
  else if Qle_bool 0.35 score then str "text-yellow-500"
  else str "text-red-500".

Definition getScoreBadgeVariant (score : Q) : jsstring :=
  if Qle_bool 0.5 score then str "default"
  else if Qle_bool 0.35 score then str "secondary"
  else str "destructive".

(** *** More notions *)

(** Every entry of the results map belongs to a scenario of the list. *)
Definition linked (s : State) : Prop :=
  forall k, In k (JsMap.keys (st_results s)) ->
            In k (List.map id (scenarios s)).

(** How good a badge is. *)
Definition badge_rank (variant : jsstring) : nat :=
  if eqb variant (str "default") then 2
  else if eqb variant (str "secondary") then 1
  else 0.

(** The first request is answered with one hit. *)
Definition answered : Script :=
  {| ticks := [1000; 1500]%Z;
     replies := [ Resolves (mkResponse 200 (Normal one_hit)) ] |}.

(** A query is typed in the quick test. *)
Definition quick (text : jsstring) : State := with_singleQuery text initial.

End TestRetrieval.


(* ================================================================== *)
(** ** GroqChat: the chat tab of the dashboard *)
(* ================================================================== *)

Module GroqChat.
Import Js Effects.
#[local] Open Scope eff_scope.

Inductive Role := user | assistant.

Record FileInfo := { filename : jsstring; cloudinary_url : option jsstring }.

Record SourceDoc := {
  _id : jsstring;
  title : jsstring;
  doc_content : jsstring;              (* [content] *)
  similarity_score : Q;
  file_info : option FileInfo
}.

Record Message := {
  role : Role;
  content : jsstring;
  sources : option (list SourceDoc);
  duration : option Q;
  apiDuration : option Q;
  timestamp : Z
}.

Record ChatResponse := {
  response : jsstring;
  resp_sources : list SourceDoc;       (* [sources] *)
  model : jsstring;
  provider : jsstring;
  duration_seconds : Q;
  api_duration_seconds : Q
}.

(** A reply body of [POST /chat]: the [message] the failure path reads
    from it, and the fields the success path reads. *)
Record Body := {
  errorData_message : option jsstring;
  data : ChatResponse
}.

(** An object whose properties are strings, in creation order. *)
Definition HistoryItem := list (jsstring * jsstring).

Record ChatRequest := {
  req_message : jsstring;              (* [message] *)
  history : list HistoryItem
}.

(** [POST ${BACKEND_URL}/chat] with the JSON of the given body. *)
Inductive Req := POST_chat (body : ChatRequest).

Definition Payload (_ : Req) : Type := Body.

Record State := {
  messages : list Message;
  input : jsstring;
  isLoading : bool
}.

Definition with_messages (f : list Message -> list Message) (s : State)
  : State :=
  {| messages := f (messages s); input := input s;
     isLoading := isLoading s |}.

Definition with_input (v : jsstring) (s : State) : State :=
  {| messages := messages s; input := v; isLoading := isLoading s |}.

Definition with_isLoading (v : bool) (s : State) : State :=
  {| messages := messages s; input := input s; isLoading := v |}.

(** [messages.map(msg => ({ [msg.role === 'user' ? 'user' : 'assistant']:
    msg.content }))] *)
Definition build_history (messages : list Message) : list HistoryItem :=
  List.map
    (fun msg =>
       [ (match role msg with
          | user => str "user"
          | assistant => str "assistant"
          end,
          content msg) ])
    messages.

Section Handlers.
Context {E : Type} `{Platform Req Payload E}.

Abbreviation M := (Eff Req State E unit).

Definition setMessages (f : list Message -> list Message) : M unit :=
  setState (with_messages f).
Definition setInput (v : jsstring) : M unit := setState (with_input v).
Definition setIsLoading (v : bool) : M unit := setState (with_isLoading v).

Definition sendMessage (snap : State) : M unit :=
  if falsy (trim (input snap)) || isLoading snap then ret tt
  else
    now <- Date_now ;;
    let userMessage := {| role := user;
                          content := trim (input snap);
                          sources := None;
                          duration := None;
                          apiDuration := None;
                          timestamp := now |} in
    setMessages (fun prev => prev ++ [userMessage]) ;;
    setInput [] ;;
    setIsLoading true ;;
    try_finally
      (try_catch
         (let history := build_history (messages snap) in
          res <- fetch (POST_chat
                               {| req_message := content userMessage;
                                  history := history |}) ;;
          (if negb (ok res)
           then
             errorData <- lift (json res) ;;
             throw (mkError Error_
                      (or_string (errorData_message errorData)
                         (str "HTTP "
                            ++ Number_toString (http_status res))))
           else ret tt) ;;
          body <- lift (json res) ;;
          now' <- Date_now ;;
          let assistantMessage :=
            {| role := assistant;
               content := response (data body);
               sources := Some (resp_sources (data body));
               duration := Some (duration_seconds (data body));
               apiDuration := Some (api_duration_seconds (data body));
               timestamp := now' |} in
          setMessages (fun prev => prev ++ [assistantMessage]))
         (fun error =>
            toast toast_error
              (str "Failed to send message: " ++ message error) ;;
            (* Remove user message on error *)
            setMessages (fun prev => slice_0_m1 prev)))
      (setIsLoading false).

Definition clearChat : M unit :=
  setMessages (fun _ => []) ;;
  toast toast_success (str "Chat cleared").

End Handlers.

(** A scripted environment. *)
Record Script := {
  ticks : list Z;
  replies : list (FetchOutcome Body)
}.

#[global] Instance scripted : Platform Req Payload Script := {
  clock s :=
    match ticks s with
    | [] => (0%Z, s)
    | t :: rest => (t, {| ticks := rest; replies := replies s |})
    end;
  serve _ s :=
    match replies s with
    | [] => (Rejects (mkError TypeError_ (str "Failed to fetch")), s)
    | o :: rest => (o, {| ticks := ticks s; replies := rest |})
    end
}.

Definition start (st : State) (s : Script) : Run Req State Script unit :=
  {| ui := st; env := s; localStorage := JsMap.empty; log := [] |}.

(** *** Notions the properties are stated with *)

(** The request a submit from the render [snap] sends. *)
Definition request_of (snap : State) : Req :=
  POST_chat {| req_message := trim (input snap);
               history := build_history (messages snap) |}.

Section Notions.
Context {E : Type} `{Platform Req Payload E}.

(** The send fails in environment [e]: the fetch rejects, the status is
    not 2xx, or the body does not parse. *)
Definition send_fails (q : Req) (e : E) : Prop :=
  match fst (serve q e) with
  | Rejects _ => True
  | Resolves res => ok res = false \/ exists err, json res = Throw err
  end.

End Notions.

(** *** Example runs *)

Definition hi : Message :=
  {| role := user; content := str "hi"; sources := None;
     duration := None; apiDuration := None; timestamp := 1000 |}.

Definition hello : Message :=
  {| role := assistant; content := str "hello"; sources := Some [];
     duration := Some 0.9; apiDuration := Some 0.5; timestamp := 2000 |}.

(** One exchange is in the transcript and "next" is typed. *)
Definition one_exchange : State :=
  {| messages := [hi; hello]; input := str "next"; isLoading := false |}.

(** Nothing is in the transcript and "hi" is typed. *)
Definition first_message : State :=
  {| messages := []; input := str "hi"; isLoading := false |}.

(** Only blanks are typed. *)
Definition blanks_typed : State :=
  {| messages := [hi; hello]; input := str "   "; isLoading := false |}.

(** The back end answers 500 with a body that is not JSON. *)
Definition server_error : Script :=
  {| ticks := [3000; 4000]%Z;
     replies := [ Resolves
                    (mkResponse 500
                       (Throw (mkError SyntaxError_
                                 (str "Unexpected token")))) ] |}.

(** The back end answers 200 with a body that carries an error message
    and no answer. *)
Definition error_envelope : Script :=
  {| ticks := [3000; 4000]%Z;
     replies :=
       [ Resolves
           (mkResponse 200
              (Normal
                 {| errorData_message := Some (str "Rate limit exceeded");
                    data := {| response := []; resp_sources := [];
                               model := []; provider := [];
                               duration_seconds := 0;
                               api_duration_seconds := 0 |} |})) ] |}.

(** *** What the view shows of the sources of a message *)

Definition getScoreBadgeVariant (score : Q) : jsstring :=
  if Qle_bool 0.5 score then str "default"
  else if Qle_bool 0.35 score then str "secondary"
  else str "destructive".

(** [message.sources.slice(0, 3)], each with a badge. *)
Definition shown_sources (sources : list SourceDoc) : list SourceDoc :=
  firstn 3 sources.

(** The number in the "+n more" badge, when there is one. *)
Definition more_sources (sources : list SourceDoc) : option Z :=
  if (3 <? length sources)%nat
  then Some (Z.of_nat (length sources) - 3)%Z
  else None.

(** *** Example runs *)

Definition answer_hello : Body :=
  {| errorData_message := None;
     data := {| response := str "hello"; resp_sources := [];
                model := str "llama-3.3-70b-versatile";
                provider := str "groq";
                duration_seconds := 0.9; api_duration_seconds := 0.5 |} |}.

(** The back end answers the first request with "hello". *)
Definition answers_hello : Script :=
  {| ticks := [1000; 2000; 3000; 4000]%Z;
     replies := [ Resolves (mkResponse 200 (Normal answer_hello)) ] |}.

End GroqChat.

(* ================================================================== *)
(** ** Chat: the chat component with a persisted transcript *)
(* ================================================================== *)

Module Chat.
Import Js Effects.
#[local] Open Scope eff_scope.

Inductive MessageType := user | assistant.

Definition MessageType_eqb (a b : MessageType) : bool :=
  match a, b with
  | user, user | assistant, assistant => true
  | _, _ => false
  end.

(** Modelled from the spec: [ChatSource], whose declaration in
    [types/knowledge] is missing; the spec gives it an id, a title, a
    content, a similarity score and an optional file reference.  The
    handlers only pass it on. *)
Record ChatSource := {
  source_id : jsstring;
  source_title : jsstring;
  source_content : jsstring;
  similarity_score : Q;
  file_info : option jsstring
}.

Record Message := {
  id : jsstring;
  type : MessageType;
  content : jsstring;
  timestamp : Z;
  sources : option (list ChatSource)
}.

(** A reply body of [POST /chat], as the handler reads it. *)
Record Data := {
  data_error : bool;                          (* is [data.error] truthy *)
  data_error_type : option jsstring;
  data_message : option jsstring;
  data_details : option (option jsstring);    (* [details], its [step] *)
  data_response : jsstring;
  data_sources : option (list ChatSource)
}.

(** An object whose properties are strings, in creation order. *)
Definition ChatHistoryItem := list (jsstring * jsstring).

Record ChatRequest := {
  req_message : jsstring;                     (* [message] *)
  history : list ChatHistoryItem
}.

(** [POST ${VITE_BACKEND_BASE_URL}/chat] with the JSON of the given body. *)
Inductive Req := POST_chat (body : ChatRequest).

Definition Payload (_ : Req) : Type := Data.

Record State := {
  message : jsstring;
  messages : list Message;
  isLoading : bool;
  error : option jsstring;
  st_sources : list ChatSource;               (* [sources] *)
  isClearDialogOpen : bool
}.

Definition initial : State :=
  {| message := []; messages := []; isLoading := false; error := None;
     st_sources := []; isClearDialogOpen := false |}.

(** The live state, and whether [messages] was set since the last commit:
    every setter call of this component passes a fresh array, so the
    dependency of the save effect has then changed. *)
Record Live := { st : State; messages_changed : bool }.

Definition update (f : State -> State) (l : Live) : Live :=
  {| st := f (st l); messages_changed := messages_changed l |}.

Definition with_message (v : jsstring) (s : State) : State :=
  {| message := v; messages := messages s; isLoading := isLoading s;
     error := error s; st_sources := st_sources s;
     isClearDialogOpen := isClearDialogOpen s |}.

Definition with_messages (f : list Message -> list Message) (s : State)
  : State :=
  {| message := message s; messages := f (messages s);
     isLoading := isLoading s;
     error := error s; st_sources := st_sources s;
     isClearDialogOpen := isClearDialogOpen s |}.

Definition with_isLoading (v : bool) (s : State) : State :=
  {| message := message s; messages := messages s; isLoading := v;
     error := error s; st_sources := st_sources s;
     isClearDialogOpen := isClearDialogOpen s |}.

Definition with_error (v : option jsstring) (s : State) : State :=
  {| message := message s; messages := messages s;
     isLoading := isLoading s;
     error := v; st_sources := st_sources s;
     isClearDialogOpen := isClearDialogOpen s |}.

Definition with_sources (v : list ChatSource) (s : State) : State :=
  {| message := message s; messages := messages s;
     isLoading := isLoading s;
     error := error s; st_sources := v;
     isClearDialogOpen := isClearDialogOpen s |}.

Definition with_isClearDialogOpen (v : bool) (s : State) : State :=
  {| message := message s; messages := messages s;
     isLoading := isLoading s;
     error := error s; st_sources := st_sources s;
     isClearDialogOpen := v |}.

(** What the storage holds under a key.  It is the text [JSON.stringify]
    made of a transcript, which [JSON.parse] followed by the revival of the
    timestamps turns back into it; the text of the empty transcript is
    [Stringified []].  Or it is a text that does not begin an array: on it
    [JSON.parse(saved).map(..)] throws [thrown], the [SyntaxError] of
    [JSON.parse] or, when the text parses, the [TypeError] of calling [map]
    on what is not an array.  A text that begins an array and is not the
    JSON of a transcript is not represented: what is loaded from it are not
    messages. *)
Inductive Item :=
| Stringified (ms : list Message)
| Text (raw : jsstring) (thrown : JsError)
       (not_array : begins_array raw = false).

Definition truthy (i : Item) : bool :=
  match i with
  | Stringified _ => true
  | Text raw _ _ => negb (falsy raw)
  end.

Definition chatHistory : jsstring := str "chatHistory".

(** The loop that converts the transcript to history items: it looks at
    the messages two by two, from index 0. *)
Fixpoint build_history (messages : list Message) : list ChatHistoryItem :=
  match messages with
  | m0 :: m1 :: rest =>
      (if MessageType_eqb (type m0) user
          && MessageType_eqb (type m1) assistant
       then [ [ (str "user", content m0);
                (str "assistant", content m1) ] ]
       else [])
      ++ build_history rest
  | _ => []
  end.

Section Handlers.
Context {E : Type} `{Platform Req Payload E}.

Abbreviation M := (Eff Req Live E Item).

Definition setMessage (v : jsstring) : M unit :=
  setState (update (with_message v)).
Definition setMessages (f : list Message -> list Message) : M unit :=
  setState (fun l => {| st := with_messages f (st l);
                        messages_changed := true |}).
Definition setIsLoading (v : bool) : M unit :=
  setState (update (with_isLoading v)).
Definition setError (v : option jsstring) : M unit :=
  setState (update (with_error v)).
Definition setSources (v : list ChatSource) : M unit :=
  setState (update (with_sources v)).
Definition setIsClearDialogOpen (v : bool) : M unit :=
  setState (update (with_isClearDialogOpen v)).

(** [JSON.parse(saved).map(msg => ({...msg, timestamp: new Date(..)}))] *)
Definition parse_messages (saved : Item) : M (list Message) :=
  match saved with
  | Stringified ms => ret ms
  | Text _ thrown _ => throw thrown
  end.

(** The effect with no dependencies: load the transcript on mount. *)
Definition loadEffect : M unit :=
  savedMessages <- localStorage_getItem chatHistory ;;
  match savedMessages with
  | Some saved =>
      if truthy saved
      then try_catch
             (parsedMessages <- parse_messages saved ;;
              setMessages (fun _ => parsedMessages))
             (fun _ => console_error)
      else ret tt
  | None => ret tt
  end.

(** The effect on [messages]: save the transcript. *)
Definition saveEffect (rendered : State) : M unit :=
  if (0 <? length (messages rendered))%nat
  then localStorage_setItem chatHistory (Stringified (messages rendered))
  else ret tt.

(** A commit: when [messages] was set since the last one, React renders
    and runs the save effect of that render. *)
Definition commit : M unit :=
  l <- getState ;;
  if messages_changed l
  then setState (fun l' => {| st := st l'; messages_changed := false |}) ;;
       saveEffect (st l)
  else ret tt.

(** The handler is suspended at an [await], and React commits. *)
Definition await {A} (m : M A) : M A := commit ;; m.

(** An event handler runs, and React commits when it has returned. *)
Definition dispatch (handler : M unit) : M unit :=
  try_finally handler commit.

(** Mounting: after the first render, of [initial], the load effect and
    then the save effect of that render run; React then commits. *)
Definition mount : M unit :=
  loadEffect ;;
  saveEffect initial ;;
  commit.

Definition handleSubmit (snap : State) : M unit :=
  if falsy (trim (message snap)) || isLoading snap then ret tt
  else
    let userMessage := trim (message snap) in
    now <- Date_now ;;
    now' <- Date_now ;;
    let userMessageObj := {| id := Number_toString now;
                             type := user;
                             content := userMessage;
                             timestamp := now';
                             sources := None |} in
    setMessages (fun prev => prev ++ [userMessageObj]) ;;
    setMessage [] ;;
    setIsLoading true ;;
    setError None ;;
    try_finally
      (try_catch
         (let history := build_history (messages snap) in
          let requestBody := {| req_message := userMessage;
                                history := history |} in
          response <- await (fetch (POST_chat requestBody)) ;;
          data <- await (lift (json response)) ;;
          (if data_error data
           then
             let errorMessage :=
               str "[" ++ or_string (data_error_type data) (str "ERROR")
                 ++ str "] " ++ template (data_message data) in
             let errorDetails :=
               match data_details data with
               | Some step =>
                   [10; 10]%N ++ str "Step: "
                     ++ or_string step (str "unknown")
               | None => []
               end in
             throw (mkError Error_ (errorMessage ++ errorDetails))
           else ret tt) ;;
          (if negb (ok response)
           then throw (mkError Error_
                         (str "HTTP error! status: "
                            ++ Number_toString (http_status response)))
           else ret tt) ;;
          now2 <- Date_now ;;
          now3 <- Date_now ;;
          let assistantMessageObj :=
            {| id := Number_toString (now2 + 1);
               type := assistant;
               content := data_response data;
               timestamp := now3;
               sources := Some (match data_sources data with
                                | Some l => l
                                | None => []
                                end) |} in
          setMessages (fun prev => prev ++ [assistantMessageObj]) ;;
          setSources (match data_sources data with
                      | Some l => l
                      | None => []
                      end))
         (fun err =>
            console_error ;;
            let errorMessage := Js.message err in
            setError (Some errorMessage) ;;
            console_error))
      (setIsLoading false).

Definition confirmClearHistory : M unit :=
  setMessages (fun _ => []) ;;
  setSources [] ;;
  setError None ;;
  localStorage_removeItem chatHistory ;;
  setIsClearDialogOpen false.

End Handlers.

(** A scripted environment. *)
Record Script := {
  ticks : list Z;
  replies : list (FetchOutcome Data)
}.

#[global] Instance scripted : Platform Req Payload Script := {
  clock s :=
    match ticks s with
    | [] => (0%Z, s)
    | t :: rest => (t, {| ticks := rest; replies := replies s |})
    end;
  serve _ s :=
    match replies s with
    | [] => (Rejects (mkError TypeError_ (str "Failed to fetch")), s)
    | o :: rest => (o, {| ticks := ticks s; replies := rest |})
    end
}.

Definition start (s : State) (storage : JsMap.t Item) (e : Script)
  : Run Req Live Script Item :=
  {| ui := {| st := s; messages_changed := false |};
     env := e; localStorage := storage; log := [] |}.

(** *** Notions the properties are stated with *)

(** The request a submit from the render [snap] sends. *)
Definition request_of (snap : State) : Req :=
  POST_chat {| req_message := trim (message snap);
               history := build_history (messages snap) |}.

(** The transcript the storage holds. *)
Definition restored (storage : JsMap.t Item) : list Message :=
  match JsMap.get chatHistory storage with
  | Some (Stringified ms) => ms
  | _ => []
  end.

(** The history item that pairs a user turn with an assistant turn. *)
Definition exchange (m0 m1 : Message) : ChatHistoryItem :=
  [ (str "user", content m0); (str "assistant", content m1) ].

Section Notions.
Context {E : Type} `{Platform Req Payload E}.

(** The send fails in environment [e]: the fetch rejects, the body does
    not parse or carries an error, or the status is not 2xx. *)
Definition send_fails (q : Req) (e : E) : Prop :=
  match fst (serve q e) with
  | Rejects _ => True
  | Resolves response =>
      match json response with
      | Throw _ => True
      | Normal data => data_error data = true \/ ok response = false
      end
  end.

End Notions.

(** *** Example runs *)

Definition hi : Message :=
  {| id := str "1000"; type := user; content := str "hi";
     timestamp := 1000; sources := None |}.

(** Nothing is in the transcript and "hi" is typed. *)
Definition first_message : State := with_message (str "hi") initial.

(** Only blanks are typed. *)
Definition blanks_typed : State := with_message (str "   ") initial.

(** One message is in the transcript and in the storage. *)
Definition one_message : State := with_messages (fun _ => [hi]) initial.

Definition one_stored : JsMap.t Item := [ (chatHistory, Stringified [hi]) ].

(** The back end answers 500 with a body that is not JSON. *)
Definition server_error : Script :=
  {| ticks := [3000; 4000]%Z;
     replies := [ Resolves
                    (mkResponse 500
                       (Throw (mkError SyntaxError_
                                 (str "Unexpected token")))) ] |}.

Definition offline : Script := {| ticks := []; replies := [] |}.

(** A transcript in which the first send failed and the second was
    answered. *)
Definition after_a_failure : list Message :=
  [ hi;
    {| id := str "2000"; type := user; content := str "hi again";
       timestamp := 2000; sources := None |};
    {| id := str "2501"; type := assistant; content := str "hello";
       timestamp := 2500; sources := Some [] |} ].

(** The back end answers the first request with "hello". *)
Definition answer_hello : Data :=
  {| data_error := false; data_error_type := None; data_message := None;
     data_details := None; data_response := str "hello";
     data_sources := None |}.

Definition answers_hello : Script :=
  {| ticks := [1000; 1001; 2000; 2001]%Z;
     replies := [ Resolves (mkResponse 200 (Normal answer_hello)) ] |}.

(** The storage holds a text that does not parse. *)
Definition oops : Item :=
  Text (str "{oops") (mkError SyntaxError_ (str "Unexpected token o"))
    eq_refl.

Definition corrupt : JsMap.t Item := [ (chatHistory, oops) ].

End Chat.

(* ================================================================== *)
(** ** Confessions: the confessions panel *)
(* ================================================================== *)

Module Confessions.
Import Js Effects.
#[local] Open Scope eff_scope.

Record Confession := {
  id : jsstring;
  message : jsstring;
  ipAddress : jsstring;
  reply : option jsstring;
  replyCreatedAt : option jsstring;
  isReplied : bool;
  createdAt : jsstring
}.

Record Stats := { total : Z; replied : Z; notReplied : Z }.

(** The requests of the panel, each to [${API_URL}/confessions/..].  The
    authorisation header, which every one of them carries, is left out. *)
Inductive Req :=
| GET_confessions (is_replied : option bool)  (* [/], [/?is_replied=..] *)
| GET_stats_summary                           (* [/stats/summary] *)
| PUT_confession (i : jsstring) (msg : jsstring)
| POST_reply (i : jsstring) (text : jsstring)
| DELETE_reply (i : jsstring)
| DELETE_confession (i : jsstring).

(** The reply bodies the panel reads; it never reads the body of the
    reply to a mutating request. *)
Definition Payload (r : Req) : Type :=
  match r with
  | GET_confessions _ => list Confession
  | GET_stats_summary => Stats
  | _ => unit
  end.

Record State := {
  confessions : list Confession;
  stats : Stats;
  loading : bool;
  actionLoading : bool;
  selectedConfession : option Confession;
  replyText : jsstring;
  editedMessage : jsstring;
  isReplyDialogOpen : bool;
  isViewDialogOpen : bool;
  isEditDialogOpen : bool;
  isDeleteDialogOpen : bool;
  isDeleteReplyDialogOpen : bool;
  filter : jsstring
}.

Definition initial : State :=
  {| confessions := [];
     stats := {| total := 0; replied := 0; notReplied := 0 |};
     loading := true; actionLoading := false; selectedConfession := None;
     replyText := []; editedMessage := [];
     isReplyDialogOpen := false; isViewDialogOpen := false;
     isEditDialogOpen := false; isDeleteDialogOpen := false;
     isDeleteReplyDialogOpen := false; filter := str "all" |}.

Definition with_confessions (v : list Confession) (s : State) : State :=
  {| confessions := v; stats := stats s; loading := loading s;
     actionLoading := actionLoading s;
     selectedConfession := selectedConfession s;
     replyText := replyText s; editedMessage := editedMessage s;
     isReplyDialogOpen := isReplyDialogOpen s;
     isViewDialogOpen := isViewDialogOpen s;
     isEditDialogOpen := isEditDialogOpen s;
     isDeleteDialogOpen := isDeleteDialogOpen s;
     isDeleteReplyDialogOpen := isDeleteReplyDialogOpen s;
     filter := filter s |}.

Definition with_stats (v : Stats) (s : State) : State :=
  {| confessions := confessions s; stats := v; loading := loading s;
     actionLoading := actionLoading s;
     selectedConfession := selectedConfession s;
     replyText := replyText s; editedMessage := editedMessage s;
     isReplyDialogOpen := isReplyDialogOpen s;
     isViewDialogOpen := isViewDialogOpen s;
     isEditDialogOpen := isEditDialogOpen s;
     isDeleteDialogOpen := isDeleteDialogOpen s;
     isDeleteReplyDialogOpen := isDeleteReplyDialogOpen s;
     filter := filter s |}.

Definition with_loading (v : bool) (s : State) : State :=
  {| confessions := confessions s; stats := stats s; loading := v;
     actionLoading := actionLoading s;
     selectedConfession := selectedConfession s;
     replyText := replyText s; editedMessage := editedMessage s;
     isReplyDialogOpen := isReplyDialogOpen s;
     isViewDialogOpen := isViewDialogOpen s;
     isEditDialogOpen := isEditDialogOpen s;
     isDeleteDialogOpen := isDeleteDialogOpen s;
     isDeleteReplyDialogOpen := isDeleteReplyDialogOpen s;
     filter := filter s |}.

Definition with_actionLoading (v : bool) (s : State) : State :=
  {| confessions := confessions s; stats := stats s; loading := loading s;
     actionLoading := v;
     selectedConfession := selectedConfession s;
     replyText := replyText s; editedMessage := editedMessage s;
     isReplyDialogOpen := isReplyDialogOpen s;
     isViewDialogOpen := isViewDialogOpen s;
     isEditDialogOpen := isEditDialogOpen s;
     isDeleteDialogOpen := isDeleteDialogOpen s;
     isDeleteReplyDialogOpen := isDeleteReplyDialogOpen s;
     filter := filter s |}.

Definition with_selectedConfession (v : option Confession) (s : State)
  : State :=
  {| confessions := confessions s; stats := stats s; loading := loading s;
     actionLoading := actionLoading s;
     selectedConfession := v;
     replyText := replyText s; editedMessage := editedMessage s;
     isReplyDialogOpen := isReplyDialogOpen s;
     isViewDialogOpen := isViewDialogOpen s;
     isEditDialogOpen := isEditDialogOpen s;
     isDeleteDialogOpen := isDeleteDialogOpen s;
     isDeleteReplyDialogOpen := isDeleteReplyDialogOpen s;
     filter := filter s |}.

Definition with_replyText (v : jsstring) (s : State) : State :=
  {| confessions := confessions s; stats := stats s; loading := loading s;
     actionLoading := actionLoading s;
     selectedConfession := selectedConfession s;
     replyText := v; editedMessage := editedMessage s;
     isReplyDialogOpen := isReplyDialogOpen s;
     isViewDialogOpen := isViewDialogOpen s;
     isEditDialogOpen := isEditDialogOpen s;
     isDeleteDialogOpen := isDeleteDialogOpen s;
     isDeleteReplyDialogOpen := isDeleteReplyDialogOpen s;
     filter := filter s |}.

Definition with_editedMessage (v : jsstring) (s : State) : State :=
  {| confessions := confessions s; stats := stats s; loading := loading s;
     actionLoading := actionLoading s;
     selectedConfession := selectedConfession s;
     replyText := replyText s; editedMessage := v;
     isReplyDialogOpen := isReplyDialogOpen s;
     isViewDialogOpen := isViewDialogOpen s;
     isEditDialogOpen := isEditDialogOpen s;
     isDeleteDialogOpen := isDeleteDialogOpen s;
     isDeleteReplyDialogOpen := isDeleteReplyDialogOpen s;
     filter := filter s |}.

Definition with_isReplyDialogOpen (v : bool) (s : State) : State :=
  {| confessions := confessions s; stats := stats s; loading := loading s;
     actionLoading := actionLoading s;
     selectedConfession := selectedConfession s;
     replyText := replyText s; editedMessage := editedMessage s;
     isReplyDialogOpen := v;
     isViewDialogOpen := isViewDialogOpen s;
     isEditDialogOpen := isEditDialogOpen s;
     isDeleteDialogOpen := isDeleteDialogOpen s;
     isDeleteReplyDialogOpen := isDeleteReplyDialogOpen s;
     filter := filter s |}.

Definition with_isViewDialogOpen (v : bool) (s : State) : State :=
  {| confessions := confessions s; stats := stats s; loading := loading s;
     actionLoading := actionLoading s;
     selectedConfession := selectedConfession s;
     replyText := replyText s; editedMessage := editedMessage s;
     isReplyDialogOpen := isReplyDialogOpen s;
     isViewDialogOpen := v;
     isEditDialogOpen := isEditDialogOpen s;
     isDeleteDialogOpen := isDeleteDialogOpen s;
     isDeleteReplyDialogOpen := isDeleteReplyDialogOpen s;
     filter := filter s |}.

Definition with_isEditDialogOpen (v : bool) (s : State) : State :=
  {| confessions := confessions s; stats := stats s; loading := loading s;
     actionLoading := actionLoading s;
     selectedConfession := selectedConfession s;
     replyText := replyText s; editedMessage := editedMessage s;
     isReplyDialogOpen := isReplyDialogOpen s;
     isViewDialogOpen := isViewDialogOpen s;
     isEditDialogOpen := v;
     isDeleteDialogOpen := isDeleteDialogOpen s;
     isDeleteReplyDialogOpen := isDeleteReplyDialogOpen s;
     filter := filter s |}.

Definition with_isDeleteDialogOpen (v : bool) (s : State) : State :=
  {| confessions := confessions s; stats := stats s; loading := loading s;
     actionLoading := actionLoading s;
     selectedConfession := selectedConfession s;
     replyText := replyText s; editedMessage := editedMessage s;
     isReplyDialogOpen := isReplyDialogOpen s;
     isViewDialogOpen := isViewDialogOpen s;
     isEditDialogOpen := isEditDialogOpen s;
     isDeleteDialogOpen := v;
     isDeleteReplyDialogOpen := isDeleteReplyDialogOpen s;
     filter := filter s |}.

Definition with_isDeleteReplyDialogOpen (v : bool) (s : State) : State :=
  {| confessions := confessions s; stats := stats s; loading := loading s;
     actionLoading := actionLoading s;
     selectedConfession := selectedConfession s;
     replyText := replyText s; editedMessage := editedMessage s;
     isReplyDialogOpen := isReplyDialogOpen s;
     isViewDialogOpen := isViewDialogOpen s;
     isEditDialogOpen := isEditDialogOpen s;
     isDeleteDialogOpen := isDeleteDialogOpen s;
     isDeleteReplyDialogOpen := v;
     filter := filter s |}.

Section Handlers.
Context {E : Type} `{Platform Req Payload E}.

Abbreviation M := (Eff Req State E unit).

Definition setConfessions v : M unit := setState (with_confessions v).
Definition setStats v : M unit := setState (with_stats v).
Definition setLoading v : M unit := setState (with_loading v).
Definition setActionLoading v : M unit := setState (with_actionLoading v).
Definition setSelectedConfession v : M unit :=
  setState (with_selectedConfession v).
Definition setReplyText v : M unit := setState (with_replyText v).
Definition setEditedMessage v : M unit := setState (with_editedMessage v).
Definition setIsReplyDialogOpen v : M unit :=
  setState (with_isReplyDialogOpen v).
Definition setIsViewDialogOpen v : M unit :=
  setState (with_isViewDialogOpen v).
Definition setIsEditDialogOpen v : M unit :=
  setState (with_isEditDialogOpen v).
Definition setIsDeleteDialogOpen v : M unit :=
  setState (with_isDeleteDialogOpen v).
Definition setIsDeleteReplyDialogOpen v : M unit :=
  setState (with_isDeleteReplyDialogOpen v).

(** [if (!response.ok) throw new Error(msg)] *)
Definition check_ok {D} (response : Response D) (msg : jsstring) : M unit :=
  if negb (ok response) then throw (mkError Error_ msg) else ret tt.

Definition fetchConfessions (snap : State) : M unit :=
  try_finally
    (try_catch
       (setLoading true ;;
        let is_replied :=
          if negb (eqb (filter snap) (str "all"))
          then Some (eqb (filter snap) (str "replied"))
          else None in
        response <- fetch (GET_confessions is_replied) ;;
        check_ok response (str "Failed to fetch confessions") ;;
        data <- lift (json response) ;;
        setConfessions data)
       (fun error =>
          toast toast_error (str "Failed to load confessions") ;;
          console_error))
    (setLoading false).

Definition fetchStats : M unit :=
  try_catch
    (response <- fetch GET_stats_summary ;;
     check_ok response (str "Failed to fetch stats") ;;
     data <- lift (json response) ;;
     setStats data)
    (fun error => console_error).

(** The call of [fetch]: the request goes out, and what it will settle
    to is fixed by the environment. *)
Definition send (q : Req) : M (FetchOutcome (Payload q)) :=
  fun r =>
    let (o, e') := serve q (env r) in
    (Normal o,
     {| ui := ui r; env := e'; localStorage := localStorage r;
        log := log r ++ [Requested q] |}).

(** The [await] of that call. *)
Definition settle (q : Req) (o : FetchOutcome (Payload q))
  : M (Response (Payload q)) :=
  emit (Settled q) ;;
  match o with
  | Rejects e => throw e
  | Resolves response => ret response
  end.

(** [fetchConfessions] up to its [await fetch(..)]. *)
Definition fetchConfessions_started (snap : State)
  : M (FetchOutcome (list Confession)) :=
  setLoading true ;;
  send (GET_confessions
          (if negb (eqb (filter snap) (str "all"))
           then Some (eqb (filter snap) (str "replied"))
           else None)).

(** [fetchConfessions] from the point where its request has settled. *)
Definition fetchConfessions_settled (snap : State)
    (o : FetchOutcome (list Confession)) : M unit :=
  try_finally
    (try_catch
       (response <- settle
                      (GET_confessions
                         (if negb (eqb (filter snap) (str "all"))
                          then Some (eqb (filter snap) (str "replied"))
                          else None))
                      o ;;
        check_ok response (str "Failed to fetch confessions") ;;
        data <- lift (json response) ;;
        setConfessions data)
       (fun error =>
          toast toast_error (str "Failed to load confessions") ;;
          console_error))
    (setLoading false).

(** [fetchStats] from the point where its request has settled. *)
Definition fetchStats_settled (o : FetchOutcome Stats) : M unit :=
  try_catch
    (response <- settle GET_stats_summary o ;;
     check_ok response (str "Failed to fetch stats") ;;
     data <- lift (json response) ;;
     setStats data)
    (fun error => console_error).

(** The effect on [filter]: it runs on mount and when the filter changes.
    The two calls are not awaited: [fetchConfessions()] returns when its
    request has gone out, then the request of [fetchStats()] goes out, and
    the two calls go on in the order in which their requests settle,
    [list_first] saying which.  Each call is run from there to its end: the
    two write different fields of the state. *)
Definition filterEffect (list_first : bool) (rendered : State) : M unit :=
  o1 <- fetchConfessions_started rendered ;;
  o2 <- send GET_stats_summary ;;
  if list_first
  then fetchConfessions_settled rendered o1 ;; fetchStats_settled o2
  else fetchStats_settled o2 ;; fetchConfessions_settled rendered o1.

(** The four handlers.  After a request that succeeded they call
    [fetchConfessions()] and [fetchStats()] without awaiting them; each of
    the two is run here to its end, the list first: they write different
    fields of the state, and the [finally] of the handler a third. *)
Definition handleEdit (snap : State) : M unit :=
  match selectedConfession snap with
  | None => ret tt
  | Some selected =>
      if falsy (trim (editedMessage snap)) then ret tt
      else
        try_finally
          (try_catch
             (setActionLoading true ;;
              response <- fetch (PUT_confession (id selected)
                                   (editedMessage snap)) ;;
              check_ok response (str "Failed to update confession") ;;
              toast toast_success (str "Confession updated successfully") ;;
              setIsEditDialogOpen false ;;
              setEditedMessage [] ;;
              setSelectedConfession None ;;
              fetchConfessions snap)
             (fun error =>
                toast toast_error (str "Failed to update confession") ;;
                console_error))
          (setActionLoading false)
  end.

Definition handleReply (snap : State) : M unit :=
  match selectedConfession snap with
  | None => ret tt
  | Some selected =>
      if falsy (trim (replyText snap)) then ret tt
      else
        try_finally
          (try_catch
             (setActionLoading true ;;
              response <- fetch (POST_reply (id selected)
                                   (replyText snap)) ;;
              check_ok response (str "Failed to reply") ;;
              toast toast_success (str "Reply sent successfully") ;;
              setIsReplyDialogOpen false ;;
              setReplyText [] ;;
              setSelectedConfession None ;;
              fetchConfessions snap ;;
              fetchStats)
             (fun error =>
                toast toast_error (str "Failed to send reply") ;;
                console_error))
          (setActionLoading false)
  end.

Definition handleDeleteReply (snap : State) : M unit :=
  match selectedConfession snap with
  | None => ret tt
  | Some selected =>
      try_finally
        (try_catch
           (setActionLoading true ;;
            response <- fetch (DELETE_reply (id selected)) ;;
            check_ok response (str "Failed to delete reply") ;;
            toast toast_success (str "Reply deleted successfully") ;;
            setIsDeleteReplyDialogOpen false ;;
            setIsViewDialogOpen false ;;
            setSelectedConfession None ;;
            fetchConfessions snap ;;
            fetchStats)
           (fun error =>
              toast toast_error (str "Failed to delete reply") ;;
              console_error))
        (setActionLoading false)
  end.

Definition handleDelete (snap : State) : M unit :=
  match selectedConfession snap with
  | None => ret tt
  | Some selected =>
      try_finally
        (try_catch
           (setActionLoading true ;;
            response <- fetch (DELETE_confession (id selected)) ;;
            check_ok response (str "Failed to delete confession") ;;
            toast toast_success (str "Confession deleted successfully") ;;
            setIsDeleteDialogOpen false ;;
            setSelectedConfession None ;;
            fetchConfessions snap ;;
            fetchStats)
           (fun error =>
              toast toast_error (str "Failed to delete confession") ;;
              console_error))
        (setActionLoading false)
  end.

Definition openEditDialog (confession : Confession) : M unit :=
  setSelectedConfession (Some confession) ;;
  setEditedMessage (message confession) ;;
  setIsEditDialogOpen true.

Definition openReplyDialog (confession : Confession) : M unit :=
  setSelectedConfession (Some confession) ;;
  setReplyText (or_string (reply confession) []) ;;
  setIsReplyDialogOpen true.

Definition openViewDialog (confession : Confession) : M unit :=
  setSelectedConfession (Some confession) ;;
  setIsViewDialogOpen true.

Definition openDeleteDialog (confession : Confession) : M unit :=
  setSelectedConfession (Some confession) ;;
  setIsDeleteDialogOpen true.

Definition openDeleteReplyDialog (confession : Confession) : M unit :=
  setSelectedConfession (Some confession) ;;
  setIsDeleteReplyDialogOpen true.

End Handlers.

(** *** Notions the properties are stated with *)

Inductive Action := Edit | Reply | DeleteReply | Delete.



Section Notions.
Context {E : Type} `{Platform Req Payload E}.

Definition handler (a : Action) : State -> Eff Req State E unit unit :=
  match a with
  | Edit => handleEdit
  | Reply => handleReply
  | DeleteReply => handleDeleteReply
  | Delete => handleDelete
  end.


(** The body of the reply to [q] in environment [e], when the reply has a
    2xx status and its body parses. *)
Definition good_body (q : Req) (e : E) : option (Payload q) :=
  match fst (serve q e) with
  | Rejects _ => None
  | Resolves response =>
      if ok response
      then match json response with Normal d => Some d | Throw _ => None end
      else None
  end.

(** The button of a row that opens the dialog of an action. *)
Definition opener (a : Action) : Confession -> Eff Req State E unit unit :=
  match a with
  | Edit => openEditDialog
  | Reply => openReplyDialog
  | DeleteReply => openDeleteReplyDialog
  | Delete => openDeleteDialog
  end.



End Notions.

(** The request an action sends from the render [snap], if its guard lets
    it send one. *)
Definition request_of (a : Action) (snap : State) : option Req :=
  match selectedConfession snap with
  | None => None
  | Some selected =>
      match a with
      | Edit =>
          if falsy (trim (editedMessage snap)) then None
          else Some (PUT_confession (id selected) (editedMessage snap))
      | Reply =>
          if falsy (trim (replyText snap)) then None
          else Some (POST_reply (id selected) (replyText snap))
      | DeleteReply => Some (DELETE_reply (id selected))
      | Delete => Some (DELETE_confession (id selected))
      end
  end.

(** Whether the dialog of an action is open. *)
Definition dialog_open (a : Action) (s : State) : bool :=
  match a with
  | Edit => isEditDialogOpen s
  | Reply => isReplyDialogOpen s
  | DeleteReply => isDeleteReplyDialogOpen s
  | Delete => isDeleteDialogOpen s
  end.

(** *** A back end

    The service behind the panel, as the properties about a successful
    round trip take it to be: it keeps the confessions, lists them (all, or
    those replied or not), counts them, and a delete removes the records
    with the given id. *)

Definition Db := list Confession.

Definition listed (is_replied : option bool) (db : Db) : list Confession :=
  match is_replied with
  | None => db
  | Some b => List.filter (fun c => Bool.eqb (isReplied c) b) db
  end.

Definition summary (db : Db) : Stats :=
  {| total := Z.of_nat (length db);
     replied := Z.of_nat (length (List.filter isReplied db));
     notReplied :=
       Z.of_nat (length (List.filter (fun c => negb (isReplied c)) db)) |}.

Definition has (i : jsstring) (db : Db) : bool :=
  existsb (fun c => eqb (id c) i) db.

Definition without (i : jsstring) (db : Db) : Db :=
  List.filter (fun c => negb (eqb (id c) i)) db.

Definition amend (i : jsstring) (f : Confession -> Confession) (db : Db)
  : Db :=
  List.map (fun c => if eqb (id c) i then f c else c) db.

Definition answer {D} (code : Z) (body : D) : FetchOutcome D :=
  Resolves (mkResponse code (Normal body)).

Definition with_message (msg : jsstring) (c : Confession) : Confession :=
  {| id := id c; message := msg; ipAddress := ipAddress c;
     reply := reply c; replyCreatedAt := replyCreatedAt c;
     isReplied := isReplied c; createdAt := createdAt c |}.

Definition with_reply (text : option jsstring) (c : Confession)
  : Confession :=
  {| id := id c; message := message c; ipAddress := ipAddress c;
     reply := text; replyCreatedAt := replyCreatedAt c;
     isReplied := match text with Some _ => true | None => false end;
     createdAt := createdAt c |}.

Definition service_reply (r : Req) (db : Db)
  : FetchOutcome (Payload r) * Db :=
  match r as r' return FetchOutcome (Payload r') * Db with
  | GET_confessions is_replied => (answer 200 (listed is_replied db), db)
  | GET_stats_summary => (answer 200 (summary db), db)
  | PUT_confession i msg =>
      if has i db then (answer 200 tt, amend i (with_message msg) db)
      else (answer 404 tt, db)
  | POST_reply i text =>
      if has i db then (answer 200 tt, amend i (with_reply (Some text)) db)
      else (answer 404 tt, db)
  | DELETE_reply i =>
      if has i db then (answer 200 tt, amend i (with_reply None) db)
      else (answer 404 tt, db)
  | DELETE_confession i =>
      if has i db then (answer 200 tt, without i db)
      else (answer 404 tt, db)
  end.

#[global] Instance service : Platform Req Payload Db := {
  clock db := (0%Z, db);
  serve := service_reply
}.

(** The [is_replied] parameter of the list request of a render. *)
Definition is_replied_of (s : State) : option bool :=
  if negb (eqb (filter s) (str "all"))
  then Some (eqb (filter s) (str "replied"))
  else None.

(** The panel shows what the back end holds. *)
Definition in_sync (db : Db) (s : State) : Prop :=
  confessions s = listed (is_replied_of s) db
  /\ stats s = summary db.

(** An environment that answers every request with one status and a body
    that is not JSON. *)
Record Failing := { failing_status : Z }.

#[global] Instance failing : Platform Req Payload Failing := {
  clock e := (0%Z, e);
  serve _ e :=
    (Resolves
       (mkResponse (failing_status e)
          (Throw (mkError SyntaxError_ (str "Unexpected token")))),
     e)
}.

(** *** Example runs *)

Definition first_confession : Confession :=
  {| id := str "c1"; message := str "hello"; ipAddress := str "10.0.0.1";
     reply := None; replyCreatedAt := None; isReplied := false;
     createdAt := str "2025-01-01T00:00:00Z" |}.

Definition second_confession : Confession :=
  {| id := str "c2"; message := str "thanks"; ipAddress := str "10.0.0.2";
     reply := Some (str "welcome");
     replyCreatedAt := Some (str "2025-01-03T00:00:00Z");
     isReplied := true;
     createdAt := str "2025-01-02T00:00:00Z" |}.

Definition two_confessions : Db := [first_confession; second_confession].

(** The panel after its mount effect ran against the two confessions. *)
Definition mounted : Run Req State Db unit :=
  snd (filterEffect true initial
         {| ui := initial; env := two_confessions;
            localStorage := JsMap.empty; log := [] |}).

(** The reply dialog is open on the first confession, with a text typed. *)
Definition replying : State :=
  with_isReplyDialogOpen true
    (with_replyText (str "noted")
       (with_selectedConfession (Some first_confession) (ui mounted))).


(** A back end that keeps the confessions and whose summary request is
    answered 500 while [summary_failures] is not zero. *)
Record Flaky := { held : Db; summary_failures : nat }.

Definition flaky_reply (r : Req) (e : Flaky)
  : FetchOutcome (Payload r) * Flaky :=
  match r as r' return FetchOutcome (Payload r') * Flaky with
  | GET_stats_summary =>
      match summary_failures e with
      | S k =>
          (Resolves
             (mkResponse 500
                (Throw (mkError SyntaxError_ (str "Unexpected token")))),
           {| held := held e; summary_failures := k |})
      | O => (answer 200 (summary (held e)), e)
      end
  | other =>
      let (o, db) := service_reply other (held e) in
      (o, {| held := db; summary_failures := summary_failures e |})
  end.

#[global] Instance flaky : Platform Req Payload Flaky := {
  clock e := (0%Z, e);
  serve := flaky_reply
}.

(** The panel after its mount effect ran against the two confessions, the
    summary request having been answered 500. *)
Definition mounted_without_stats : Run Req State Flaky unit :=
  snd (filterEffect true initial
         {| ui := initial;
            env := {| held := two_confessions; summary_failures := 1 |};
            localStorage := JsMap.empty; log := [] |}).

End Confessions.

(* ================================================================== *)
(** ** GroqChat: the health check *)
(* ================================================================== *)

Module GroqChatHealth.
Import Js Effects.
#[local] Open Scope eff_scope.

(** The body of a reply of [GET /chat/health], as the handler reads it. *)
Record HealthData := {
  health_status : option jsstring;     (* [status] *)
  health_model : option jsstring       (* [model] *)
}.

(** [GET ${BACKEND_URL}/chat/health] *)
Inductive Req := GET_chat_health.

Definition Payload (_ : Req) : Type := HealthData.

(** The part of the state of GroqChat that the health check writes. *)
Record State := {
  isHealthy : option bool;             (* [boolean | null] *)
  modelInfo : jsstring
}.

Definition initial : State :=
  {| isHealthy := None; modelInfo := str "llama-3.3-70b-versatile" |}.

Definition with_isHealthy (v : option bool) (s : State) : State :=
  {| isHealthy := v; modelInfo := modelInfo s |}.

Definition with_modelInfo (v : jsstring) (s : State) : State :=
  {| isHealthy := isHealthy s; modelInfo := v |}.

(** [x === y] where [x] is a string or [undefined]. *)
Definition is_string (x : option jsstring) (y : jsstring) : bool :=
  match x with Some v => eqb v y | None => false end.

Section Handlers.
Context {E : Type} `{Platform Req Payload E}.

Definition setIsHealthy (v : option bool) : Eff Req State E unit unit :=
  setState (with_isHealthy v).
Definition setModelInfo (v : jsstring) : Eff Req State E unit unit :=
  setState (with_modelInfo v).

Definition checkHealth : Eff Req State E unit unit :=
  try_catch
    (response <- fetch GET_chat_health ;;
     data <- lift (json response) ;;
     setIsHealthy (Some (is_string (health_status data) (str "healthy"))) ;;
     match health_model data with
     | Some (c :: rest) => setModelInfo (c :: rest)
     | Some [] | None => ret tt
     end)
    (fun _ => setIsHealthy (Some false)).

End Handlers.

(** [disabled] of the Send button, and of the input. *)
Definition send_disabled (chat : GroqChat.State) (health : State) : bool :=
  falsy (trim (GroqChat.input chat))
  || GroqChat.isLoading chat
  || match isHealthy health with Some false => true | _ => false end.

Definition input_disabled (chat : GroqChat.State) (health : State) : bool :=
  GroqChat.isLoading chat
  || match isHealthy health with Some false => true | _ => false end.

(** A scripted environment. *)
Record Script := { replies : list (FetchOutcome HealthData) }.

#[global] Instance scripted : Platform Req Payload Script := {
  clock s := (0%Z, s);
  serve _ s :=
    match replies s with
    | [] => (Rejects (mkError TypeError_ (str "Failed to fetch")), s)
    | o :: rest => (o, {| replies := rest |})
    end
}.

(** The back end answers 503 with a body that says healthy. *)
Definition unavailable_but_healthy : Script :=
  {| replies :=
       [ Resolves
           (mkResponse 503
              (Normal {| health_status := Some (str "healthy");
                         health_model := None |})) ] |}.

End GroqChatHealth.

(* ================================================================== *)
(** ** Dashboard: the shell *)
(* ================================================================== *)

Module Dashboard.
Import Js.

Record MenuItem := { id : jsstring; label : jsstring }.

Definition menuItems : list MenuItem :=
  [ {| id := str "view"; label := str "View Knowledge" |};
    {| id := str "chat"; label := str "Chat" |};
    {| id := str "test-retrieval"; label := str "Test Retrieval" |};
    {| id := str "rag-config"; label := str "RAG Config" |};
    {| id := str "files"; label := str "File Manager" |};
    {| id := str "upload"; label := str "Upload File" |};
    {| id := str "add"; label := str "Add Knowledge" |};
    {| id := str "prompts"; label := str "System Prompts" |};
    {| id := str "users"; label := str "User Management" |};
    {| id := str "confessions"; label := str "Confessions" |} ].

(** The component that is mounted; the knowledge list with its [key]. *)
Inductive Content :=
| KnowledgeList (key : Z)
| GroqChat
| TestRetrieval
| RagConfig
| FileManager
| FileUpload
| AddKnowledge
| SystemPromptManager
| UserManager
| Confessions.

Record State := { activeTab : jsstring; refreshKey : Z }.

Definition initial : State := {| activeTab := str "view"; refreshKey := 0 |}.

Definition handleKnowledgeAdded (s : State) : State :=
  {| activeTab := activeTab s; refreshKey := (refreshKey s + 1)%Z |}.

Definition handleRefresh (s : State) : State :=
  {| activeTab := activeTab s; refreshKey := (refreshKey s + 1)%Z |}.

Definition setActiveTab (tab : jsstring) (s : State) : State :=
  {| activeTab := tab; refreshKey := refreshKey s |}.

(** The [switch] over [activeTab]. *)
Definition renderContent (s : State) : Content :=
  if eqb (activeTab s) (str "view") then KnowledgeList (refreshKey s)
  else if eqb (activeTab s) (str "chat") then GroqChat
  else if eqb (activeTab s) (str "test-retrieval") then TestRetrieval
  else if eqb (activeTab s) (str "rag-config") then RagConfig
  else if eqb (activeTab s) (str "files") then FileManager
  else if eqb (activeTab s) (str "upload") then FileUpload
  else if eqb (activeTab s) (str "add") then AddKnowledge
  else if eqb (activeTab s) (str "prompts") then SystemPromptManager
  else if eqb (activeTab s) (str "users") then UserManager
  else if eqb (activeTab s) (str "confessions") then Confessions
  else KnowledgeList (refreshKey s).

(** [menuItems.find(item => item.id === activeTab)] *)
Definition activeMenuItem (s : State) : option MenuItem :=
  find (fun item => eqb (id item) (activeTab s)) menuItems.

(** What can happen to the shell: a menu button is clicked, or a panel
    calls one of the two callbacks it was given. *)
Inductive Action :=
| Click (item : MenuItem)
| KnowledgeAdded
| Refresh.

Definition step (s : State) (a : Action) : State :=
  match a with
  | Click item => setActiveTab (id item) s
  | KnowledgeAdded => handleKnowledgeAdded s
  | Refresh => handleRefresh s
  end.

(** The buttons that exist are those of the menu. *)
Definition possible (a : Action) : Prop :=
  match a with
  | Click item => In item menuItems
  | KnowledgeAdded | Refresh => True
  end.

End Dashboard.

(* ================================================================== *)
(** ** RagConfig: the configuration panel *)
(* ================================================================== *)

Module RagConfig.
Import Js Effects.
#[local] Open Scope eff_scope.

Record ChunkingConfig := {
  min_chunk_size : Z;
  target_chunk_size : Z;
  chunk_overlap : Z;
  max_chunk_size : Z
}.

Record EmbeddingConfig := {
  model_name : jsstring;
  dimension : Z;
  supports_languages : list jsstring;
  description : jsstring
}.

Record SearchConfig := {
  min_similarity_threshold : Q;
  default_retrieval_limit : Z;
  chunking : ChunkingConfig
}.

Record ChatConfig := {
  llm_model : jsstring;
  retrieval_limit : Z;
  chat_min_similarity_threshold : Q    (* [min_similarity_threshold] *)
}.

Record FullConfig := {
  config_status : jsstring;            (* [status] *)
  embedding : EmbeddingConfig;
  search : SearchConfig;
  chat : ChatConfig
}.

Record ComponentHealth := {
  component_status : jsstring;         (* [status] *)
  component_model : option jsstring;   (* [model], [llm_model] *)
  component_error : option jsstring    (* [error] *)
}.

Record Components := {
  embedding_health : option ComponentHealth;   (* [embedding] *)
  chat_health : option ComponentHealth         (* [chat] *)
}.

Record HealthStatus := {
  status : jsstring;
  timestamp : jsstring;
  components : option Components
}.

Inductive Req :=
| GET_config                           (* [${BACKEND_URL}/config] *)
| GET_health_detailed.                 (* [${BACKEND_URL}/health/detailed] *)

Definition Payload (r : Req) : Type :=
  match r with
  | GET_config => FullConfig
  | GET_health_detailed => HealthStatus
  end.

Record State := {
  config : option FullConfig;
  health : option HealthStatus;
  loading : bool;
  refreshing : bool
}.

Definition initial : State :=
  {| config := None; health := None; loading := true; refreshing := false |}.

Definition with_config (v : option FullConfig) (s : State) : State :=
  {| config := v; health := health s; loading := loading s;
     refreshing := refreshing s |}.

Definition with_health (v : option HealthStatus) (s : State) : State :=
  {| config := config s; health := v; loading := loading s;
     refreshing := refreshing s |}.

Definition with_loading (v : bool) (s : State) : State :=
  {| config := config s; health := health s; loading := v;
     refreshing := refreshing s |}.

Definition with_refreshing (v : bool) (s : State) : State :=
  {| config := config s; health := health s; loading := loading s;
     refreshing := v |}.

Section Handlers.
Context {E : Type} `{Platform Req Payload E}.

Abbreviation M := (Eff Req State E unit).

Definition setConfig v : M unit := setState (with_config v).
Definition setHealth v : M unit := setState (with_health v).
Definition setLoading v : M unit := setState (with_loading v).
Definition setRefreshing v : M unit := setState (with_refreshing v).

(** The call of [fetch]: the request goes out, and what it will settle
    to is fixed by the environment. *)
Definition send (q : Req) : M (FetchOutcome (Payload q)) :=
  fun r =>
    let (o, e') := serve q (env r) in
    (Normal o,
     {| ui := ui r; env := e'; localStorage := localStorage r;
        log := log r ++ [Requested q] |}).

(** The [await] of that call. *)
Definition settle (q : Req) (o : FetchOutcome (Payload q))
  : M (Response (Payload q)) :=
  emit (Settled q) ;;
  match o with
  | Rejects e => throw e
  | Resolves response => ret response
  end.

(** [fetchConfig] from the point where its request has settled. *)
Definition fetchConfig_settled (o : FetchOutcome FullConfig) : M unit :=
  try_catch
    (response <- settle GET_config o ;;
     (if negb (ok response)
      then throw (mkError Error_ (str "Failed to fetch config"))
      else ret tt) ;;
     data <- lift (json response) ;;
     setConfig (Some data))
    (fun error =>
       console_error ;;
       toast toast_error (str "Failed to fetch configuration")).

(** [fetchHealth] from the point where its request has settled. *)
Definition fetchHealth_settled (o : FetchOutcome HealthStatus) : M unit :=
  try_catch
    (response <- settle GET_health_detailed o ;;
     (if negb (ok response)
      then throw (mkError Error_ (str "Failed to fetch health"))
      else ret tt) ;;
     data <- lift (json response) ;;
     setHealth (Some data))
    (fun error =>
       console_error ;;
       toast toast_error (str "Failed to fetch health status")).

Definition fetchConfig : M unit :=
  o <- send GET_config ;;
  fetchConfig_settled o.

Definition fetchHealth : M unit :=
  o <- send GET_health_detailed ;;
  fetchHealth_settled o.

(** [await Promise.all([fetchConfig(), fetchHealth()])]: both requests go
    out, the one for the configuration first, and the two calls go on in
    the order in which their requests settle.  Each call is run from there
    to its end: the two write different fields of the state. *)
Definition fetch_both (config_first : bool) : M unit :=
  o1 <- send GET_config ;;
  o2 <- send GET_health_detailed ;;
  if config_first
  then fetchConfig_settled o1 ;; fetchHealth_settled o2
  else fetchHealth_settled o2 ;; fetchConfig_settled o1.

Definition loadAll (config_first : bool) : M unit :=
  setLoading true ;;
  fetch_both config_first ;;
  setLoading false.

Definition handleRefresh (config_first : bool) : M unit :=
  setRefreshing true ;;
  fetch_both config_first ;;
  setRefreshing false ;;
  toast toast_success (str "Configuration refreshed").

End Handlers.

(** *** What the view shows *)

(** [config.embedding.model_name.split('/').pop()] *)
Definition shown_model (c : FullConfig) : jsstring :=
  last_segment 47 (model_name (embedding c)).

(** [supports_languages.slice(0, 6)], each in a badge. *)
Definition shown_languages (c : FullConfig) : list jsstring :=
  firstn 6 (supports_languages (embedding c)).

(** The number in the "+n more" badge, when there is one. *)
Definition more_languages (c : FullConfig) : option Z :=
  if (6 <? length (supports_languages (embedding c)))%nat
  then Some (Z.of_nat (length (supports_languages (embedding c))) - 6)%Z
  else None.

(** *** Notions the properties are stated with *)

Definition toasts_of (l : list (Event Req)) : list (Event Req) :=
  List.filter is_toast l.

Section Notions.
Context {E : Type} `{Platform Req Payload E}.

(** The reply to a request is good in environment [e]: it has a 2xx status
    and a body that parses; it then carries [good_body]. *)
Definition good_body (q : Req) (e : E) : option (Payload q) :=
  match fst (serve q e) with
  | Rejects _ => None
  | Resolves response =>
      if ok response
      then match json response with Normal d => Some d | Throw _ => None end
      else None
  end.

End Notions.

(** An environment in which no request gets through. *)
Inductive Down := down.

#[global] Instance unreachable : Platform Req Payload Down := {
  clock e := (0%Z, e);
  serve _ e := (Rejects (mkError TypeError_ (str "Failed to fetch")), e)
}.

End RagConfig.

(* ================================================================== *)
(** * Properties *)
(* ================================================================== *)

Import Js Effects.

(** ** Strings and maps *)

Lemma eqb_eq (a b : jsstring) : eqb a b = true <-> a = b.
Proof.
  revert b; induction a as [|x a IH]; intros [|y b]; simpl;
    try (split; [discriminate | discriminate]); try tauto.
  rewrite andb_true_iff, N.eqb_eq, IH.
  split; [intros [-> ->]; reflexivity | intros Heq; inversion Heq; auto].
Qed.

Lemma eqb_refl (a : jsstring) : eqb a a = true.
Proof. apply eqb_eq; reflexivity. Qed.

Lemma eqb_neq (a b : jsstring) : eqb a b = false <-> a <> b.
Proof.
  rewrite <- eqb_eq. destruct (eqb a b); split; congruence.
Qed.

Lemma get_set_same {V} (k : jsstring) (v : V) (m : JsMap.t V) :
  JsMap.get k (JsMap.set k v m) = Some v.
Proof.
  induction m as [|[k' v'] m IH]; simpl.
  - rewrite eqb_refl; reflexivity.
  - destruct (eqb k' k) eqn:Hk; simpl; rewrite Hk; auto.
Qed.

Lemma get_set_other {V} (k k0 : jsstring) (v : V) (m : JsMap.t V) :
  k <> k0 -> JsMap.get k0 (JsMap.set k v m) = JsMap.get k0 m.
Proof.
  intros Hne. induction m as [|[k' v'] m IH]; simpl.
  - apply eqb_neq in Hne. rewrite Hne; reflexivity.
  - destruct (eqb k' k) eqn:Hk; simpl.
    + apply eqb_eq in Hk; subst k'.
      apply eqb_neq in Hne. rewrite Hne; reflexivity.
    + destruct (eqb k' k0); auto.
Qed.

Lemma get_delete_same {V} (k : jsstring) (m : JsMap.t V) :
  JsMap.get k (JsMap.delete k m) = None.
Proof.
  induction m as [|[k' v'] m IH]; simpl; auto.
  destruct (eqb k' k) eqn:Hk; simpl; auto. rewrite Hk; auto.
Qed.

Lemma get_delete_other {V} (k k0 : jsstring) (m : JsMap.t V) :
  k <> k0 -> JsMap.get k0 (JsMap.delete k m) = JsMap.get k0 m.
Proof.
  intros Hne. induction m as [|[k' v'] m IH]; simpl; auto.
  destruct (eqb k' k) eqn:Hk; simpl.
  - apply eqb_eq in Hk; subst k'. apply eqb_neq in Hne. rewrite Hne. exact IH.
  - destruct (eqb k' k0); auto.
Qed.


Lemma keys_set_in {V} (k : jsstring) (v : V) (m : JsMap.t V) :
  In k (JsMap.keys m) -> JsMap.keys (JsMap.set k v m) = JsMap.keys m.
Proof.
  induction m as [|[k' v'] m IH]; simpl; [tauto|].
  intros Hin. destruct (eqb k' k) eqn:Hk; simpl; auto.
  apply eqb_neq in Hk. f_equal. apply IH. tauto.
Qed.

Lemma keys_set_fresh {V} (k : jsstring) (v : V) (m : JsMap.t V) :
  ~ In k (JsMap.keys m) -> JsMap.keys (JsMap.set k v m) = JsMap.keys m ++ [k].
Proof.
  induction m as [|[k' v'] m IH]; simpl; auto.
  intros Hin. destruct (eqb k' k) eqn:Hk; simpl.
  - apply eqb_eq in Hk. tauto.
  - f_equal. apply IH. tauto.
Qed.

Lemma in_keys_set {V} (k k0 : jsstring) (v : V) (m : JsMap.t V) :
  In k0 (JsMap.keys (JsMap.set k v m)) <-> k0 = k \/ In k0 (JsMap.keys m).
Proof.
  destruct (in_dec string_eq_dec k (JsMap.keys m)) as [Hin|Hout].
  - rewrite keys_set_in by assumption.
    split; [tauto | intros [->|?]; assumption].
  - rewrite keys_set_fresh by assumption.
    rewrite in_app_iff; simpl. intuition congruence.
Qed.


(** ** The retrieval test harness *)

Module TR := TestRetrieval.

Section TestRetrievalProperties.
Context {E : Type} `{Platform TR.Req TR.Payload E}.

Lemma runSingleTest_cases (q : jsstring) (run : Run TR.Req TR.State E unit) :
  exists res e',
    TR.runSingleTest q run
    = (Normal res,
       {| ui := ui run; env := e'; localStorage := localStorage run;
          log := log run ++ TR.attempt_events q |})
    /\ TR.query res = q
    /\ (TR.status res = TR.success \/ TR.status res = TR.error)
    /\ (isWellFormed q = false
        \/ TR.request_fails q (snd (clock (env run))) ->
        TR.status res = TR.error
        /\ TR.results_count res = 0%Z
        /\ TR.results res = []
        /\ TR.config res = TR.default_config
        /\ TR.duration_seconds res
           = inject_Z
               (fst (clock (TR.env_at_catch q (snd (clock (env run)))))
                - fst (clock (env run))) / 1000).
Proof.
  unfold TR.runSingleTest, TR.request_fails, TR.env_at_catch,
    TR.attempt_events, TR.encodeURIComponent.
  unfold bind, try_catch, Date_now, fetch, throw, ret, lift.
  destruct run as [u e st lg]; simpl.
  destruct (clock e) as [t0 e1] eqn:Hc0; simpl.
  destruct (isWellFormed q) eqn:Hwf; simpl.
  - destruct (serve (TR.GET_test_retrieval q) e1) as [o e2] eqn:Hs; simpl.
    destruct o as [err|response]; simpl.
    + destruct (clock e2) as [t1 e3] eqn:Hc1; simpl.
      destruct (clock e3) as [t2 e4] eqn:Hc2; simpl.
      eexists _, _. split; [reflexivity|]. simpl. auto 10.
    + destruct (ok response) eqn:Hok; simpl.
      * destruct (json response) as [data|err] eqn:Hj; simpl.
        -- destruct (clock e2) as [t1 e3] eqn:Hc1; simpl.
           eexists _, _. split; [reflexivity|]. simpl.
           split; [reflexivity|]. split; [auto|].
           intros [Hf|[Hf|[err Hf]]]; discriminate.
        -- destruct (clock e2) as [t1 e3] eqn:Hc1; simpl.
           destruct (clock e3) as [t2 e4] eqn:Hc2; simpl.
           eexists _, _. split; [reflexivity|]. simpl. auto 10.
      * destruct (clock e2) as [t1 e3] eqn:Hc1; simpl.
        destruct (clock e3) as [t2 e4] eqn:Hc2; simpl.
        eexists _, _. split; [reflexivity|]. simpl. auto 10.
  - destruct (clock e1) as [t1 e3] eqn:Hc1; simpl.
    destruct (clock e3) as [t2 e4] eqn:Hc2; simpl.
    rewrite app_nil_r.
    eexists _, _. split; [reflexivity|]. simpl. auto 10.
Qed.

Lemma run_from_spec (n : nat) (rest : list TR.TestScenario) :
  forall (i : nat) (m : JsMap.t TR.TestResult)
         (run : Run TR.Req TR.State E unit),
  exists rs e',
    TR.run_from n i rest m run
    = (Normal (TR.store (List.map TR.id rest) rs m),
       {| ui := TR.after_loop n i (length rest)
                  (TR.store (List.map TR.id rest) rs m) (ui run);
          env := e'; localStorage := localStorage run;
          log := log run
                 ++ flat_map (fun s => TR.attempt_events (TR.scenario_query s))
                      rest |})
    /\ Forall2 TR.result_of rest rs.
Proof.
  induction rest as [|s rest IH]; intros i m run.
  - exists [], (env run). simpl. rewrite app_nil_r. destruct run; auto.
  - simpl. unfold bind at 1.
    destruct (runSingleTest_cases (TR.scenario_query s) run)
      as (r & e1 & Hrun & Hq & Hst & Hfail).
    rewrite Hrun.
    unfold bind at 1, TR.setResults at 1, setState at 1.
    unfold bind at 1, TR.setProgress at 1, setState at 1. simpl.
    match goal with
    | |- context [TR.run_from n (S i) rest ?m1 ?run1] =>
        destruct (IH (S i) m1 run1) as (rs & e2 & Hloop & Hall)
    end.
    exists (r :: rs), e2. split.
    + rewrite Hloop. simpl. f_equal. f_equal.
      * unfold TR.after_loop. destruct (length rest) as [|c] eqn:Hlen.
        -- apply length_zero_iff_nil in Hlen. subst rest.
           inversion Hall; subst. reflexivity.
        -- unfold TR.with_progress, TR.with_results; simpl.
           replace (c + S i + 1)%nat with (S c + i + 1)%nat by lia.
           reflexivity.
      * rewrite <- app_assoc. reflexivity.
    + constructor; auto. exists run. rewrite Hrun. reflexivity.
Qed.

Lemma in_keys_store (ks : list jsstring) :
  forall (rs : list TR.TestResult) (m : JsMap.t TR.TestResult) (k : jsstring),
    length ks = length rs ->
    (In k (JsMap.keys (TR.store ks rs m)) <-> In k (JsMap.keys m) \/ In k ks).
Proof.
  unfold TR.store.
  induction ks as [|k0 ks IH]; intros [|r rs] m k Hlen; simpl in *;
    try discriminate; [tauto|].
  rewrite IH by lia. rewrite in_keys_set. intuition congruence.
Qed.

Lemma set_fresh {V} (k : jsstring) (v : V) (m : JsMap.t V) :
  ~ In k (JsMap.keys m) -> JsMap.set k v m = m ++ [(k, v)].
Proof.
  induction m as [|[k' v'] m IH]; simpl; auto.
  intros Hin. destruct (eqb k' k) eqn:Hk; simpl.
  - apply eqb_eq in Hk. tauto.
  - f_equal. apply IH. tauto.
Qed.

Lemma store_fresh (ks : list jsstring) :
  forall (rs : list TR.TestResult) (m : JsMap.t TR.TestResult),
    length ks = length rs ->
    NoDup ks ->
    (forall k, In k ks -> ~ In k (JsMap.keys m)) ->
    TR.store ks rs m = m ++ combine ks rs.
Proof.
  unfold TR.store.
  induction ks as [|k0 ks IH]; intros [|r rs] m Hlen Hnd Hfresh; simpl in *;
    try discriminate; [rewrite app_nil_r; reflexivity|].
  inversion Hnd as [|? ? Hk0 Hnd']; subst.
  rewrite IH; auto.
  - rewrite set_fresh by auto. rewrite <- app_assoc. reflexivity.
  - intros k Hk. rewrite in_keys_set. intros [->|Hin]; [tauto|].
    apply (Hfresh k); auto.
Qed.


Lemma run_from_app (n : nat) (pre post : list TR.TestScenario) :
  forall (i : nat) (m : JsMap.t TR.TestResult)
         (run : Run TR.Req TR.State E unit),
    TR.run_from n i (pre ++ post) m run
    = match TR.run_from n i pre m run with
      | (Normal m', mid) => TR.run_from n (i + length pre) post m' mid
      | (Throw e, mid) => (Throw e, mid)
      end.
Proof.
  induction pre as [|s pre IH]; intros i m run; simpl.
  - unfold ret. rewrite Nat.add_0_r. reflexivity.
  - cbv beta delta [bind].
    destruct (TR.runSingleTest (TR.scenario_query s) run) as [[r|e] run1];
      [|reflexivity].
    cbv beta iota delta [TR.setResults TR.setProgress setState].
    rewrite IH. replace (S i + length pre)%nat with (i + S (length pre))%nat
      by lia.
    reflexivity.
Qed.

Lemma progress_full (k n : nat) :
  n <> 0%nat -> ((TR.num k / TR.num n) * 100 == 100 <-> k = n).
Proof.
  intros Hn. unfold TR.num.
  destruct n as [|n']; [congruence|].
  unfold Qeq, Qdiv, Qmult, Qinv, inject_Z. simpl Z.of_nat.
  cbn [Qnum Qden]. simpl. split.
  - intros Heq. lia.
  - intros ->. simpl Z.of_nat. lia.
Qed.

Lemma handleRunAll_spec (snap : TR.State)
    (run : Run TR.Req TR.State E unit) :
  exists rs e',
    let n := length (TR.scenarios snap) in
    let m := TR.store (List.map TR.id (TR.scenarios snap)) rs JsMap.empty in
    TR.handleRunAll snap run
    = (Normal tt,
       {| ui := TR.with_isRunningAll false
                  (TR.after_loop n 0 n m
                     (TR.with_progress 0
                        (TR.with_isRunningAll true (ui run))));
          env := e'; localStorage := localStorage run;
          log := log run
                 ++ flat_map
                      (fun s => TR.attempt_events (TR.scenario_query s))
                      (TR.scenarios snap)
                 ++ [ Toast toast_success
                        (str "Completed "
                           ++ Number_toString (Z.of_nat n)
                           ++ str " tests") ] |})
    /\ Forall2 TR.result_of (TR.scenarios snap) rs.
Proof.
  cbv beta iota delta
    [TR.handleRunAll bind TR.setIsRunningAll TR.setProgress setState toast
       emit].
  match goal with
  | |- context [TR.run_from ?n 0 ?l ?m0 ?run0] =>
      destruct (run_from_spec n l 0 m0 run0) as (rs & e' & Hloop & Hall)
  end.
  exists rs, e'. split; [|exact Hall].
  cbv zeta. rewrite Hloop. simpl.
  rewrite <- app_assoc. reflexivity.
Qed.

Lemma get_store_notin (ks : list jsstring) :
  forall (rs : list TR.TestResult) (m : JsMap.t TR.TestResult) (k : jsstring),
    ~ In k ks -> JsMap.get k (TR.store ks rs m) = JsMap.get k m.
Proof.
  unfold TR.store.
  induction ks as [|k0 ks IH]; intros [|r rs] m k Hout; simpl in *; auto.
  rewrite IH by tauto. apply get_set_other. intros ->. tauto.
Qed.

Lemma split_at {A} (l1 : list A) (x : A) (l2 : list A) :
  firstn (length l1) (l1 ++ x :: l2) = l1
  /\ firstn (S (length l1)) (l1 ++ x :: l2) = l1 ++ [x]
  /\ skipn (S (length l1)) (l1 ++ x :: l2) = l2.
Proof.
  induction l1 as [|a l1 IH].
  - repeat split.
  - destruct IH as (H1 & H2 & H3).
    split; [|split].
    + change (a :: firstn (length l1) (l1 ++ x :: l2) = a :: l1).
      rewrite H1. reflexivity.
    + change (a :: firstn (S (length l1)) (l1 ++ x :: l2)
              = a :: l1 ++ [x]).
      rewrite H2. reflexivity.
    + exact H3.
Qed.

Lemma runSingleTest_malformed (q : jsstring)
    (run : Run TR.Req TR.State E unit) :
  isWellFormed q = false ->
  exists r after,
    TR.runSingleTest q run = (Normal r, after)
    /\ TR.error_message r = Some (str "URI malformed").
Proof.
  intros Hwf.
  unfold TR.runSingleTest, TR.encodeURIComponent.
  unfold bind, try_catch, Date_now, fetch, throw, ret, lift.
  destruct run as [u e st lg]; simpl.
  destruct (clock e) as [t0 e1]; simpl. rewrite Hwf; simpl.
  destruct (clock e1) as [t1 e3]; simpl.
  destruct (clock e3) as [t2 e4]; simpl.
  eexists _, _. split; reflexivity.
Qed.

(** The entry of the scenario at index [i]: the result of the call made
    when the [i] scenarios before it have completed. *)
Lemma handleRunAll_entry (snap : TR.State)
    (run : Run TR.Req TR.State E unit) (i : nat) (s : TR.TestScenario) :
  nth_error (TR.scenarios snap) i = Some s ->
  exists m before r called m' after,
    TR.run_prefix snap i run = (Normal m, before)
    /\ TR.runSingleTest (TR.scenario_query s) before = (Normal r, called)
    /\ TR.run_prefix snap (S i) run = (Normal m', after)
    /\ env after = env called
    /\ log after = log called
    /\ JsMap.get (TR.id s) (TR.st_results (ui after)) = Some r
    /\ (~ In (TR.id s)
          (List.map TR.id (skipn (S i) (TR.scenarios snap))) ->
        JsMap.get (TR.id s)
          (TR.st_results (ui (snd (TR.handleRunAll snap run))))
        = Some r).
Proof.
  intros Hnth.
  destruct (nth_error_split _ _ Hnth) as (l1 & l2 & Hsplit & Hlen).
  subst i.
  destruct (split_at l1 s l2) as (Hpre & Hpre' & Hpost).
  cbv beta iota delta
    [TR.run_prefix TR.handleRunAll bind TR.setIsRunningAll TR.setProgress
       setState toast emit].
  rewrite Hsplit, Hpre, Hpre', Hpost.
  cbn [ui env localStorage log].
  set (n := length (l1 ++ s :: l2)).
  rewrite !run_from_app.
  match goal with
  | |- context [TR.run_from n 0 l1 JsMap.empty ?run0] =>
      destruct (run_from_spec n l1 0 JsMap.empty run0)
        as (rs1 & e1 & Hloop1 & _)
  end.
  rewrite Hloop1.
  set (m1 := TR.store (List.map TR.id l1) rs1 JsMap.empty).
  match goal with
  | |- context [(Normal m1, ?x)] => set (before := x)
  end.
  destruct (runSingleTest_cases (TR.scenario_query s) before)
    as (r & e2 & Hcall & _).
  cbn [TR.run_from]. cbv beta iota delta [bind]. rewrite Hcall.
  cbv beta iota delta [TR.setResults TR.setProgress setState ret].
  cbn [ui env localStorage log].
  match goal with
  | |- context [TR.run_from n ?k l2 ?m2 ?run2] =>
      destruct (run_from_spec n l2 k m2 run2) as (rs2 & e3 & Hloop2 & _)
  end.
  rewrite Hloop2.
  eexists _, _, _, _, _, _.
  split; [reflexivity|]. split; [exact Hcall|]. split; [reflexivity|].
  split; [reflexivity|]. split; [reflexivity|].
  split; [cbn; apply get_set_same|].
  intros Hlast. cbn [snd ui TR.st_results TR.with_isRunningAll].
  destruct l2 as [|s2 l2]; cbn [length TR.after_loop].
  - cbn. apply get_set_same.
  - cbn [TR.st_results TR.with_progress TR.with_results].
    rewrite get_store_notin by exact Hlast. apply get_set_same.
Qed.

(** C1, as amended.  Run all calls [runSingleTest] once per scenario, one
    after the other in list order: the log is the sequence of the requests,
    each settled before the next goes out, with no request for a query that
    cannot be encoded.  The call for a scenario is made when the scenarios
    before it have completed, and what it returns is stored under the id of
    the scenario; it is what the map holds under that id at the end, when
    no later scenario has the same id.  For a query that cannot be encoded
    that result is an error result with the message of the [URIError].
    Every scenario id has an entry at the end, and the entries are exactly
    the scenarios' ids; when the ids are pairwise distinct there are N
    entries, the i-th being the result of the i-th scenario.  The progress
    is ((i+1)/N)*100 when scenario i has completed, and it is 100 only when
    the last one has. *)
Theorem handleRunAll_sequential (snap : TR.State)
    (run : Run TR.Req TR.State E unit) :
  TR.scenarios snap <> [] ->
  let n := length (TR.scenarios snap) in
  let ids := List.map TR.id (TR.scenarios snap) in
  let '(c, final) := TR.handleRunAll snap run in
  c = Normal tt
  /\ log final
     = log run
       ++ flat_map (fun s => TR.attempt_events (TR.scenario_query s))
            (TR.scenarios snap)
       ++ [ Toast toast_success
              (str "Completed " ++ Number_toString (Z.of_nat n)
                 ++ str " tests") ]
  /\ (forall k, In k (JsMap.keys (TR.st_results (ui final))) <-> In k ids)
  /\ (exists rs,
        Forall2 TR.result_of (TR.scenarios snap) rs
        /\ TR.st_results (ui final) = TR.store ids rs JsMap.empty
        /\ (NoDup ids ->
            JsMap.entries (TR.st_results (ui final)) = combine ids rs
            /\ JsMap.keys (TR.st_results (ui final)) = ids
            /\ JsMap.size (TR.st_results (ui final)) = n))
  /\ (forall i s,
        nth_error (TR.scenarios snap) i = Some s ->
        let '(_, before) := TR.run_prefix snap i run in
        let '(_, after) := TR.run_prefix snap (S i) run in
        exists r called,
          TR.runSingleTest (TR.scenario_query s) before
          = (Normal r, called)
          /\ log called
             = log before ++ TR.attempt_events (TR.scenario_query s)
          /\ env after = env called
          /\ log after = log called
          /\ JsMap.get (TR.id s) (TR.st_results (ui after)) = Some r
          /\ (~ In (TR.id s)
                (List.map TR.id (skipn (S i) (TR.scenarios snap))) ->
              JsMap.get (TR.id s) (TR.st_results (ui final)) = Some r)
          /\ (isWellFormed (TR.scenario_query s) = false ->
              TR.status r = TR.error
              /\ TR.results_count r = 0%Z
              /\ TR.results r = []
              /\ TR.error_message r = Some (str "URI malformed")
              /\ log called = log before))
  /\ TR.progress (ui final) == 100
  /\ (forall i, (i < n)%nat ->
        let '(_, mid) := TR.run_prefix snap (S i) run in
        TR.progress (ui mid) = (TR.num (i + 1) / TR.num n) * 100
        /\ (TR.progress (ui mid) == 100 <-> S i = n)).
Proof.
  intros Hne n ids.
  assert (Hentry : forall i s,
            nth_error (TR.scenarios snap) i = Some s ->
            let '(_, before) := TR.run_prefix snap i run in
            let '(_, after) := TR.run_prefix snap (S i) run in
            exists r called,
              TR.runSingleTest (TR.scenario_query s) before
              = (Normal r, called)
              /\ log called
                 = log before ++ TR.attempt_events (TR.scenario_query s)
              /\ env after = env called
              /\ log after = log called
              /\ JsMap.get (TR.id s) (TR.st_results (ui after)) = Some r
              /\ (~ In (TR.id s)
                    (List.map TR.id (skipn (S i) (TR.scenarios snap))) ->
                  JsMap.get (TR.id s)
                    (TR.st_results (ui (snd (TR.handleRunAll snap run))))
                  = Some r)
              /\ (isWellFormed (TR.scenario_query s) = false ->
                  TR.status r = TR.error
                  /\ TR.results_count r = 0%Z
                  /\ TR.results r = []
                  /\ TR.error_message r = Some (str "URI malformed")
                  /\ log called = log before)).
  { intros i s Hnth.
    destruct (handleRunAll_entry snap run i Hnth)
      as (m & before & r & called & m' & after
          & Hbefore & Hcall & Hafter & Henv & Hlog & Hget & Hfinal).
    rewrite Hbefore, Hafter.
    exists r, called. split; [exact Hcall|].
    destruct (runSingleTest_cases (TR.scenario_query s) before)
      as (r0 & e0 & Hcases & _ & _ & Hfail).
    rewrite Hcall in Hcases. injection Hcases as <- Hcalled.
    split; [rewrite Hcalled; reflexivity|].
    split; [exact Henv|]. split; [exact Hlog|]. split; [exact Hget|].
    split; [exact Hfinal|].
    intros Hwf.
    destruct (Hfail (or_introl Hwf)) as (Hst & Hcount & Hres & _).
    destruct (runSingleTest_malformed (TR.scenario_query s) before Hwf)
      as (r1 & after1 & Hmal & Hmsg).
    rewrite Hcall in Hmal. injection Hmal as <- _.
    repeat (split; [assumption|]).
    rewrite Hcalled. cbn [log]. unfold TR.attempt_events.
    rewrite Hwf. apply app_nil_r. }
  destruct (handleRunAll_spec snap run) as (rs & e' & Hrun & Hall).
  cbv zeta in Hrun. rewrite Hrun in *. fold n ids. cbn [snd] in Hentry.
  assert (Hlen : length ids = length rs).
  { unfold ids. rewrite length_map. eapply Forall2_length; eauto. }
  assert (Hn : n <> 0%nat).
  { unfold n. destruct (TR.scenarios snap); simpl; congruence. }
  split; [reflexivity|]. split; [reflexivity|].
  fold n ids in Hentry. revert Hentry.
  destruct n as [|n'] eqn:Hn'; [congruence|]. simpl. intros Hentry.
  split.
  { intros k. rewrite in_keys_store by exact Hlen. simpl. tauto. }
  split.
  { exists rs. split; [exact Hall|]. split; [reflexivity|].
    intros Hnd.
    assert (Hst : TR.store ids rs JsMap.empty = combine ids rs).
    { rewrite store_fresh; auto. }
    rewrite Hst. unfold JsMap.entries, JsMap.keys, JsMap.size.
    split; [reflexivity|]. split.
    - clear -Hlen. revert rs Hlen.
      induction ids as [|k ids IH]; intros [|r rs] Hlen; simpl in *;
        try discriminate; auto.
      f_equal. apply IH. lia.
    - rewrite length_combine, <- Hlen. unfold ids.
      rewrite length_map. fold n. lia. }
  split; [exact Hentry|].
  split.
  { apply progress_full; lia. }
  intros i Hi.
  cbv beta iota delta
    [TR.run_prefix bind TR.setIsRunningAll TR.setProgress setState].
  match goal with
  | |- context [TR.run_from ?a 0 ?l ?m0 ?run0] =>
      destruct (run_from_spec a l 0 m0 run0) as (rs' & e'' & Hloop & _)
  end.
  rewrite Hloop.
  rewrite length_firstn, Nat.min_l by (fold n; lia).
  fold n. rewrite Hn'. simpl.
  replace (i + 0 + 1)%nat with (i + 1)%nat by lia.
  split; [reflexivity|].
  rewrite progress_full by lia. lia.
Qed.



End TestRetrievalProperties.

(** *** The metrics *)

Lemma fold_left_sum (f : TR.TestResult -> Q) (l : list TR.TestResult) :
  forall acc,
    fold_left (fun sum r => sum + f r) l acc == acc + TR.sum_over f l.
Proof.
  induction l as [|r l IH]; intros acc; simpl.
  - ring.
  - rewrite IH. ring.
Qed.

Lemma sum_over_ext (f g : TR.TestResult -> Q) (l : list TR.TestResult) :
  (forall r, f r == g r) -> TR.sum_over f l == TR.sum_over g l.
Proof.
  intros Hfg. induction l as [|r l IH]; simpl; [reflexivity|].
  rewrite IH, Hfg. reflexivity.
Qed.

Lemma top_score_first_score (r : TR.TestResult) :
  TR.top_score r == TR.first_score r.
Proof.
  unfold TR.top_score, TR.first_score, or_number.
  destruct (TR.results r) as [|first rest]; [reflexivity|].
  destruct (Qeq_bool (TR.score first) 0) eqn:Hz; [|reflexivity].
  apply Qeq_bool_eq in Hz. symmetry. exact Hz.
Qed.

Lemma quotient_is_mean (f g : TR.TestResult -> Q) (l : list TR.TestResult) :
  (forall r, f r == g r) ->
  TR.is_mean
    (if (0 <? length l)%nat
     then fold_left (fun sum r => sum + f r) l 0 / TR.num (length l)
     else 0)
    g l.
Proof.
  intros Hfg. destruct l as [|r l]; [reflexivity|].
  unfold TR.is_mean.
  replace (0 <? length (r :: l))%nat with true by reflexivity.
  rewrite fold_left_sum, (sum_over_ext f g) by exact Hfg.
  rewrite Qplus_0_l.
  rewrite Qmult_comm, Qmult_div_r; [reflexivity|].
  unfold TR.num, Qeq. simpl. lia.
Qed.

(** C2, as amended.  The average duration is the arithmetic mean of
    [duration_seconds] over the results that are not pending.  The average
    top score is the arithmetic mean of the first hit's score over the
    successful results, those with status success and a positive result
    count.  Each is zero when the set it averages is empty. *)
Theorem averages_are_means (results : JsMap.t TR.TestResult) :
  TR.is_mean (TR.avgDuration results) TR.duration_seconds
    (TR.completedTests results)
  /\ TR.is_mean (TR.avgScore results) TR.first_score
       (TR.successfulTests results)
  /\ (TR.completedTests results = [] ->
      TR.avgDuration results = 0 /\ TR.avgScore results = 0)
  /\ (TR.successfulTests results = [] -> TR.avgScore results = 0).
Proof.
  split; [|split; [|split]].
  - unfold TR.avgDuration. apply quotient_is_mean. reflexivity.
  - unfold TR.avgScore. apply quotient_is_mean.
    apply top_score_first_score.
  - intros Hnone. unfold TR.avgDuration, TR.avgScore, TR.successfulTests.
    rewrite Hnone. split; reflexivity.
  - intros Hnone. unfold TR.avgScore. rewrite Hnone. reflexivity.
Qed.

(** C2 as stated fails: of five completed results one is successful, with
    top score 0.8; the average top score shown is 0.8, not the mean 0.16
    over the five. *)
Lemma averages_counterexample :
  length (TR.completedTests TR.one_of_five) = 5%nat
  /\ TR.avgScore TR.one_of_five == 0.8
  /\ ~ TR.is_mean (TR.avgScore TR.one_of_five) TR.first_score
         (TR.completedTests TR.one_of_five).
Proof.
  split; [reflexivity|]. split; [reflexivity|].
  vm_compute. discriminate.
Qed.

(** *** Export *)

Lemma read_export_entry (toISOString : Z -> jsstring)
    (entry : jsstring * TR.TestResult) :
  TR.read_entry (TR.export_entry toISOString entry)
  = Some (fst entry, inject_Z (TR.results_count (snd entry))).
Proof.
  destruct entry as [k r].
  unfold TR.export_entry, TR.TestResult_props. cbn [fst snd].
  destruct (TR.error_message r); reflexivity.
Qed.

Lemma cards_of_numbers (total with_results : nat) (failed duration score : Q) :
  TR.cards_of {| TR.total_tests := TR.num total;
                 TR.successful := TR.num with_results;
                 TR.failed := failed;
                 TR.avg_duration := duration;
                 TR.avg_score := score |}
  = if (0 <? total)%nat
    then Some {| TR.card_total := Number_toString (Z.of_nat total);
                 TR.card_with_results :=
                   Number_toString (Z.of_nat with_results);
                 TR.card_avg_duration := toFixed 2 duration ++ str "s";
                 TR.card_avg_score := toFixed 1 (score * 100) ++ str "%" |}
    else None.
Proof.
  unfold TR.cards_of, TR.num. cbn [TR.total_tests TR.successful
                                    TR.avg_duration TR.avg_score].
  rewrite !Qfloor_Z.
  destruct total as [|total]; reflexivity.
Qed.

(** C5, as amended.  Export sends no request: it adds a download and a
    toast to the log and nothing else.  Reading the downloaded document
    back gives, entry by entry in the order of the results map, each
    scenario id with its result count, and the five aggregate numbers the
    render the export was started from has computed.  The cards of that
    render are what these numbers give when they are formatted as the page
    formats them: the page shows the average duration with two decimals
    and the average top score as a percentage with one decimal, and it
    shows no failed count. *)
Theorem exportResults_roundtrip {E : Type} `{Platform TR.Req TR.Payload E}
    (toISOString : Z -> jsstring) (snap : TR.State)
    (run : Run TR.Req TR.State E unit) :
  let results := TR.st_results snap in
  let '(c, final) := TR.exportResults toISOString snap run in
  c = Normal tt
  /\ ui final = ui run
  /\ requested (log final) = requested (log run)
  /\ exists filename doc metrics,
       log final
       = log run ++ [ Download filename doc;
                      Toast toast_success (str "Results exported") ]
       /\ TR.read_metrics doc = Some metrics
       /\ TR.total_tests metrics
          = TR.num (length (TR.completedTests results))
       /\ TR.successful metrics
          = TR.num (length (TR.successfulTests results))
       /\ TR.failed metrics = TR.num (length (TR.failedTests results))
       /\ TR.avg_duration metrics = TR.avgDuration results
       /\ TR.avg_score metrics = TR.avgScore results
       /\ TR.cards results = TR.cards_of metrics
       /\ TR.read_entries doc
          = List.map
              (fun entry =>
                 Some (fst entry, inject_Z (TR.results_count (snd entry))))
              (JsMap.entries results).
Proof.
  cbv zeta.
  cbv beta iota delta [TR.exportResults bind Date_now emit toast].
  destruct (clock (env run)) as [now e1]. cbn [ui env localStorage log].
  destruct (clock e1) as [today e2]. cbn [ui env localStorage log].
  split; [reflexivity|]. split; [reflexivity|].
  split.
  { unfold requested. rewrite <- app_assoc, flat_map_app. simpl.
    rewrite app_nil_r. reflexivity. }
  eexists _, _, _. split; [rewrite <- app_assoc; reflexivity|].
  split; [reflexivity|].
  cbn [TR.total_tests TR.successful TR.failed TR.avg_duration TR.avg_score].
  repeat (split; [reflexivity|]).
  split; [rewrite cards_of_numbers; reflexivity|].
  unfold TR.read_entries, TR.export_data.
  change (prop (str "results") (JObj ?l)) with (assoc (str "results") l).
  cbn [assoc]. 
  replace (eqb (str "timestamp") (str "results")) with false by reflexivity.
  replace (eqb (str "metrics") (str "results")) with false by reflexivity.
  replace (eqb (str "results") (str "results")) with true by reflexivity.
  cbn [elements]. rewrite map_map.
  apply map_ext. intros entry. apply read_export_entry.
Qed.

(** C5 as stated fails: with five completed results of which one is
    successful, the card of the average duration shows 0.14s and the
    exported number is 0.144; the card of the average top score shows 80.0%
    and the exported number is 0.8; and the exported failed count, 4, is on
    no card. *)
Lemma exportResults_counterexample :
  let snap := TR.with_results TR.one_of_five TR.initial in
  let final :=
    snd (TR.exportResults (fun _ => []) snap (TR.start snap TR.offline)) in
  let doc := TR.export_data (fun _ => []) 0 TR.one_of_five in
  log final
  = [ Download (str "retrieval-test-.json") doc;
      Toast toast_success (str "Results exported") ]
  /\ TR.cards (TR.st_results snap)
     = Some {| TR.card_total := str "5";
               TR.card_with_results := str "1";
               TR.card_avg_duration := str "0.14s";
               TR.card_avg_score := str "80.0%" |}
  /\ exists metrics,
       TR.read_metrics doc = Some metrics
       /\ TR.avg_duration metrics == 0.144
       /\ ~ TR.avg_duration metrics == 0.14
       /\ TR.avg_score metrics == 0.8
       /\ ~ TR.avg_score metrics == 80
       /\ TR.failed metrics == 4.
Proof.
  cbv zeta. split; [vm_compute; reflexivity|].
  split; [vm_compute; reflexivity|].
  eexists. split; [vm_compute; reflexivity|].
  cbn [TR.avg_duration TR.avg_score TR.failed].
  split; [vm_compute; reflexivity|].
  split; [vm_compute; discriminate|].
  split; [vm_compute; reflexivity|].
  split; [vm_compute; discriminate|].
  vm_compute; reflexivity.
Qed.


(** The witness of C1: the five default scenarios, the first answered
    and the others rejected. *)
Lemma handleRunAll_sequential_witness :
  TR.scenarios TR.initial <> []
  /\ JsMap.keys
       (TR.st_results
          (ui (snd (TR.handleRunAll TR.initial
                      (TR.start TR.initial TR.first_succeeds)))))
     = List.map TR.id TR.DEFAULT_SCENARIOS.
Proof.
  split; [discriminate|].
  pose proof (handleRunAll_sequential TR.initial
                (TR.start TR.initial TR.first_succeeds)
                ltac:(discriminate)) as W.
  cbv zeta in W.
  destruct (TR.handleRunAll TR.initial
              (TR.start TR.initial TR.first_succeeds)) as [c final].
  destruct W as (_ & _ & _ & (rs & _ & _ & Hd) & _).
  apply Hd. vm_compute.
  repeat constructor; simpl; intuition discriminate.
Defined.

(** C1 as stated fails: two scenarios added in the same millisecond get
    the same id, so seven scenarios leave six entries; and a query that is
    a lone surrogate is never requested. *)
Lemma handleRunAll_counterexample :
  (let snap := ui TR.added_twice in
   let final := snd (TR.handleRunAll snap TR.added_twice) in
   length (TR.scenarios snap) = 7%nat
   /\ JsMap.size (TR.st_results (ui final)) = 6%nat)
  /\ (let snap := TR.lone_surrogate in
      let final := snd (TR.handleRunAll snap (TR.start snap TR.offline)) in
      length (TR.scenarios snap) = 1%nat
      /\ requested (log final) = []).
Proof. vm_compute. auto. Qed.


(** ** The chat clients *)

#[local] Arguments ok : simpl never.
#[local] Arguments trim : simpl never.
#[local] Arguments str : simpl never.
#[local] Arguments Number_toString : simpl never.

Lemma trimStart_nil (s : jsstring) :
  trimStart s = [] <-> is_blank s = true.
Proof.
  unfold is_blank. induction s as [|c s IH]; simpl; [tauto|].
  destruct (is_white_space c); simpl; [exact IH|].
  split; discriminate.
Qed.

Lemma trimStart_head (s : jsstring) (c : N) (rest : jsstring) :
  trimStart s = c :: rest -> is_white_space c = false.
Proof.
  induction s as [|d s IH]; simpl; [discriminate|].
  destruct (is_white_space d) eqn:Hd; [exact IH|].
  intros [= -> _]. exact Hd.
Qed.

Lemma is_blank_rev (s : jsstring) : is_blank (rev s) = is_blank s.
Proof.
  unfold is_blank. destruct (forallb is_white_space s) eqn:Hs.
  - rewrite forallb_forall in *. intros c Hc. apply Hs, in_rev, Hc.
  - destruct (forallb is_white_space (rev s)) eqn:Hr; [|reflexivity].
    rewrite forallb_forall in Hr.
    assert (Hall : forallb is_white_space s = true).
    { apply forallb_forall. intros c Hc. apply Hr. apply in_rev.
      rewrite rev_involutive. exact Hc. }
    congruence.
Qed.

(** A string trims to the empty string exactly when it is empty or white
    space only. *)
Lemma trim_falsy (s : jsstring) : falsy (trim s) = true <-> is_blank s = true.
Proof.
  unfold trim, trimEnd. split.
  - intros Hf.
    destruct (trimStart s) as [|c rest] eqn:Hs; [apply trimStart_nil, Hs|].
    exfalso.
    assert (Hrev : trimStart (rev (c :: rest)) = []).
    { destruct (trimStart (rev (c :: rest))) as [|d u] eqn:Ht; auto.
      simpl in Hf. destruct (rev u ++ [d]) eqn:Hu; [|discriminate].
      destruct (rev u); discriminate. }
    apply trimStart_nil in Hrev. rewrite is_blank_rev in Hrev.
    apply trimStart_head in Hs. simpl in Hrev. rewrite Hs in Hrev.
    discriminate.
  - intros Hb. apply trimStart_nil in Hb. rewrite Hb. reflexivity.
Qed.

Module GC := GroqChat.

(** C4.  A submit whose input is empty or white space only, or that finds
    a request in flight, does nothing in either implementation: it
    completes at once and leaves the state, the environment and the log as
    they were, so it sends no request and the transcript is unchanged. *)
Theorem blank_or_busy_submit_is_noop :
  (forall (E : Type) (P : Platform GC.Req GC.Payload E)
          (snap : GC.State) (run : Run GC.Req GC.State E unit),
      is_blank (GC.input snap) = true \/ GC.isLoading snap = true ->
      GC.sendMessage snap run = (Normal tt, run))
  /\ (forall (E : Type) (P : Platform Chat.Req Chat.Payload E)
             (snap : Chat.State) (run : Run Chat.Req Chat.Live E Chat.Item),
         is_blank (Chat.message snap) = true \/ Chat.isLoading snap = true ->
         Chat.handleSubmit snap run = (Normal tt, run)
         /\ (Chat.messages_changed (ui run) = false ->
             Chat.dispatch (Chat.handleSubmit snap) run = (Normal tt, run))).
Proof.
  split.
  - intros E P snap run Hguard. unfold GC.sendMessage.
    replace (falsy (trim (GC.input snap)) || GC.isLoading snap)
      with true; [reflexivity|].
    symmetry. apply orb_true_iff.
    destruct Hguard as [Hb|Hl]; [left; apply trim_falsy, Hb | right; exact Hl].
  - intros E P snap run Hguard.
    assert (Hnoop : Chat.handleSubmit snap run = (Normal tt, run)).
    { unfold Chat.handleSubmit.
      replace (falsy (trim (Chat.message snap)) || Chat.isLoading snap)
        with true; [reflexivity|].
      symmetry. apply orb_true_iff.
      destruct Hguard as [Hb|Hl];
        [left; apply trim_falsy, Hb | right; exact Hl]. }
    split; [exact Hnoop|].
    intros Hclean. unfold Chat.dispatch, try_finally. rewrite Hnoop.
    unfold Chat.commit, bind, getState. rewrite Hclean. reflexivity.
Qed.

(** The witness of C4: blanks typed in GroqChat and in Chat. *)
Lemma blank_or_busy_submit_is_noop_witness :
  ((is_blank (GC.input GC.blanks_typed) = true
    \/ GC.isLoading GC.blanks_typed = true)
   /\ GC.sendMessage GC.blanks_typed
        (GC.start GC.blanks_typed GC.server_error)
      = (Normal tt, GC.start GC.blanks_typed GC.server_error))
  /\ ((is_blank (Chat.message Chat.blanks_typed) = true
       \/ Chat.isLoading Chat.blanks_typed = true)
      /\ Chat.handleSubmit Chat.blanks_typed
           (Chat.start Chat.blanks_typed JsMap.empty Chat.server_error)
         = (Normal tt,
            Chat.start Chat.blanks_typed JsMap.empty Chat.server_error)).
Proof.
  split; (split; [left; reflexivity|]).
  - apply (proj1 blank_or_busy_submit_is_noop). left. reflexivity.
  - apply (proj2 blank_or_busy_submit_is_noop). left. reflexivity.
Defined.

Lemma guard_passes (text : jsstring) (busy : bool) :
  is_blank text = false -> busy = false -> falsy (trim text) || busy = false.
Proof.
  intros Hb ->. rewrite orb_false_r.
  destruct (falsy (trim text)) eqn:Hf; [|reflexivity].
  apply trim_falsy in Hf. congruence.
Qed.

Lemma toasts_app {Req : Type} (l1 l2 : list (Event Req)) :
  List.filter is_toast (l1 ++ l2)
  = List.filter is_toast l1 ++ List.filter is_toast l2.
Proof. apply filter_app. Qed.

Ltac chat_failed :=
  cbn;
  split; [reflexivity|];
  split; [refine (ex_intro _ _ (conj _ (conj _ eq_refl))); reflexivity|];
  split; [eexists; reflexivity|];
  split; [reflexivity|];
  unfold requested; rewrite !toasts_app, !flat_map_app; cbn;
  rewrite !app_nil_r; auto.

(** C3, as amended.  When a send fails, GroqChat shows an error toast and
    removes the user message it had just added, so the transcript is as it
    was before the submit; for GroqChat a send fails when the fetch
    rejects, the status is not 2xx or the body does not parse.  Chat keeps
    the user message it had added and puts the failure in its [error]
    state, without a toast; for Chat a send fails when the fetch rejects,
    the body does not parse or carries an error, or the status is not
    2xx. *)
Theorem chat_failure_handling :
  (forall (E : Type) (P : Platform GC.Req GC.Payload E)
          (snap : GC.State) (run : Run GC.Req GC.State E unit),
      is_blank (GC.input snap) = false ->
      GC.isLoading snap = false ->
      GC.send_fails (GC.request_of snap) (snd (clock (env run))) ->
      let '(c, final) := GC.sendMessage snap run in
      c = Normal tt
      /\ GC.messages (ui final) = GC.messages (ui run)
      /\ GC.isLoading (ui final) = false
      /\ exists msg,
           log final
           = log run ++ [ Requested (GC.request_of snap);
                          Settled (GC.request_of snap);
                          Toast toast_error msg ])
  /\ (forall (E : Type) (P : Platform Chat.Req Chat.Payload E)
             (snap : Chat.State) (run : Run Chat.Req Chat.Live E Chat.Item),
         is_blank (Chat.message snap) = false ->
         Chat.isLoading snap = false ->
         Chat.send_fails (Chat.request_of snap)
           (snd (clock (snd (clock (env run))))) ->
         let '(c, final) := Chat.dispatch (Chat.handleSubmit snap) run in
         c = Normal tt
         /\ (exists userMessageObj,
               Chat.type userMessageObj = Chat.user
               /\ Chat.content userMessageObj = trim (Chat.message snap)
               /\ Chat.messages (Chat.st (ui final))
                  = Chat.messages (Chat.st (ui run)) ++ [userMessageObj])
         /\ (exists msg, Chat.error (Chat.st (ui final)) = Some msg)
         /\ Chat.isLoading (Chat.st (ui final)) = false
         /\ requested (log final)
            = requested (log run) ++ [Chat.request_of snap]
         /\ List.filter is_toast (log final) = List.filter is_toast (log run)).
Proof.
  split.
  - intros E P snap run Hb Hl Hfail.
    unfold GC.send_fails, GC.request_of in *.
    unfold GC.sendMessage. rewrite (guard_passes _ Hb Hl).
    cbv beta iota delta
      [bind try_finally try_catch Date_now fetch throw ret lift toast emit
         GC.setMessages GC.setInput GC.setIsLoading setState].
    destruct run as [u e sto lg]. cbn [ui env localStorage log] in *.
    destruct (clock e) as [t0 e1]. cbn [fst snd] in *.
    cbn [GC.content GC.with_messages GC.with_input GC.with_isLoading
           GC.messages GC.input GC.isLoading ui env localStorage log].
    destruct (serve
                (GC.POST_chat
                   {| GC.req_message := trim (GC.input snap);
                      GC.history := GC.build_history (GC.messages snap) |})
                e1) as [[err|res] e2]; cbn [fst snd] in *.
    + cbn. unfold slice_0_m1. rewrite removelast_last.
      repeat split. eexists. rewrite <- app_assoc. reflexivity.
    + destruct (ok res) eqn:Hok; cbn.
      * destruct Hfail as [Hf|[err Hj]]; [discriminate|].
        rewrite Hj. cbn. unfold slice_0_m1. rewrite removelast_last.
        repeat split. eexists. rewrite <- app_assoc. reflexivity.
      * destruct (json res) as [body|err]; cbn;
          unfold slice_0_m1; rewrite removelast_last;
          repeat split; eexists; rewrite <- app_assoc; reflexivity.
  - intros E P snap run Hb Hl Hfail.
    unfold Chat.send_fails, Chat.request_of in *.
    unfold Chat.dispatch, Chat.handleSubmit. rewrite (guard_passes _ Hb Hl).
    cbv beta iota delta
      [bind try_finally try_catch Date_now fetch throw ret lift toast emit
         console_error getState localStorage_setItem
         Chat.await Chat.commit Chat.saveEffect
         Chat.setMessages Chat.setMessage Chat.setIsLoading Chat.setError
         Chat.setSources setState Chat.update].
    unfold Chat.Payload in *.
    destruct run as [u e sto lg]. cbn in *.
    destruct (clock e) as [t0 e1]. cbn in *.
    destruct (clock e1) as [t1 e2]. cbn in *.
    rewrite length_app, Nat.add_comm. cbn.
    destruct (serve
                (Chat.POST_chat
                   {| Chat.req_message := trim (Chat.message snap);
                      Chat.history :=
                        Chat.build_history (Chat.messages snap) |})
                e2) as [[err|response] e3]; cbn in *.
    + chat_failed.
    + destruct (json response) as [data|err] eqn:Hj; cbn.
      * destruct (Chat.data_error data) eqn:Herr; cbn.
        -- chat_failed.
        -- destruct Hfail as [Hf|Hok]; [discriminate|].
           rewrite Hok. chat_failed.
      * chat_failed.
Qed.

(** The witness of C3: each client sends "hi" and the back end answers
    500. *)
Lemma chat_failure_handling_witness :
  (is_blank (GC.input GC.first_message) = false
   /\ GC.isLoading GC.first_message = false
   /\ GC.send_fails (GC.request_of GC.first_message)
        (snd (clock (env (GC.start GC.first_message GC.server_error))))
   /\ GC.messages
        (ui (snd (GC.sendMessage GC.first_message
                    (GC.start GC.first_message GC.server_error))))
      = [])
  /\ (is_blank (Chat.message Chat.first_message) = false
      /\ Chat.isLoading Chat.first_message = false
      /\ Chat.send_fails (Chat.request_of Chat.first_message)
           (snd (clock (snd (clock
              (env (Chat.start Chat.first_message JsMap.empty
                      Chat.server_error))))))
      /\ length
           (Chat.messages
              (Chat.st
                 (ui (snd (Chat.dispatch
                             (Chat.handleSubmit Chat.first_message)
                             (Chat.start Chat.first_message JsMap.empty
                                Chat.server_error))))))
         = 1%nat).
Proof.
  split.
  - assert (Hfail : GC.send_fails (GC.request_of GC.first_message)
                      (snd (clock (env (GC.start GC.first_message
                                          GC.server_error))))).
    { left. reflexivity. }
    split; [reflexivity|]. split; [reflexivity|]. split; [exact Hfail|].
    pose proof (proj1 chat_failure_handling GC.Script GC.scripted
                  GC.first_message
                  (GC.start GC.first_message GC.server_error)
                  eq_refl eq_refl Hfail) as W.
    destruct (GC.sendMessage GC.first_message
                (GC.start GC.first_message GC.server_error)) as [c final].
    destruct W as (_ & Hm & _). exact Hm.
  - assert (Hfail : Chat.send_fails (Chat.request_of Chat.first_message)
                      (snd (clock (snd (clock
                         (env (Chat.start Chat.first_message JsMap.empty
                                 Chat.server_error))))))).
    { exact I. }
    split; [reflexivity|]. split; [reflexivity|]. split; [exact Hfail|].
    pose proof (proj2 chat_failure_handling Chat.Script Chat.scripted
                  Chat.first_message
                  (Chat.start Chat.first_message JsMap.empty
                     Chat.server_error)
                  eq_refl eq_refl Hfail) as W.
    destruct (Chat.dispatch (Chat.handleSubmit Chat.first_message)
                (Chat.start Chat.first_message JsMap.empty
                   Chat.server_error)) as [c final].
    destruct W as (_ & (m & _ & _ & Hm) & _). cbn [snd].
    rewrite Hm. reflexivity.
Defined.

(** C3 as stated fails, the two roles being exchanged: after a failed
    send Chat still shows the user message, and GroqChat does not. *)
Lemma chat_failure_counterexample :
  List.map Chat.content
    (Chat.messages
       (Chat.st
          (ui (snd (Chat.dispatch (Chat.handleSubmit Chat.first_message)
                      (Chat.start Chat.first_message JsMap.empty
                         Chat.server_error))))))
  = [str "hi"]
  /\ GC.messages
       (ui (snd (GC.sendMessage GC.first_message
                   (GC.start GC.first_message GC.server_error))))
     = [].
Proof. split; reflexivity. Qed.

(** GroqChat does not look for an error in a reply with a 2xx status: it
    appends an assistant message and shows no toast. *)
Lemma GroqChat_ignores_error_envelope :
  let final := snd (GC.sendMessage GC.first_message
                      (GC.start GC.first_message GC.error_envelope)) in
  List.map GC.role (GC.messages (ui final)) = [GC.user; GC.assistant]
  /\ List.filter is_toast (log final) = [].
Proof. split; reflexivity. Qed.

(** *** The history a submit sends *)

Lemma Chat_build_history_pairs (ms : list Chat.Message) :
  forall item, In item (Chat.build_history ms) ->
    exists i m0 m1,
      Nat.even i = true
      /\ nth_error ms i = Some m0
      /\ nth_error ms (S i) = Some m1
      /\ Chat.type m0 = Chat.user
      /\ Chat.type m1 = Chat.assistant
      /\ item = Chat.exchange m0 m1.
Proof.
  assert (Hgen : forall n (ms : list Chat.Message), (length ms <= n)%nat ->
            forall item, In item (Chat.build_history ms) ->
              exists i m0 m1,
                Nat.even i = true
                /\ nth_error ms i = Some m0
                /\ nth_error ms (S i) = Some m1
                /\ Chat.type m0 = Chat.user
                /\ Chat.type m1 = Chat.assistant
                /\ item = Chat.exchange m0 m1).
  { clear ms. induction n as [|n IH]; intros ms Hlen item Hin.
    - destruct ms; [destruct Hin | simpl in Hlen; lia].
    - destruct ms as [|m0 [|m1 rest]]; try (destruct Hin; fail).
      simpl in Hin. apply in_app_iff in Hin. destruct Hin as [Hin|Hin].
      + destruct (Chat.type m0) eqn:H0, (Chat.type m1) eqn:H1;
          simpl in Hin; try tauto.
        destruct Hin as [<-|[]].
        exists 0%nat, m0, m1. repeat split; auto.
      + destruct (IH rest) with (item := item)
          as (i & a & b & Hev & Ha & Hb & Hta & Htb & Hitem);
          [simpl in Hlen; lia | exact Hin |].
        exists (S (S i)), a, b. repeat split; auto. }
  intros item. apply (Hgen (length ms)). lia.
Qed.

Lemma Chat_build_history_length (ms : list Chat.Message) :
  (2 * length (Chat.build_history ms) <= length ms)%nat.
Proof.
  assert (Hgen : forall n (ms : list Chat.Message), (length ms <= n)%nat ->
            (2 * length (Chat.build_history ms) <= length ms)%nat).
  { clear ms. induction n as [|n IH]; intros ms Hlen.
    - destruct ms; simpl in *; lia.
    - destruct ms as [|m0 [|m1 rest]]; simpl; try lia.
      rewrite length_app.
      assert (Hrest := IH rest ltac:(simpl in Hlen; lia)).
      destruct (Chat.MessageType_eqb (Chat.type m0) Chat.user
                && Chat.MessageType_eqb (Chat.type m1) Chat.assistant);
        simpl; unfold Chat.ChatHistoryItem in *; lia. }
  apply (Hgen (length ms)). lia.
Qed.

Lemma Chat_build_history_alternating
    (turns : list (Chat.Message * Chat.Message)) :
  (forall t, In t turns ->
     Chat.type (fst t) = Chat.user /\ Chat.type (snd t) = Chat.assistant) ->
  Chat.build_history (flat_map (fun t => [fst t; snd t]) turns)
  = List.map (fun t => Chat.exchange (fst t) (snd t)) turns.
Proof.
  induction turns as [|[m0 m1] turns IH]; intros Hturns; [reflexivity|].
  simpl. destruct (Hturns (m0, m1)) as [H0 H1]; [left; reflexivity|].
  simpl in H0, H1. rewrite H0, H1. simpl.
  f_equal. apply IH. intros t Ht. apply Hturns. right. exact Ht.
Qed.

(** Case analysis on whatever the run of a handler is waiting for. *)
Ltac destruct_scrutinee :=
  match goal with
  | |- context [match ?x with _ => _ end] =>
      lazymatch x with
      | context [match _ with _ => _ end] => fail
      | _ => destruct x eqn:?
      end
  end.

Ltac run_handler := repeat (cbn in *; destruct_scrutinee).

Lemma GroqChat_request {E : Type} `{Platform GC.Req GC.Payload E}
    (snap : GC.State) (run : Run GC.Req GC.State E unit) :
  is_blank (GC.input snap) = false ->
  GC.isLoading snap = false ->
  requested (log (snd (GC.sendMessage snap run)))
  = requested (log run) ++ [GC.request_of snap].
Proof.
  intros Hb Hl. unfold GC.request_of, GC.sendMessage.
  rewrite (guard_passes _ Hb Hl).
  cbv beta iota delta
    [bind try_finally try_catch Date_now fetch throw ret lift toast emit
       GC.setMessages GC.setInput GC.setIsLoading setState].
  unfold GC.Payload in *. destruct run as [u e sto lg].
  unfold requested.
  run_handler; cbn; rewrite ?flat_map_app; cbn; rewrite ?app_nil_r;
    reflexivity.
Qed.

Lemma Chat_request {E : Type} `{Platform Chat.Req Chat.Payload E}
    (snap : Chat.State) (run : Run Chat.Req Chat.Live E Chat.Item) :
  is_blank (Chat.message snap) = false ->
  Chat.isLoading snap = false ->
  requested (log (snd (Chat.dispatch (Chat.handleSubmit snap) run)))
  = requested (log run) ++ [Chat.request_of snap].
Proof.
  intros Hb Hl. unfold Chat.request_of, Chat.dispatch, Chat.handleSubmit.
  rewrite (guard_passes _ Hb Hl).
  cbv beta iota delta
    [bind try_finally try_catch Date_now fetch throw ret lift toast emit
       console_error getState localStorage_setItem
       Chat.await Chat.commit Chat.saveEffect
       Chat.setMessages Chat.setMessage Chat.setIsLoading Chat.setError
       Chat.setSources setState Chat.update].
  unfold Chat.Payload in *. destruct run as [u e sto lg].
  unfold requested.
  run_handler; cbn; rewrite ?flat_map_app; cbn; rewrite ?app_nil_r;
    reflexivity.
Qed.

(** After a failed send, which Chat leaves in the transcript, the pairs
    of the loop are out of step and the later exchange is not sent. *)
Lemma Chat_history_out_of_step :
  Chat.build_history Chat.after_a_failure = [].
Proof. reflexivity. Qed.

Lemma GroqChat_build_history_nth (ms : list GC.Message) (i : nat) :
  nth_error (GC.build_history ms) i
  = option_map
      (fun m => [ (match GC.role m with
                   | GC.user => str "user"
                   | GC.assistant => str "assistant"
                   end, GC.content m) ])
      (nth_error ms i).
Proof. unfold GC.build_history. apply nth_error_map. Qed.

(** C8, as amended.  The request of a submit carries the trimmed input as
    its message and a history built from the transcript of the render the
    submit was made in, which does not hold the message being submitted;
    the history is not truncated.  In Chat every history item pairs the
    user message at an even index with the assistant message that follows
    it, so there are at most half as many items as messages, and a
    transcript that alternates user and assistant turns is sent whole.  In
    GroqChat the history has one item per message, in order, with the one
    property user or assistant. *)
Theorem chat_history_payload :
  (forall (E : Type) (P : Platform Chat.Req Chat.Payload E)
          (snap : Chat.State) (run : Run Chat.Req Chat.Live E Chat.Item),
      is_blank (Chat.message snap) = false ->
      Chat.isLoading snap = false ->
      requested (log (snd (Chat.dispatch (Chat.handleSubmit snap) run)))
      = requested (log run)
        ++ [ Chat.POST_chat
               {| Chat.req_message := trim (Chat.message snap);
                  Chat.history := Chat.build_history (Chat.messages snap) |} ])
  /\ (forall ms : list Chat.Message,
        (forall item, In item (Chat.build_history ms) ->
           exists i m0 m1,
             Nat.even i = true
             /\ nth_error ms i = Some m0
             /\ nth_error ms (S i) = Some m1
             /\ Chat.type m0 = Chat.user
             /\ Chat.type m1 = Chat.assistant
             /\ item = [ (str "user", Chat.content m0);
                         (str "assistant", Chat.content m1) ])
        /\ (2 * length (Chat.build_history ms) <= length ms)%nat)
  /\ (forall turns : list (Chat.Message * Chat.Message),
        (forall t, In t turns ->
           Chat.type (fst t) = Chat.user
           /\ Chat.type (snd t) = Chat.assistant) ->
        Chat.build_history (flat_map (fun t => [fst t; snd t]) turns)
        = List.map
            (fun t => [ (str "user", Chat.content (fst t));
                        (str "assistant", Chat.content (snd t)) ])
            turns)
  /\ (forall (E : Type) (P : Platform GC.Req GC.Payload E)
             (snap : GC.State) (run : Run GC.Req GC.State E unit),
         is_blank (GC.input snap) = false ->
         GC.isLoading snap = false ->
         requested (log (snd (GC.sendMessage snap run)))
         = requested (log run)
           ++ [ GC.POST_chat
                  {| GC.req_message := trim (GC.input snap);
                     GC.history := GC.build_history (GC.messages snap) |} ])
  /\ (forall ms : list GC.Message,
        length (GC.build_history ms) = length ms
        /\ forall i m, nth_error ms i = Some m ->
             nth_error (GC.build_history ms) i
             = Some [ (match GC.role m with
                       | GC.user => str "user"
                       | GC.assistant => str "assistant"
                       end, GC.content m) ]).
Proof.
  split; [|split; [|split; [|split]]].
  - intros E P snap run Hb Hl. apply (Chat_request snap run Hb Hl).
  - intros ms. split.
    + apply Chat_build_history_pairs.
    + apply Chat_build_history_length.
  - apply Chat_build_history_alternating.
  - intros E P snap run Hb Hl. apply (GroqChat_request snap run Hb Hl).
  - intros ms. split.
    + unfold GC.build_history. apply length_map.
    + intros i m Hm. rewrite GroqChat_build_history_nth, Hm. reflexivity.
Qed.

(** The witness of C8: GroqChat sends "next" after one exchange. *)
Lemma chat_history_payload_witness :
  is_blank (GC.input GC.one_exchange) = false
  /\ GC.isLoading GC.one_exchange = false
  /\ requested
       (log (snd (GC.sendMessage GC.one_exchange
                    (GC.start GC.one_exchange GC.server_error))))
     = [ GC.POST_chat
           {| GC.req_message := trim (GC.input GC.one_exchange);
              GC.history := GC.build_history (GC.messages GC.one_exchange) |} ].
Proof.
  split; [reflexivity|]. split; [reflexivity|].
  apply (proj1 (proj2 (proj2 (proj2 chat_history_payload)))
           GC.Script GC.scripted GC.one_exchange
           (GC.start GC.one_exchange GC.server_error));
    reflexivity.
Defined.

(** C8 as stated fails for GroqChat: after one exchange the history it
    sends has two items, one for each message, and not the one item that
    pairs the user turn with the assistant turn. *)
Lemma chat_history_payload_counterexample :
  requested
    (log (snd (GC.sendMessage GC.one_exchange
                 (GC.start GC.one_exchange GC.server_error))))
  = [ GC.POST_chat
        {| GC.req_message := str "next";
           GC.history := [ [ (str "user", str "hi") ];
                           [ (str "assistant", str "hello") ] ] |} ]
  /\ GC.build_history (GC.messages GC.one_exchange)
     <> [ [ (str "user", str "hi"); (str "assistant", str "hello") ] ].
Proof. split; [reflexivity | discriminate]. Qed.

(** *** The persisted transcript *)

Lemma snoc_not_empty {A} (l : list A) (x : A) (n : nat) :
  length (l ++ [x]) = n -> n <> 0%nat.
Proof. rewrite length_app. simpl. lia. Qed.

Ltac absurd_length :=
  exfalso;
  match goal with
  | Hlen : length (_ ++ [_]) = 0%nat |- _ =>
      exact (snoc_not_empty _ _ Hlen eq_refl)
  | Hlen : (0 <? length (_ ++ [_]))%nat = false |- _ =>
      rewrite length_app in Hlen; simpl in Hlen;
      apply Nat.ltb_ge in Hlen; lia
  end.

Lemma Chat_submit_saved {E : Type} `{Platform Chat.Req Chat.Payload E}
    (snap : Chat.State) (run : Run Chat.Req Chat.Live E Chat.Item) :
  is_blank (Chat.message snap) = false ->
  Chat.isLoading snap = false ->
  let '(c, final) := Chat.dispatch (Chat.handleSubmit snap) run in
  c = Normal tt
  /\ Chat.messages_changed (ui final) = false
  /\ Chat.messages (Chat.st (ui final)) <> []
  /\ JsMap.get Chat.chatHistory (localStorage final)
     = Some (Chat.Stringified (Chat.messages (Chat.st (ui final))))
  /\ (forall key, Chat.chatHistory <> key ->
        JsMap.get key (localStorage final)
        = JsMap.get key (localStorage run)).
Proof.
  intros Hb Hl. unfold Chat.dispatch, Chat.handleSubmit.
  rewrite (guard_passes _ Hb Hl).
  cbv beta iota delta
    [bind try_finally try_catch Date_now fetch throw ret lift toast emit
       console_error getState localStorage_setItem
       Chat.await Chat.commit Chat.saveEffect
       Chat.setMessages Chat.setMessage Chat.setIsLoading Chat.setError
       Chat.setSources setState Chat.update].
  unfold Chat.Payload in *. destruct run as [u e sto lg].
  run_handler; cbn;
    first [ absurd_length
          | split; [reflexivity|]; split; [reflexivity|];
            split; [intros Hnil; apply app_eq_nil in Hnil;
                    destruct Hnil; discriminate|];
            split; [rewrite ?get_set_same; reflexivity|];
            intros key Hkey; fold (@JsMap.get Chat.Item);
            rewrite ?get_set_other by exact Hkey; reflexivity ].
Qed.

Lemma Chat_submit_writes {E : Type} `{Platform Chat.Req Chat.Payload E}
    (snap : Chat.State) (run : Run Chat.Req Chat.Live E Chat.Item) :
  is_blank (Chat.message snap) = false ->
  Chat.isLoading snap = false ->
  let '(c, final) := Chat.dispatch (Chat.handleSubmit snap) run in
  exists added,
    Chat.messages (Chat.st (ui final))
    = Chat.messages (Chat.st (ui run)) ++ added
    /\ (length added = 1 \/ length added = 2)%nat
    /\ writes_of Chat.chatHistory (log final)
       = writes_of Chat.chatHistory (log run)
           ++ List.map (fun _ => StorageSet Chat.chatHistory) added.
Proof.
  intros Hb Hl. unfold Chat.dispatch, Chat.handleSubmit.
  rewrite (guard_passes _ Hb Hl).
  cbv beta iota delta
    [bind try_finally try_catch Date_now fetch throw ret lift toast emit
       console_error getState localStorage_setItem
       Chat.await Chat.commit Chat.saveEffect
       Chat.setMessages Chat.setMessage Chat.setIsLoading Chat.setError
       Chat.setSources setState Chat.update].
  unfold Chat.Payload in *. destruct run as [u e sto lg].
  run_handler; cbn;
    first [ absurd_length
          | eexists; split; [rewrite <- ?app_assoc; reflexivity|];
            split; [cbn; auto|];
            unfold writes_of; rewrite !filter_app; cbn;
            rewrite ?eqb_refl, ?app_nil_r, <- ?app_assoc; reflexivity ].
Qed.

(** C9.  The transcript is kept under the one key [chatHistory].  Mounting
    reads the key once and restores the transcript it holds.  Every change
    of the transcript is followed by a commit that writes the transcript
    under the key: a submit that passes the guard changes the transcript
    once or twice, writes it as often, and ends with the key holding the
    transcript, whatever the outcome of the request.  Clearing the chat
    empties the transcript and removes the key, and the commit that follows
    leaves it removed: the save effect does not write an empty
    transcript. *)
Theorem chat_history_persistence {E : Type}
    `{Platform Chat.Req Chat.Payload E} :
  (forall (storage : JsMap.t Chat.Item) (e : E),
      let '(c, final) :=
        Chat.mount {| ui := {| Chat.st := Chat.initial;
                               Chat.messages_changed := false |};
                      env := e; localStorage := storage; log := [] |} in
      c = Normal tt
      /\ reads_of Chat.chatHistory (log final)
         = [StorageGet Chat.chatHistory]
      /\ Chat.messages (Chat.st (ui final)) = Chat.restored storage
      /\ (forall key,
            JsMap.get key (localStorage final) = JsMap.get key storage)
      /\ (Chat.restored storage <> [] ->
          JsMap.get Chat.chatHistory (localStorage final)
          = Some (Chat.Stringified (Chat.restored storage))))
  /\ (forall run : Run Chat.Req Chat.Live E Chat.Item,
        Chat.messages_changed (ui run) = true ->
        let '(c, final) := Chat.commit run in
        c = Normal tt
        /\ Chat.st (ui final) = Chat.st (ui run)
        /\ Chat.messages_changed (ui final) = false
        /\ (Chat.messages (Chat.st (ui run)) <> [] ->
            JsMap.get Chat.chatHistory (localStorage final)
            = Some (Chat.Stringified (Chat.messages (Chat.st (ui run))))
            /\ log final = log run ++ [StorageSet Chat.chatHistory])
        /\ (Chat.messages (Chat.st (ui run)) = [] ->
            localStorage final = localStorage run
            /\ log final = log run))
  /\ (forall (snap : Chat.State) (run : Run Chat.Req Chat.Live E Chat.Item),
        is_blank (Chat.message snap) = false ->
        Chat.isLoading snap = false ->
        let '(c, final) := Chat.dispatch (Chat.handleSubmit snap) run in
        c = Normal tt
        /\ Chat.messages_changed (ui final) = false
        /\ JsMap.get Chat.chatHistory (localStorage final)
           = Some (Chat.Stringified (Chat.messages (Chat.st (ui final))))
        /\ (forall key, Chat.chatHistory <> key ->
              JsMap.get key (localStorage final)
              = JsMap.get key (localStorage run))
        /\ exists added,
             Chat.messages (Chat.st (ui final))
             = Chat.messages (Chat.st (ui run)) ++ added
             /\ (length added = 1 \/ length added = 2)%nat
             /\ writes_of Chat.chatHistory (log final)
                = writes_of Chat.chatHistory (log run)
                    ++ List.map (fun _ => StorageSet Chat.chatHistory)
                         added)
  /\ (forall run : Run Chat.Req Chat.Live E Chat.Item,
        let '(c, final) := Chat.dispatch Chat.confirmClearHistory run in
        c = Normal tt
        /\ Chat.messages (Chat.st (ui final)) = []
        /\ Chat.messages_changed (ui final) = false
        /\ JsMap.get Chat.chatHistory (localStorage final) = None
        /\ (forall key, Chat.chatHistory <> key ->
              JsMap.get key (localStorage final)
              = JsMap.get key (localStorage run))
        /\ log final = log run ++ [StorageRemove Chat.chatHistory]).
Proof.
  split; [|split; [|split]].
  - intros storage e. unfold Chat.restored.
    cbv beta iota delta
      [Chat.mount Chat.loadEffect Chat.saveEffect Chat.commit
         Chat.parse_messages Chat.setMessages
         bind try_catch throw ret console_error emit getState setState
         localStorage_getItem localStorage_setItem].
    unfold JsMap.get. cbn.
    destruct (assoc Chat.chatHistory storage)
      as [[ms|raw thrown Hraw]|] eqn:Hget; cbn.
    + destruct ms as [|m ms]; cbn.
      * repeat split; try reflexivity; intros; congruence.
      * split; [reflexivity|]. split; [reflexivity|].
        split; [reflexivity|]. split.
        -- intros key. fold (@JsMap.get Chat.Item).
           destruct (list_eq_dec N.eq_dec Chat.chatHistory key)
             as [<-|Hkey].
           ++ rewrite get_set_same. symmetry. exact Hget.
           ++ apply get_set_other. exact Hkey.
        -- intros _. apply get_set_same.
    + destruct raw as [|ch raw]; cbn; repeat split; try reflexivity;
        intros; congruence.
    + repeat split; try reflexivity; intros; congruence.
  - intros run Hchanged.
    cbv beta iota delta
      [Chat.commit Chat.saveEffect bind ret getState setState
         localStorage_setItem].
    rewrite Hchanged. cbn.
    destruct (Chat.messages (Chat.st (ui run))) as [|m ms] eqn:Hms; cbn.
    + repeat split; try reflexivity; intros; congruence.
    + repeat split; try reflexivity; intros; try congruence.
      apply get_set_same.
  - intros snap run Hb Hl.
    pose proof (Chat_submit_saved snap run Hb Hl) as Hsaved.
    pose proof (Chat_submit_writes snap run Hb Hl) as Hwrites.
    destruct (Chat.dispatch (Chat.handleSubmit snap) run) as [c final].
    tauto.
  - intros run.
    cbv beta iota delta
      [Chat.dispatch Chat.confirmClearHistory Chat.commit Chat.saveEffect
         Chat.setMessages Chat.setSources Chat.setError
         Chat.setIsClearDialogOpen Chat.update
         try_finally bind ret getState setState localStorage_removeItem].
    cbn. split; [reflexivity|]. split; [reflexivity|].
    split; [reflexivity|].
    split; [apply get_delete_same|]. split; [|reflexivity].
    intros key Hkey. apply get_delete_other. exact Hkey.
Qed.

(** The witness of C9: a submit with the back end answering 500 changes
    the transcript once and writes it once. *)
Lemma chat_history_persistence_witness :
  is_blank (Chat.message Chat.first_message) = false
  /\ Chat.isLoading Chat.first_message = false
  /\ let '(c, final) :=
       Chat.dispatch (Chat.handleSubmit Chat.first_message)
         (Chat.start Chat.first_message JsMap.empty Chat.server_error) in
     JsMap.get Chat.chatHistory (localStorage final)
     = Some (Chat.Stringified (Chat.messages (Chat.st (ui final)))).
Proof.
  split; [reflexivity|]. split; [reflexivity|].
  pose proof (proj1 (proj2 (proj2 chat_history_persistence))
                Chat.first_message
                (Chat.start Chat.first_message JsMap.empty
                   Chat.server_error)
                eq_refl eq_refl) as W.
  destruct (Chat.dispatch (Chat.handleSubmit Chat.first_message)
              (Chat.start Chat.first_message JsMap.empty
                 Chat.server_error)) as [c final].
  destruct W as (_ & _ & Hget & _). exact Hget.
Defined.

(** After the chat was cleared the key is absent; the empty transcript is
    not written under it. *)
Lemma cleared_key_is_absent :
  let cleared :=
    snd (Chat.confirmClearHistory
           (Chat.start Chat.one_message Chat.one_stored Chat.offline)) in
  let final := snd (Chat.commit cleared) in
  Chat.messages_changed (ui cleared) = true
  /\ Chat.messages (Chat.st (ui cleared)) = []
  /\ writes_of Chat.chatHistory (log final) = []
  /\ JsMap.get Chat.chatHistory (localStorage final) = None.
Proof. cbv zeta. repeat split; reflexivity. Qed.

(** ** The confessions panel *)

Module CF := Confessions.



Lemma listed_incl (f : option bool) (db : CF.Db) (c : CF.Confession) :
  In c (CF.listed f db) -> In c db.
Proof.
  destruct f as [b|]; simpl; [|auto].
  intros Hin. apply filter_In in Hin. tauto.
Qed.

Lemma has_in (db : CF.Db) (c : CF.Confession) :
  In c db -> CF.has (CF.id c) db = true.
Proof.
  intros Hin. unfold CF.has. apply existsb_exists.
  exists c. split; [exact Hin | apply eqb_refl].
Qed.

Lemma without_gone (i : jsstring) (db : CF.Db) :
  ~ In i (List.map CF.id (CF.without i db)).
Proof.
  unfold CF.without. intros Hin. apply in_map_iff in Hin.
  destruct Hin as (c & Hid & Hc). apply filter_In in Hc.
  destruct Hc as [_ Hne]. rewrite Hid, eqb_refl in Hne. discriminate.
Qed.

Lemma without_absent (i : jsstring) (db : CF.Db) :
  ~ In i (List.map CF.id db) -> CF.without i db = db.
Proof.
  unfold CF.without. induction db as [|c db IH]; simpl; [reflexivity|].
  intros Hout. destruct (eqb (CF.id c) i) eqn:Hc; simpl.
  - apply eqb_eq in Hc. tauto.
  - f_equal. apply IH. tauto.
Qed.

Lemma without_length (db : CF.Db) (c : CF.Confession) :
  NoDup (List.map CF.id db) ->
  In c db ->
  S (length (CF.without (CF.id c) db)) = length db.
Proof.
  induction db as [|d db IH]; simpl; [tauto|].
  intros Hnd Hin. inversion Hnd as [|? ? Hd Hnd']; subst.
  destruct (eqb (CF.id d) (CF.id c)) eqn:Hdc; simpl.
  - apply eqb_eq in Hdc. rewrite Hdc in Hd.
    fold (CF.without (CF.id c) db). rewrite without_absent by exact Hd.
    reflexivity.
  - fold (CF.without (CF.id c) db). f_equal. apply IH; [exact Hnd'|].
    destruct Hin as [->|Hin]; [rewrite eqb_refl in Hdc; discriminate | auto].
Qed.

(** The two fetches that follow a successful action are not awaited, and
    their replies may come in either order; the updates they make commute. *)
Lemma refetch_updates_commute (list : list CF.Confession) (numbers : CF.Stats)
    (u : CF.State) :
  CF.with_stats numbers (CF.with_loading false (CF.with_confessions list u))
  = CF.with_loading false (CF.with_confessions list (CF.with_stats numbers u)).
Proof. reflexivity. Qed.

(** C7, as amended.  Let the records of the back end have distinct ids,
    and let a confession of the list that the back end holds be deleted
    through its dialog.  When the delete request and the two requests that
    fetch the list and the statistics again have been answered, the
    confession is no longer in the list, the list and the statistics are
    those of the back end without it, and the total shown is one less than
    the count the back end had.  It is one less than the total shown
    before exactly when that total was the count of the back end. *)
Theorem delete_then_refetch (db : CF.Db) (snap : CF.State)
    (c : CF.Confession) :
  NoDup (List.map CF.id db) ->
  In c (CF.confessions snap) ->
  In c db ->
  let opened :=
    snd (CF.openDeleteDialog c
           {| ui := snap; env := db; localStorage := JsMap.empty;
              log := [] |}) in
  let '(r, final) := CF.handleDelete (ui opened) opened in
  r = Normal tt
  /\ ~ In (CF.id c) (List.map CF.id (CF.confessions (ui final)))
  /\ CF.total (CF.stats (ui final))
     = (CF.total (CF.summary db) - 1)%Z
  /\ (CF.total (CF.stats (ui final)) = (CF.total (CF.stats snap) - 1)%Z
      <-> CF.total (CF.stats snap) = CF.total (CF.summary db))
  /\ requested (log final)
     = [ CF.DELETE_confession (CF.id c);
         CF.GET_confessions (CF.is_replied_of snap);
         CF.GET_stats_summary ]
  /\ env final = CF.without (CF.id c) db
  /\ CF.in_sync (env final) (ui final)
  /\ CF.isDeleteDialogOpen (ui final) = false.
Proof.
  intros Hnd Hin Hdb.
  cbv zeta.
  cbv beta iota delta
    [CF.openDeleteDialog CF.handleDelete CF.fetchConfessions CF.fetchStats
       bind try_finally try_catch fetch throw ret lift toast emit
       console_error CF.check_ok
       CF.setActionLoading CF.setSelectedConfession CF.setIsDeleteDialogOpen
       CF.setLoading CF.setConfessions CF.setStats setState].
  cbn [snd ui env localStorage log CF.selectedConfession
         CF.with_selectedConfession CF.with_isDeleteDialogOpen
         serve CF.service CF.service_reply].
  rewrite (has_in db c Hdb).
  unfold CF.answer, ok. cbn.
  assert (Htotal : Z.of_nat (length (CF.without (CF.id c) db))
                   = (Z.of_nat (length db) - 1)%Z).
  { rewrite <- (without_length db c Hnd Hdb). lia. }
  split; [reflexivity|].
  split.
  { intros Hgone. apply (without_gone (CF.id c) db).
    apply in_map_iff in Hgone. destruct Hgone as (d & Hid & Hd).
    apply in_map_iff. exists d. split; [exact Hid|].
    eapply listed_incl; eauto. }
  split; [exact Htotal|].
  split; [rewrite Htotal; lia|].
  split; [reflexivity|]. split; [reflexivity|].
  split; [|reflexivity].
  split; reflexivity.
Qed.

(** The witness of C7: the first of two confessions is deleted. *)
Lemma delete_then_refetch_witness :
  NoDup (List.map CF.id CF.two_confessions)
  /\ In CF.first_confession (CF.confessions (ui CF.mounted))
  /\ In CF.first_confession CF.two_confessions
  /\ let opened :=
       snd (CF.openDeleteDialog CF.first_confession
              {| ui := ui CF.mounted; env := CF.two_confessions;
                 localStorage := JsMap.empty; log := [] |}) in
     let '(r, final) := CF.handleDelete (ui opened) opened in
     ~ In (CF.id CF.first_confession)
         (List.map CF.id (CF.confessions (ui final)))
     /\ CF.total (CF.stats (ui final))
        = (CF.total (CF.summary CF.two_confessions) - 1)%Z.
Proof.
  assert (Hnd : NoDup (List.map CF.id CF.two_confessions)).
  { repeat constructor; simpl; intuition discriminate. }
  assert (Hin : In CF.first_confession (CF.confessions (ui CF.mounted))).
  { left. reflexivity. }
  assert (Hdb : In CF.first_confession CF.two_confessions).
  { left. reflexivity. }
  split; [exact Hnd|]. split; [exact Hin|]. split; [exact Hdb|].
  pose proof (@delete_then_refetch CF.two_confessions (ui CF.mounted)
                CF.first_confession Hnd Hin Hdb) as W.
  cbv zeta in W |- *.
  destruct (CF.handleDelete _ _) as [r final].
  destruct W as (_ & Hgone & Htotal & _).
  split; [exact Hgone | exact Htotal].
Defined.

(** C7 as stated fails: the summary request of the mount is answered 500,
    so the panel shows the two confessions with a total of 0; the first is
    then deleted, the delete and the two fetches are answered, and the
    total shown is 1. *)
Lemma delete_then_refetch_counterexample :
  let opened :=
    snd (CF.openDeleteDialog CF.first_confession CF.mounted_without_stats) in
  let final := snd (CF.handleDelete (ui opened) opened) in
  CF.confessions (ui CF.mounted_without_stats)
  = [CF.first_confession; CF.second_confession]
  /\ CF.total (CF.stats (ui CF.mounted_without_stats)) = 0%Z
  /\ requested (log final)
     = requested (log CF.mounted_without_stats)
         ++ [ CF.DELETE_confession (str "c1");
              CF.GET_confessions None;
              CF.GET_stats_summary ]
  /\ CF.confessions (ui final) = [CF.second_confession]
  /\ CF.total (CF.stats (ui final)) = 1%Z
  /\ CF.total (CF.stats (ui final))
     <> (CF.total (CF.stats (ui CF.mounted_without_stats)) - 1)%Z.
Proof. cbv zeta. repeat split; try reflexivity. vm_compute. discriminate. Qed.

(* ================================================================== *)
(** * Further properties of the code *)
(* ================================================================== *)

(** ** Trimming *)

Lemma trimStart_split (s : jsstring) :
  exists blanks, s = blanks ++ trimStart s /\ is_blank blanks = true.
Proof.
  induction s as [|c s IH]; simpl.
  - exists []. split; reflexivity.
  - destruct (is_white_space c) eqn:Hc.
    + destruct IH as (blanks & Hs & Hb). exists (c :: blanks). split.
      * simpl. f_equal. exact Hs.
      * unfold is_blank in *. simpl. rewrite Hc. exact Hb.
    + exists []. split; reflexivity.
Qed.

Lemma trimStart_fixed (s : jsstring) :
  match s with [] => True | c :: _ => is_white_space c = false end ->
  trimStart s = s.
Proof. destruct s as [|c s]; simpl; [reflexivity|]. intros ->. reflexivity. Qed.

Lemma trimStart_no_lead (s : jsstring) :
  match trimStart s with
  | [] => True
  | c :: _ => is_white_space c = false
  end.
Proof.
  destruct (trimStart s) as [|c rest] eqn:Hs; [exact I|].
  eapply trimStart_head; eauto.
Qed.

(** What [trim] returns has no white space at either end, so trimming it
    again changes nothing. *)
Lemma trim_idempotent (s : jsstring) : trim (trim s) = trim s.
Proof.
  unfold trim at 1. unfold trimEnd at 1.
  assert (Hlead : trimStart (trim s) = trim s).
  { apply trimStart_fixed. unfold trim, trimEnd.
    destruct (trimStart_split (rev (trimStart s))) as (blanks & Hsplit & _).
    assert (Hu : trimStart s
                 = rev (trimStart (rev (trimStart s))) ++ rev blanks).
    { rewrite <- rev_app_distr, <- Hsplit, rev_involutive. reflexivity. }
    destruct (rev (trimStart (rev (trimStart s)))) as [|c rest] eqn:Hr;
      [exact I|].
    pose proof (trimStart_no_lead s) as Hno. rewrite Hu in Hno.
    exact Hno. }
  rewrite Hlead. unfold trim at 1, trimEnd. rewrite rev_involutive.
  rewrite (trimStart_fixed (trimStart (rev (trimStart s)))).
  - reflexivity.
  - apply trimStart_no_lead.
Qed.

Lemma trim_not_blank (s : jsstring) :
  is_blank s = false -> is_blank (trim s) = false.
Proof.
  intros Hs. destruct (is_blank (trim s)) eqn:Ht; [|reflexivity].
  apply trim_falsy in Ht. rewrite trim_idempotent in Ht.
  apply trim_falsy in Ht. congruence.
Qed.

Lemma not_blank_guard (text : jsstring) :
  is_blank text = false -> falsy (trim text) = false.
Proof.
  intros Hb. destruct (falsy (trim text)) eqn:Hf; [|reflexivity].
  apply trim_falsy in Hf. congruence.
Qed.

Lemma blank_guard (text : jsstring) :
  is_blank text = true -> falsy (trim text) = true.
Proof. apply trim_falsy. Qed.

(** ** The retrieval test harness, continued *)

Section TestRetrievalMore.
Context {E : Type} `{Platform TR.Req TR.Payload E}.

(** X1.  A quick test with an empty or blank query asks for one and does
    nothing else. *)
Theorem handleRunSingle_blank (snap : TR.State)
    (run : Run TR.Req TR.State E unit) :
  is_blank (TR.singleQuery snap) = true ->
  TR.handleRunSingle snap run
  = (Normal tt,
     {| ui := ui run; env := env run; localStorage := localStorage run;
        log := log run
               ++ [Toast toast_error (str "Please enter a query")] |}).
Proof.
  intros Hb. unfold TR.handleRunSingle. rewrite (blank_guard _ Hb).
  reflexivity.
Qed.

(** X2.  A quick test with a query that is not blank never throws.  It
    leaves the result of the query, as typed and not trimmed, in
    [singleResult], resets [isRunningSingle], and leaves the scenarios, the
    results map and the progress alone.  It sends one request, none when
    the query cannot be encoded, and shows one toast: a success toast when
    the result has status success and an error toast otherwise. *)
Theorem handleRunSingle_runs (snap : TR.State)
    (run : Run TR.Req TR.State E unit) :
  is_blank (TR.singleQuery snap) = false ->
  let '(c, final) := TR.handleRunSingle snap run in
  c = Normal tt
  /\ (exists result msg,
        TR.singleResult (ui final) = Some result
        /\ TR.query result = TR.singleQuery snap
        /\ List.filter is_toast (log final)
           = List.filter is_toast (log run)
             ++ [ Toast (if TR.Status_eqb (TR.status result) TR.success
                         then toast_success else toast_error) msg ])
  /\ TR.isRunningSingle (ui final) = false
  /\ TR.scenarios (ui final) = TR.scenarios (ui run)
  /\ TR.st_results (ui final) = TR.st_results (ui run)
  /\ TR.progress (ui final) = TR.progress (ui run)
  /\ requested (log final)
     = requested (log run)
       ++ (if isWellFormed (TR.singleQuery snap)
           then [TR.GET_test_retrieval (TR.singleQuery snap)]
           else []).
Proof.
  intros Hb. unfold TR.handleRunSingle. rewrite (not_blank_guard _ Hb).
  cbv beta iota delta
    [bind try_catch TR.setIsRunningSingle TR.setSingleResult setState].
  match goal with
  | |- context [TR.runSingleTest ?q ?r0] =>
      destruct (runSingleTest_cases q r0) as (res & e' & Hrun & Hq & _ & _)
  end.
  rewrite Hrun. cbn [ui env localStorage log].
  assert (Hreq : requested (log run ++ TR.attempt_events (TR.singleQuery snap))
                 = requested (log run)
                   ++ (if isWellFormed (TR.singleQuery snap)
                       then [TR.GET_test_retrieval (TR.singleQuery snap)]
                       else [])).
  { unfold requested, TR.attempt_events. rewrite flat_map_app.
    destruct (isWellFormed (TR.singleQuery snap)); reflexivity. }
  assert (Htoast : List.filter is_toast
                     (log run ++ TR.attempt_events (TR.singleQuery snap))
                   = List.filter is_toast (log run)).
  { unfold TR.attempt_events. rewrite filter_app.
    destruct (isWellFormed (TR.singleQuery snap)); simpl;
      rewrite app_nil_r; reflexivity. }
  destruct (TR.Status_eqb (TR.status res) TR.success) eqn:Hst;
    cbv beta iota delta [toast emit]; cbn [ui env localStorage log];
    (split; [reflexivity|]);
    (split;
     [ eexists res, _; split; [reflexivity|]; split; [exact Hq|];
       rewrite Hst, filter_app, Htoast; reflexivity |]);
    (split; [reflexivity|]); (split; [reflexivity|]);
    (split; [reflexivity|]); (split; [reflexivity|]);
    unfold requested in *; rewrite flat_map_app, Hreq; cbn;
    rewrite app_nil_r; reflexivity.
Qed.

(** X3.  Adding a scenario with a blank query only shows an error toast.
    Otherwise one scenario is appended to the list of the render: its query
    is the trimmed input, which is not blank and has no white space at
    either end, and its id is the reading of the clock; the input is
    cleared, the results map is not touched and nothing is requested. *)
Theorem handleAddScenario_appends (snap : TR.State)
    (run : Run TR.Req TR.State E unit) :
  let '(c, final) := TR.handleAddScenario snap run in
  c = Normal tt
  /\ requested (log final) = requested (log run)
  /\ TR.st_results (ui final) = TR.st_results (ui run)
  /\ (is_blank (TR.newQuery snap) = true ->
      ui final = ui run
      /\ log final
         = log run ++ [Toast toast_error (str "Please enter a query")])
  /\ (is_blank (TR.newQuery snap) = false ->
      exists added,
        TR.scenarios (ui final) = TR.scenarios snap ++ [added]
        /\ TR.scenario_query added = trim (TR.newQuery snap)
        /\ trim (TR.scenario_query added) = TR.scenario_query added
        /\ is_blank (TR.scenario_query added) = false
        /\ TR.id added = Number_toString (fst (clock (env run)))
        /\ TR.newQuery (ui final) = []).
Proof.
  unfold TR.handleAddScenario.
  destruct (is_blank (TR.newQuery snap)) eqn:Hb.
  - rewrite (blank_guard _ Hb). cbv beta iota delta [toast emit].
    cbn [ui env localStorage log].
    split; [reflexivity|]. split.
    { unfold requested. rewrite flat_map_app. cbn. apply app_nil_r. }
    split; [reflexivity|]. split; [auto | discriminate].
  - rewrite (not_blank_guard _ Hb).
    cbv beta iota delta
      [bind Date_now TR.setScenarios TR.setNewQuery setState toast emit].
    destruct (clock (env run)) as [now e']. cbn [ui env localStorage log fst].
    split; [reflexivity|]. split.
    { unfold requested. rewrite flat_map_app. cbn. apply app_nil_r. }
    split; [reflexivity|]. split; [discriminate|].
    intros _. eexists. split; [reflexivity|]. cbn [TR.scenario_query TR.id].
    split; [reflexivity|]. split; [apply trim_idempotent|].
    split; [apply trim_not_blank, Hb|]. split; reflexivity.
Qed.

End TestRetrievalMore.

(** The witness of X1. *)
Lemma handleRunSingle_blank_witness :
  is_blank (TR.singleQuery (TR.quick (str "  "))) = true
  /\ requested
       (log (snd (TR.handleRunSingle (TR.quick (str "  "))
                    (TR.start (TR.quick (str "  ")) TR.answered))))
     = [].
Proof.
  split; [reflexivity|].
  rewrite (handleRunSingle_blank (TR.quick (str "  "))
             (TR.start (TR.quick (str "  ")) TR.answered) eq_refl).
  reflexivity.
Defined.

(** The witness of X2: a query with a blank in front is answered. *)
Lemma handleRunSingle_runs_witness :
  is_blank (TR.singleQuery (TR.quick (str " who"))) = false
  /\ TR.isRunningSingle
       (ui (snd (TR.handleRunSingle (TR.quick (str " who"))
                   (TR.start (TR.quick (str " who")) TR.answered))))
     = false.
Proof.
  split; [reflexivity|].
  pose proof (handleRunSingle_runs (TR.quick (str " who"))
                (TR.start (TR.quick (str " who")) TR.answered) eq_refl) as W.
  destruct (TR.handleRunSingle _ _) as [c final].
  destruct W as (_ & _ & Hdone & _). exact Hdone.
Defined.

Lemma in_keys_delete {V} (i k : jsstring) (m : JsMap.t V) :
  In k (JsMap.keys (JsMap.delete i m)) <-> In k (JsMap.keys m) /\ k <> i.
Proof.
  induction m as [|[k' v'] m IH]; simpl; [tauto|].
  destruct (eqb k' i) eqn:Hk; simpl.
  - apply eqb_eq in Hk. subst k'. rewrite IH.
    split; [tauto | intros [[->|Hin] Hne]; [congruence | tauto]].
  - apply eqb_neq in Hk. rewrite IH.
    split; [intros [->|[Hin Hne]]; tauto | tauto].
Qed.

Section TestRetrievalLists.
Context {E : Type} `{Platform TR.Req TR.Payload E}.

(** X4.  Removing a scenario removes every scenario with that id and the
    entry of that id in the results map; the other scenarios stay, in
    their order, and so do the other entries. *)
Theorem handleRemoveScenario_removes (snap : TR.State) (i : jsstring)
    (run : Run TR.Req TR.State E unit) :
  let '(c, final) := TR.handleRemoveScenario snap i run in
  c = Normal tt
  /\ log final = log run
  /\ ~ In i (List.map TR.id (TR.scenarios (ui final)))
  /\ JsMap.get i (TR.st_results (ui final)) = None
  /\ TR.scenarios (ui final)
     = List.filter (fun s => negb (eqb (TR.id s) i)) (TR.scenarios snap)
  /\ (forall s, In s (TR.scenarios snap) -> TR.id s <> i ->
        In s (TR.scenarios (ui final)))
  /\ (forall k, i <> k ->
        JsMap.get k (TR.st_results (ui final))
        = JsMap.get k (TR.st_results snap)).
Proof.
  cbv beta iota delta
    [TR.handleRemoveScenario bind TR.setScenarios TR.setResults setState].
  cbn [ui env localStorage log TR.scenarios TR.st_results
         TR.with_scenarios TR.with_results].
  split; [reflexivity|]. split; [reflexivity|]. split.
  { intros Hin. apply in_map_iff in Hin. destruct Hin as (s & Hid & Hs).
    apply filter_In in Hs. destruct Hs as [_ Hne].
    rewrite Hid, eqb_refl in Hne. discriminate. }
  split; [apply get_delete_same|]. split; [reflexivity|]. split.
  { intros s Hs Hne. apply filter_In. split; [exact Hs|].
    apply negb_true_iff, eqb_neq, Hne. }
  intros k Hk. unfold JsMap.copy. apply get_delete_other. exact Hk.
Qed.

Lemma scenarios_after_loop (n i count : nat) (m : JsMap.t TR.TestResult)
    (u : TR.State) :
  TR.scenarios (TR.after_loop n i count m u) = TR.scenarios u.
Proof. destruct count; reflexivity. Qed.

(** X5.  Each of the three handlers that write the scenarios or the
    results, adding a scenario, removing one and running all, when it runs
    to its end from the render that shows the current state, keeps every
    entry of the results map with a scenario of the list.  The component
    as a whole does not keep it: run all is suspended at every call, the
    remove buttons stay enabled, and a scenario removed meanwhile leaves
    the list while the run still stores results under its id. *)
Theorem results_stay_linked (snap : TR.State)
    (run : Run TR.Req TR.State E unit) :
  ui run = snap ->
  TR.linked snap ->
  TR.linked (ui (snd (TR.handleAddScenario snap run)))
  /\ (forall i, TR.linked (ui (snd (TR.handleRemoveScenario snap i run))))
  /\ TR.linked (ui (snd (TR.handleRunAll snap run)))
  /\ (forall k i,
        (k < length (TR.scenarios snap))%nat ->
        In i (List.map TR.id (TR.scenarios snap)) ->
        let final := snd (TR.handleRunAll_interrupted snap k i run) in
        In i (JsMap.keys (TR.st_results (ui final)))
        /\ ~ In i (List.map TR.id (TR.scenarios (ui final)))
        /\ ~ TR.linked (ui final)).
Proof.
  intros Hui Hlinked. split; [|split; [|split]].
  - pose proof (handleAddScenario_appends snap run) as Hadd.
    destruct (TR.handleAddScenario snap run) as [c final]. cbn [snd].
    destruct Hadd as (_ & _ & Hres & Hblank & Hadded).
    unfold TR.linked. rewrite Hres, Hui.
    destruct (is_blank (TR.newQuery snap)) eqn:Hb.
    + destruct (Hblank eq_refl) as [Hsame _]. rewrite Hsame, Hui.
      exact Hlinked.
    + destruct (Hadded eq_refl) as (added & Hsc & _). rewrite Hsc.
      intros k Hk. rewrite map_app. apply in_or_app. left.
      apply Hlinked, Hk.
  - intros i.
    cbv beta iota delta
      [TR.handleRemoveScenario bind TR.setScenarios TR.setResults setState].
    cbn [snd ui TR.scenarios TR.st_results TR.with_scenarios TR.with_results].
    intros k Hk. unfold JsMap.copy in Hk. apply in_keys_delete in Hk.
    destruct Hk as [Hk Hne]. apply Hlinked in Hk.
    apply in_map_iff in Hk. destruct Hk as (s & Hid & Hs).
    apply in_map_iff. exists s. split; [exact Hid|].
    apply filter_In. split; [exact Hs|].
    apply negb_true_iff, eqb_neq. congruence.
  - destruct (handleRunAll_spec snap run) as (rs & e' & Hrun & Hall).
    cbv zeta in Hrun. rewrite Hrun. cbn [snd ui].
    assert (Hlen : length (List.map TR.id (TR.scenarios snap)) = length rs).
    { rewrite length_map. eapply Forall2_length; eauto. }
    rewrite Hui.
    destruct (TR.scenarios snap) as [|s0 l] eqn:Hsc.
    + unfold TR.linked in *. cbn. rewrite ?Hsc. intros k Hk.
      specialize (Hlinked k Hk). rewrite ?Hsc in Hlinked. exact Hlinked.
    + intros k Hk. cbn in Hk |- *. rewrite Hsc.
      change (In k (JsMap.keys
                      (TR.store (List.map TR.id (s0 :: l)) rs JsMap.empty)))
        in Hk.
      apply in_keys_store in Hk; [|exact Hlen].
      destruct Hk as [[]|Hk]. exact Hk.
  - intros k i Hk Hin. cbv zeta.
    assert (Hids : In i (List.map TR.id (firstn k (TR.scenarios snap)))
                   \/ In i (List.map TR.id (skipn k (TR.scenarios snap)))).
    { rewrite <- (firstn_skipn k (TR.scenarios snap)), map_app in Hin.
      apply in_app_or in Hin. exact Hin. }
    assert (Hrest : skipn k (TR.scenarios snap) <> []).
    { intros Hnil. apply (f_equal (@length _)) in Hnil.
      rewrite length_skipn in Hnil. simpl in Hnil. lia. }
    cbv beta iota delta
      [TR.handleRunAll_interrupted TR.handleRemoveScenario bind
         TR.setIsRunningAll TR.setProgress TR.setScenarios TR.setResults
         setState getState toast emit].
    cbn [ui env localStorage log].
    match goal with
    | |- context [TR.run_from ?n 0 ?l ?m0 ?run0] =>
        destruct (run_from_spec n l 0 m0 run0) as (rs1 & e1 & Hloop1 & Hall1)
    end.
    rewrite Hloop1. cbn [ui env localStorage log].
    destruct (skipn k (TR.scenarios snap)) as [|s2 l2] eqn:Hskip;
      [congruence|].
    match goal with
    | |- context [TR.run_from ?n k (s2 :: l2) ?m1 ?run1] =>
        destruct (run_from_spec n (s2 :: l2) k m1 run1)
          as (rs2 & e2 & Hloop2 & Hall2)
    end.
    rewrite Hloop2.
    cbn [snd ui env localStorage log length TR.after_loop TR.st_results
           TR.scenarios TR.with_isRunningAll TR.with_progress
           TR.with_results TR.with_scenarios].
    rewrite scenarios_after_loop.
    cbn [TR.scenarios TR.with_progress TR.with_isRunningAll].
    assert (Hkey : In i (JsMap.keys
                           (TR.store (List.map TR.id (s2 :: l2)) rs2
                              (TR.store
                                 (List.map TR.id
                                    (firstn k (TR.scenarios snap)))
                                 rs1 JsMap.empty)))).
    { apply in_keys_store.
      - rewrite length_map. eapply Forall2_length; eauto.
      - destruct Hids as [Hpre|Hpost]; [left | right; exact Hpost].
        apply in_keys_store; [|right; exact Hpre].
        rewrite length_map. eapply Forall2_length; eauto. }
    assert (Hgone : ~ In i (List.map TR.id
                              (List.filter
                                 (fun s => negb (eqb (TR.id s) i))
                                 (TR.scenarios (ui run))))).
    { intros Hsc. apply in_map_iff in Hsc.
      destruct Hsc as (s & Hid & Hs). apply filter_In in Hs.
      destruct Hs as [_ Hne]. rewrite Hid, eqb_refl in Hne.
      discriminate. }
    split; [exact Hkey|]. split; [exact Hgone|].
    intros Hl. apply Hgone. apply (Hl i). exact Hkey.
Qed.

End TestRetrievalLists.

(** The witness of X5: the seeded state, in which no result is held; and
    the third scenario removed while the run is suspended in the second
    call. *)
Lemma results_stay_linked_witness :
  ui (TR.start TR.initial TR.first_succeeds) = TR.initial
  /\ TR.linked TR.initial
  /\ TR.linked
       (ui (snd (TR.handleRunAll TR.initial
                   (TR.start TR.initial TR.first_succeeds))))
  /\ ~ TR.linked
         (ui (snd (TR.handleRunAll_interrupted TR.initial 1 (str "3")
                     (TR.start TR.initial TR.first_succeeds)))).
Proof.
  assert (Hlinked : TR.linked TR.initial) by (intros k []).
  split; [reflexivity|]. split; [exact Hlinked|].
  pose proof (@results_stay_linked TR.Script TR.scripted TR.initial
                (TR.start TR.initial TR.first_succeeds) eq_refl Hlinked)
    as (_ & _ & Hall & Hcut).
  split; [exact Hall|].
  refine (proj2 (proj2 (Hcut 1%nat (str "3") _ _))).
  - vm_compute. lia.
  - right. right. left. reflexivity.
Defined.

(** *** The counts and the averages *)

Lemma filter_disjoint_length {A} (p q : A -> bool) (l : list A) :
  (forall x, In x l -> p x = true -> q x = false) ->
  (length (List.filter p l) + length (List.filter q l) <= length l)%nat.
Proof.
  induction l as [|x l IH]; intros Hpq; simpl; [lia|].
  assert (IH' := IH (fun y Hy => Hpq y (or_intror Hy))).
  destruct (p x) eqn:Hp.
  - rewrite (Hpq x (or_introl eq_refl) Hp). simpl. lia.
  - destruct (q x); simpl; lia.
Qed.

Lemma filter_cover_length {A} (p q : A -> bool) (l : list A) :
  (forall x, In x l -> p x = true -> q x = false) ->
  (forall x, In x l -> p x || q x = true) ->
  (length (List.filter p l) + length (List.filter q l) = length l)%nat.
Proof.
  induction l as [|x l IH]; intros Hpq Hcov; simpl; [lia|].
  assert (IH' := IH (fun y Hy => Hpq y (or_intror Hy))
                    (fun y Hy => Hcov y (or_intror Hy))).
  pose proof (Hcov x (or_introl eq_refl)) as Hx.
  destruct (p x) eqn:Hp.
  - rewrite (Hpq x (or_introl eq_refl) Hp). simpl. lia.
  - simpl in Hx. rewrite Hx. simpl. lia.
Qed.

(** X6.  No result is counted both as successful and as failed, so the
    two counts never exceed the total; and they add up to the total when
    no completed result has a negative result count. *)
Theorem counts_add_up (results : JsMap.t TR.TestResult) :
  (length (TR.successfulTests results) + length (TR.failedTests results)
   <= length (TR.completedTests results))%nat
  /\ ((forall r, In r (TR.completedTests results) ->
         (0 <= TR.results_count r)%Z) ->
      (length (TR.successfulTests results)
       + length (TR.failedTests results)
       = length (TR.completedTests results))%nat).
Proof.
  unfold TR.successfulTests, TR.failedTests.
  assert (Hdisj : forall r : TR.TestResult,
            TR.Status_eqb (TR.status r) TR.success
            && (0 <? TR.results_count r)%Z = true ->
            TR.Status_eqb (TR.status r) TR.error
            || (TR.results_count r =? 0)%Z = false).
  { intros r Hr. apply andb_true_iff in Hr. destruct Hr as [Hs Hc].
    apply Z.ltb_lt in Hc.
    destruct (TR.status r); try discriminate. simpl.
    apply Z.eqb_neq. lia. }
  split.
  - apply filter_disjoint_length. intros r _. apply Hdisj.
  - intros Hcount. apply filter_cover_length.
    + intros r _. apply Hdisj.
    + intros r Hr. pose proof (Hcount r Hr) as Hnn.
      unfold TR.completedTests in Hr. apply filter_In in Hr.
      destruct Hr as [_ Hp].
      destruct (TR.status r); simpl in *; try discriminate; auto.
      destruct (Z.ltb_spec 0 (TR.results_count r)); simpl; auto.
      apply Z.eqb_eq. lia.
Qed.

Lemma sum_over_bounds (f : TR.TestResult -> Q) (lo hi : Q)
    (l : list TR.TestResult) :
  (forall r, In r l -> lo <= f r /\ f r <= hi) ->
  lo * TR.num (length l) <= TR.sum_over f l
  /\ TR.sum_over f l <= hi * TR.num (length l).
Proof.
  induction l as [|r l IH]; intros Hb.
  - unfold TR.num. simpl. split; ring_simplify; apply Qle_refl.
  - destruct (IH (fun x Hx => Hb x (or_intror Hx))) as [IHlo IHhi].
    destruct (Hb r (or_introl eq_refl)) as [Hlo Hhi].
    assert (Hn : TR.num (length (r :: l)) == 1 + TR.num (length l)).
    { unfold TR.num. simpl length. rewrite Nat2Z.inj_succ.
      unfold Z.succ. rewrite inject_Z_plus. simpl. ring. }
    simpl TR.sum_over. rewrite Hn. split.
    + setoid_replace (lo * (1 + TR.num (length l)))
        with (lo + lo * TR.num (length l)) by ring.
      apply Qplus_le_compat; assumption.
    + setoid_replace (hi * (1 + TR.num (length l)))
        with (hi + hi * TR.num (length l)) by ring.
      apply Qplus_le_compat; assumption.
Qed.

Lemma quotient_bounds (f : TR.TestResult -> Q) (lo hi : Q)
    (l : list TR.TestResult) :
  l <> [] ->
  (forall r, In r l -> lo <= f r /\ f r <= hi) ->
  lo <= fold_left (fun sum r => sum + f r) l 0 / TR.num (length l)
  /\ fold_left (fun sum r => sum + f r) l 0 / TR.num (length l) <= hi.
Proof.
  intros Hne Hb.
  assert (Hpos : 0 < TR.num (length l)).
  { destruct l; [congruence|]. unfold TR.num, Qlt. simpl. lia. }
  destruct (@sum_over_bounds f lo hi l Hb) as [Hlo Hhi].
  rewrite fold_left_sum, Qplus_0_l. split.
  - apply Qle_shift_div_l; assumption.
  - apply Qle_shift_div_r; assumption.
Qed.

Lemma sum_over_nonneg (f : TR.TestResult -> Q) (l : list TR.TestResult) :
  (forall r, In r l -> 0 <= f r) -> 0 <= TR.sum_over f l.
Proof.
  induction l as [|r l IH]; intros Hpos; simpl.
  - apply Qle_refl.
  - apply (Qle_trans _ (0 + 0)); [unfold Qle; simpl; lia|].
    apply Qplus_le_compat; [apply Hpos; left; reflexivity|].
    apply IH. intros x Hx. apply Hpos. right. exact Hx.
Qed.

(** X7.  The averages stay in range: the average duration is not negative
    when no duration of a completed result is, and the average top score
    is between 0 and 1 when every score is.  The bounds are 0 and 1, which
    the rounding of a sum or of a quotient to the nearest representable
    number does not cross. *)
Theorem averages_within_bounds (results : JsMap.t TR.TestResult) :
  ((forall r, In r (TR.completedTests results) ->
      0 <= TR.duration_seconds r) ->
   0 <= TR.avgDuration results)
  /\ ((forall r hit, In r (JsMap.values results) -> In hit (TR.results r) ->
         0 <= TR.score hit /\ TR.score hit <= 1) ->
      0 <= TR.avgScore results /\ TR.avgScore results <= 1).
Proof.
  split.
  - intros Hpos. unfold TR.avgDuration.
    destruct (TR.completedTests results) as [|r l] eqn:Hc;
      [apply Qle_refl|].
    replace (0 <? length (r :: l))%nat with true by reflexivity.
    rewrite fold_left_sum, Qplus_0_l.
    apply Qle_shift_div_l; [unfold TR.num, Qlt; simpl; lia|].
    rewrite Qmult_0_l. apply sum_over_nonneg. exact Hpos.
  - intros Hscores. unfold TR.avgScore.
    destruct (TR.successfulTests results) as [|r l] eqn:Hs.
    + simpl. split; [apply Qle_refl | unfold Qle; simpl; lia].
    + replace (0 <? length (r :: l))%nat with true by reflexivity.
      apply quotient_bounds; [discriminate|].
      intros x Hx.
      assert (Hin : In x (JsMap.values results)).
      { rewrite <- Hs in Hx. unfold TR.successfulTests, TR.completedTests in Hx.
        apply filter_In in Hx. destruct Hx as [Hx _].
        apply filter_In in Hx. tauto. }
      unfold TR.top_score, or_number.
      destruct (TR.results x) as [|first rest] eqn:Hhits.
      * split; [apply Qle_refl | unfold Qle; simpl; lia].
      * destruct (Hscores x first Hin) as [H0 H1];
          [rewrite Hhits; left; reflexivity|].
        destruct (Qeq_bool (TR.score first) 0); [|tauto].
        split; [apply Qle_refl | unfold Qle; simpl; lia].
Qed.

(** The witness of X6 and of X7: five results, one of them successful. *)
Lemma counts_add_up_witness :
  (forall r, In r (TR.completedTests TR.one_of_five) ->
     (0 <= TR.results_count r)%Z)
  /\ (length (TR.successfulTests TR.one_of_five)
      + length (TR.failedTests TR.one_of_five)
      = length (TR.completedTests TR.one_of_five))%nat.
Proof.
  assert (Hcount : forall r, In r (TR.completedTests TR.one_of_five) ->
                     (0 <= TR.results_count r)%Z).
  { intros r Hr. vm_compute in Hr.
    repeat (destruct Hr as [<-|Hr]; [vm_compute; discriminate|]).
    destruct Hr. }
  split; [exact Hcount|].
  apply (proj2 (counts_add_up TR.one_of_five) Hcount).
Defined.

Lemma averages_within_bounds_witness :
  (forall r, In r (TR.completedTests TR.one_of_five) ->
     0 <= TR.duration_seconds r)
  /\ 0 <= TR.avgDuration TR.one_of_five.
Proof.
  assert (Hb : forall r, In r (TR.completedTests TR.one_of_five) ->
                 0 <= TR.duration_seconds r).
  { intros r Hr. vm_compute in Hr.
    repeat (destruct Hr as [<-|Hr]; [vm_compute; discriminate|]).
    destruct Hr. }
  split; [exact Hb|].
  apply (proj1 (averages_within_bounds TR.one_of_five) Hb).
Defined.

Section TestRetrievalSuccess.
Context {E : Type} `{Platform TR.Req TR.Payload E}.

(** X8.  When the query can be encoded and its request is answered with a
    2xx status and a body that parses, [runSingleTest] returns a result
    with status success and no error message that carries the count, the
    hits, the configuration and the duration of the body: the duration the
    server reports, not one the client measures. *)
Theorem runSingleTest_success (q : jsstring)
    (run : Run TR.Req TR.State E unit)
    (response : Response TR.RetrievalData) (data : TR.RetrievalData) :
  isWellFormed q = true ->
  fst (serve (TR.GET_test_retrieval q) (snd (clock (env run))))
  = Resolves response ->
  ok response = true ->
  json response = Normal data ->
  exists result after,
    TR.runSingleTest q run = (Normal result, after)
    /\ TR.query result = q
    /\ TR.status result = TR.success
    /\ TR.error_message result = None
    /\ TR.results_count result = TR.data_results_count data
    /\ TR.results result = TR.data_results data
    /\ TR.duration_seconds result = TR.data_duration_seconds data
    /\ TR.config result = TR.data_config data
    /\ ui after = ui run
    /\ requested (log after)
       = requested (log run) ++ [TR.GET_test_retrieval q].
Proof.
  intros Hwf Hserve Hok Hjson.
  unfold TR.runSingleTest, TR.encodeURIComponent.
  unfold bind, try_catch, Date_now, fetch, throw, ret, lift.
  destruct run as [u e st lg]; simpl in *.
  destruct (clock e) as [t0 e1]; simpl in *.
  rewrite Hwf; simpl.
  destruct (serve (TR.GET_test_retrieval q) e1) as [o e2]; simpl in *.
  subst o. simpl. unfold TR.Payload in *. rewrite Hok; simpl.
  rewrite Hjson; simpl.
  destruct (clock e2) as [t1 e3]; simpl.
  eexists _, _. split; [reflexivity|]. simpl.
  repeat (split; [reflexivity|]).
  unfold requested. rewrite flat_map_app. reflexivity.
Qed.

End TestRetrievalSuccess.

(** The witness of X8: the first default query is answered with one hit. *)
Lemma runSingleTest_success_witness :
  let run := TR.start TR.initial TR.answered in
  let q := str "siapa Arifian?" in
  isWellFormed q = true
  /\ fst (serve (TR.GET_test_retrieval q) (snd (clock (env run))))
     = Resolves (mkResponse 200 (Normal TR.one_hit))
  /\ ok (mkResponse 200 (Normal TR.one_hit)) = true
  /\ exists result after,
       TR.runSingleTest q run = (Normal result, after)
       /\ TR.status result = TR.success.
Proof.
  intros run q.
  split; [reflexivity|]. split; [reflexivity|]. split; [reflexivity|].
  destruct (@runSingleTest_success TR.Script TR.scripted q run
              (mkResponse 200 (Normal TR.one_hit)) TR.one_hit
              eq_refl eq_refl eq_refl eq_refl)
    as (result & after & Hrun & _ & Hst & _).
  exists result, after. split; [exact Hrun | exact Hst].
Defined.

(** *** The badges *)

Lemma Qle_bool_trans_true (a b c : Q) :
  Qle_bool a b = true -> b <= c -> Qle_bool a c = true.
Proof.
  intros Hab Hbc. apply Qle_bool_iff. apply Qle_bool_iff in Hab.
  eapply Qle_trans; eauto.
Qed.

(** X9.  The colour and the badge of a score go together: green with
    default from 0.5 on, yellow with secondary from 0.35 on, red with
    destructive below.  A higher score never gets a worse badge, and the
    retrieval tester and the chat give a score the same badge. *)
Theorem score_badges_agree (score : Q) :
  ((TR.getScoreBadgeVariant score = str "default"
    /\ TR.getScoreColor score = str "text-green-500"
    /\ 0.5 <= score)
   \/ (TR.getScoreBadgeVariant score = str "secondary"
       /\ TR.getScoreColor score = str "text-yellow-500"
       /\ 0.35 <= score /\ score < 0.5)
   \/ (TR.getScoreBadgeVariant score = str "destructive"
       /\ TR.getScoreColor score = str "text-red-500"
       /\ score < 0.35))
  /\ GC.getScoreBadgeVariant score = TR.getScoreBadgeVariant score
  /\ (forall higher, score <= higher ->
        (TR.badge_rank (TR.getScoreBadgeVariant score)
         <= TR.badge_rank (TR.getScoreBadgeVariant higher))%nat).
Proof.
  split; [|split; [reflexivity|]].
  - unfold TR.getScoreBadgeVariant, TR.getScoreColor.
    destruct (Qle_bool 0.5 score) eqn:H5.
    + left. apply Qle_bool_iff in H5. auto.
    + assert (Hlt5 : score < 0.5).
      { apply Qnot_le_lt. intros Hle. apply Qle_bool_iff in Hle. congruence. }
      destruct (Qle_bool 0.35 score) eqn:H35.
      * right; left. apply Qle_bool_iff in H35. auto.
      * right; right. repeat split; auto.
        apply Qnot_le_lt. intros Hle. apply Qle_bool_iff in Hle. congruence.
  - intros higher Hle. unfold TR.getScoreBadgeVariant.
    destruct (Qle_bool 0.5 score) eqn:H5.
    + rewrite (Qle_bool_trans_true _ H5 Hle). apply Nat.le_refl.
    + destruct (Qle_bool 0.35 score) eqn:H35.
      * rewrite (Qle_bool_trans_true _ H35 Hle).
        destruct (Qle_bool 0.5 higher); vm_compute; lia.
      * destruct (Qle_bool 0.5 higher); [vm_compute; lia|].
        destruct (Qle_bool 0.35 higher); vm_compute; lia.
Qed.

(** ** GroqChat, continued *)

(** X10.  When a submit passes the guard and its request is answered with
    a 2xx status and a body that parses, [sendMessage] appends the user
    message, with the trimmed input, and then the assistant message, with
    the answer, the sources and the two durations of the body; it empties
    the input, ends with [isLoading] false, sends the one request and shows
    no toast.  The history of the transcript grows by the two items of the
    exchange. *)
Theorem sendMessage_appends_exchange
    (E : Type) (P : Platform GC.Req GC.Payload E)
    (snap : GC.State) (run : Run GC.Req GC.State E unit)
    (res : Response GC.Body) (body : GC.Body) :
  is_blank (GC.input snap) = false ->
  GC.isLoading snap = false ->
  fst (serve (GC.request_of snap) (snd (clock (env run)))) = Resolves res ->
  ok res = true ->
  json res = Normal body ->
  exists userMessage assistantMessage final,
    GC.sendMessage snap run = (Normal tt, final)
    /\ GC.messages (ui final)
       = GC.messages (ui run) ++ [userMessage; assistantMessage]
    /\ GC.role userMessage = GC.user
    /\ GC.content userMessage = trim (GC.input snap)
    /\ GC.sources userMessage = None
    /\ GC.role assistantMessage = GC.assistant
    /\ GC.content assistantMessage = GC.response (GC.data body)
    /\ GC.sources assistantMessage = Some (GC.resp_sources (GC.data body))
    /\ GC.duration assistantMessage
       = Some (GC.duration_seconds (GC.data body))
    /\ GC.apiDuration assistantMessage
       = Some (GC.api_duration_seconds (GC.data body))
    /\ GC.input (ui final) = []
    /\ GC.isLoading (ui final) = false
    /\ log final
       = log run ++ [ Requested (GC.request_of snap);
                      Settled (GC.request_of snap) ]
    /\ GC.build_history (GC.messages (ui final))
       = GC.build_history (GC.messages (ui run))
           ++ [ [ (str "user", trim (GC.input snap)) ];
                [ (str "assistant", GC.response (GC.data body)) ] ].
Proof.
  intros Hb Hl Hserve Hok Hjson.
  unfold GC.request_of in *.
  unfold GC.sendMessage. rewrite (guard_passes _ Hb Hl).
  cbv beta iota delta
    [bind try_finally try_catch Date_now fetch throw ret lift toast emit
       GC.setMessages GC.setInput GC.setIsLoading setState].
  destruct run as [u e sto lg]. cbn [ui env localStorage log] in *.
  destruct (clock e) as [t0 e1]. cbn [fst snd] in *.
  cbn [GC.content GC.with_messages GC.with_input GC.with_isLoading
         GC.messages GC.input GC.isLoading ui env localStorage log].
  destruct (serve
              (GC.POST_chat
                 {| GC.req_message := trim (GC.input snap);
                    GC.history := GC.build_history (GC.messages snap) |})
              e1) as [o e2]; cbn [fst snd] in *.
  subst o. unfold GC.Payload in *. rewrite Hok. cbn. rewrite Hjson. cbn.
  destruct (clock e2) as [t1 e3]. cbn.
  eexists _, _, _. split; [reflexivity|]. cbn.
  split; [rewrite <- app_assoc; reflexivity|].
  repeat (split; [reflexivity|]).
  unfold GC.build_history. rewrite <- app_assoc, map_app. reflexivity.
Qed.

(** The witness of X10: "hi" is sent and answered with "hello". *)
Lemma sendMessage_appends_exchange_witness :
  let run := GC.start GC.first_message GC.answers_hello in
  let res := mkResponse 200 (Normal GC.answer_hello) in
  is_blank (GC.input GC.first_message) = false
  /\ GC.isLoading GC.first_message = false
  /\ fst (serve (GC.request_of GC.first_message) (snd (clock (env run))))
     = Resolves res
  /\ ok res = true
  /\ exists userMessage assistantMessage final,
       GC.sendMessage GC.first_message run = (Normal tt, final)
       /\ GC.messages (ui final) = [userMessage; assistantMessage].
Proof.
  intros run res.
  split; [reflexivity|]. split; [reflexivity|]. split; [reflexivity|].
  split; [reflexivity|].
  destruct (@sendMessage_appends_exchange GC.Script GC.scripted
              GC.first_message run res GC.answer_hello
              eq_refl eq_refl eq_refl eq_refl eq_refl)
    as (um & am & final & Hrun & Hms & _).
  exists um, am, final. split; [exact Hrun | exact Hms].
Defined.

(** X11.  When the Send button is enabled, a click sends exactly one
    request, the one of the render, whatever the back end does; the handler
    returns normally with [isLoading] false and the input empty, and the
    transcript has grown by the two messages of an exchange or is as it
    was. *)
Theorem enabled_send_settles
    (E : Type) (P : Platform GC.Req GC.Payload E)
    (snap : GC.State) (health : GroqChatHealth.State)
    (run : Run GC.Req GC.State E unit) :
  GroqChatHealth.send_disabled snap health = false ->
  exists final,
    GC.sendMessage snap run = (Normal tt, final)
    /\ requested (log final) = requested (log run) ++ [GC.request_of snap]
    /\ GC.isLoading (ui final) = false
    /\ GC.input (ui final) = []
    /\ (GC.messages (ui final) = GC.messages (ui run)
        \/ exists userMessage assistantMessage,
             GC.messages (ui final)
             = GC.messages (ui run) ++ [userMessage; assistantMessage]).
Proof.
  unfold GroqChatHealth.send_disabled. intros Hen.
  apply orb_false_iff in Hen. destruct Hen as [Hguard _].
  unfold GC.request_of, GC.sendMessage. rewrite Hguard.
  cbv beta iota delta
    [bind try_finally try_catch Date_now fetch throw ret lift toast emit
       GC.setMessages GC.setInput GC.setIsLoading setState].
  destruct run as [u e sto lg]. cbn [ui env localStorage log] in *.
  destruct (clock e) as [t0 e1]. cbn [fst snd] in *.
  cbn [GC.content GC.with_messages GC.with_input GC.with_isLoading
         GC.messages GC.input GC.isLoading ui env localStorage log].
  unfold requested.
  destruct (serve
              (GC.POST_chat
                 {| GC.req_message := trim (GC.input snap);
                    GC.history := GC.build_history (GC.messages snap) |})
              e1) as [[err|res] e2]; cbn [fst snd] in *.
  - cbn. eexists. split; [reflexivity|]. cbn.
    unfold slice_0_m1. rewrite removelast_last.
    rewrite !flat_map_app. cbn. rewrite !app_nil_r. auto.
  - unfold GC.Payload in *.
    destruct (ok res) eqn:Hok; cbn;
      destruct (json res) as [body|err]; cbn;
      try destruct (clock e2) as [t1 e3]; cbn;
      (eexists; split; [reflexivity|]); cbn;
      unfold slice_0_m1; rewrite ?removelast_last;
      rewrite !flat_map_app; cbn; rewrite ?app_nil_r;
      (split; [reflexivity|]); (split; [reflexivity|]);
      (split; [reflexivity|]);
      first [ left; reflexivity
            | right; eexists _, _; rewrite <- app_assoc; reflexivity ].
Qed.

(** The witness of X11: "hi" is typed, nothing is in flight and the health
    of the back end is not yet known. *)
Lemma enabled_send_settles_witness :
  GroqChatHealth.send_disabled GC.first_message GroqChatHealth.initial
  = false
  /\ exists final,
       GC.sendMessage GC.first_message
         (GC.start GC.first_message GC.server_error)
       = (Normal tt, final)
       /\ GC.isLoading (ui final) = false.
Proof.
  split; [reflexivity|].
  destruct (@enabled_send_settles GC.Script GC.scripted GC.first_message
              GroqChatHealth.initial
              (GC.start GC.first_message GC.server_error) eq_refl)
    as (final & Hrun & _ & Hl & _).
  exists final. split; [exact Hrun | exact Hl].
Defined.

(** *** The health check *)

Module GH := GroqChatHealth.

(** X12.  [checkHealth] sends its one request and returns normally
    whatever the back end does, and leaves [isHealthy] true or false, never
    unknown.  It is true exactly when the request resolved with a body that
    parses and whose [status] is "healthy"; the HTTP status is not looked
    at.  The model shown changes only to a non-empty [model] of such a
    body.  After a check that found the back end not healthy the Send
    button is disabled whatever is typed. *)
Theorem checkHealth_settles
    (E : Type) (P : Platform GH.Req GH.Payload E)
    (run : Run GH.Req GH.State E unit) :
  exists final healthy,
    GH.checkHealth run = (Normal tt, final)
    /\ requested (log final) = requested (log run) ++ [GH.GET_chat_health]
    /\ GH.isHealthy (ui final) = Some healthy
    /\ (healthy = true <->
        exists res data,
          fst (serve GH.GET_chat_health (env run)) = Resolves res
          /\ json res = Normal data
          /\ GH.health_status data = Some (str "healthy"))
    /\ (GH.modelInfo (ui final) = GH.modelInfo (ui run)
        \/ exists res data,
             fst (serve GH.GET_chat_health (env run)) = Resolves res
             /\ json res = Normal data
             /\ GH.health_model data = Some (GH.modelInfo (ui final))
             /\ GH.modelInfo (ui final) <> [])
    /\ (healthy = false ->
        forall chat, GH.send_disabled chat (ui final) = true).
Proof.
  unfold GH.checkHealth.
  cbv beta iota delta
    [bind try_catch fetch throw ret lift GH.setIsHealthy GH.setModelInfo
       setState].
  destruct run as [u e sto lg]. cbn [ui env localStorage log] in *.
  unfold requested.
  destruct (serve GH.GET_chat_health e) as [[err|res] e1] eqn:Hserve;
    cbn [fst snd].
  - cbn. eexists _, false. split; [reflexivity|]. cbn.
    rewrite flat_map_app. cbn.
    split; [reflexivity|]. split; [reflexivity|].
    split; [split; [discriminate | intros (r & d & Hr & _); discriminate]|].
    split; [left; reflexivity|].
    intros _ chat. unfold GH.send_disabled. cbn. apply orb_true_r.
  - unfold GH.Payload in *.
    destruct (json res) as [data|err] eqn:Hjson; cbn.
    + assert (Hiff : GH.is_string (GH.health_status data) (str "healthy")
                     = true <->
                     exists res' data',
                       Resolves res = Resolves res'
                       /\ json res' = Normal data'
                       /\ GH.health_status data' = Some (str "healthy")).
      { unfold GH.is_string. split.
        - destruct (GH.health_status data) as [v|] eqn:Hst; [|discriminate].
          intros Heq. apply eqb_eq in Heq. subst v.
          exists res, data. auto.
        - intros (r & d & [= <-] & Hj & Hst).
          rewrite Hjson in Hj. injection Hj as <-. rewrite Hst.
          apply eqb_eq. reflexivity. }
      assert (Hdis : forall (m : jsstring) chat,
                 GH.is_string (GH.health_status data) (str "healthy") = false ->
                 GH.send_disabled chat
                   {| GH.isHealthy :=
                        Some (GH.is_string (GH.health_status data)
                                (str "healthy"));
                      GH.modelInfo := m |} = true).
      { intros m chat Hf. unfold GH.send_disabled. cbn. rewrite Hf.
        apply orb_true_r. }
      destruct (GH.health_model data) as [[|c rest]|] eqn:Hmodel; cbn;
        eexists _, _; (split; [reflexivity|]); cbn;
        rewrite flat_map_app; cbn;
        (split; [reflexivity|]); (split; [reflexivity|]);
        (split; [exact Hiff|]);
        (split; [|intros Hf chat; apply Hdis; exact Hf]).
      * left; reflexivity.
      * right. exists res, data. repeat split; auto. discriminate.
      * left; reflexivity.
    + eexists _, false. split; [reflexivity|]. cbn.
      rewrite flat_map_app. cbn.
      split; [reflexivity|]. split; [reflexivity|].
      split; [split; [discriminate|]|].
      { intros (r & d & [= <-] & Hj & _). congruence. }
      split; [left; reflexivity|].
      intros _ chat. unfold GH.send_disabled. cbn. apply orb_true_r.
Qed.

(** A reply with status 503 whose body says healthy counts as healthy. *)
Lemma checkHealth_ignores_http_status :
  GH.isHealthy
    (ui (snd (GH.checkHealth
                {| ui := GH.initial; env := GH.unavailable_but_healthy;
                   localStorage := @JsMap.empty unit; log := [] |})))
  = Some true.
Proof. reflexivity. Qed.

(** ** Chat, continued *)

(** X13.  When a submit passes the guard and its request is answered with
    a 2xx status and a body that parses and carries no error, the handler
    appends the user message, with the trimmed text, and then the assistant
    message, with the answer and the sources of the body, or no sources
    when the body has none; it sets [sources] to the same list, leaves no
    error, empties the text, ends with [isLoading] false, sends the one
    request and shows no toast. *)
Theorem handleSubmit_appends_exchange
    (E : Type) (P : Platform Chat.Req Chat.Payload E)
    (snap : Chat.State) (run : Run Chat.Req Chat.Live E Chat.Item)
    (response : Response Chat.Data) (data : Chat.Data) :
  is_blank (Chat.message snap) = false ->
  Chat.isLoading snap = false ->
  fst (serve (Chat.request_of snap) (snd (clock (snd (clock (env run))))))
  = Resolves response ->
  json response = Normal data ->
  Chat.data_error data = false ->
  ok response = true ->
  exists userMessageObj assistantMessageObj final,
    Chat.dispatch (Chat.handleSubmit snap) run = (Normal tt, final)
    /\ Chat.messages (Chat.st (ui final))
       = Chat.messages (Chat.st (ui run))
           ++ [userMessageObj; assistantMessageObj]
    /\ Chat.type userMessageObj = Chat.user
    /\ Chat.content userMessageObj = trim (Chat.message snap)
    /\ Chat.type assistantMessageObj = Chat.assistant
    /\ Chat.content assistantMessageObj = Chat.data_response data
    /\ Chat.sources assistantMessageObj
       = Some (match Chat.data_sources data with
               | Some l => l
               | None => []
               end)
    /\ Chat.st_sources (Chat.st (ui final))
       = match Chat.data_sources data with Some l => l | None => [] end
    /\ Chat.error (Chat.st (ui final)) = None
    /\ Chat.message (Chat.st (ui final)) = []
    /\ Chat.isLoading (Chat.st (ui final)) = false
    /\ requested (log final) = requested (log run) ++ [Chat.request_of snap]
    /\ List.filter is_toast (log final) = List.filter is_toast (log run).
Proof.
  intros Hb Hl Hserve Hjson Herr Hok.
  unfold Chat.request_of in *.
  unfold Chat.dispatch, Chat.handleSubmit. rewrite (guard_passes _ Hb Hl).
  cbv beta iota delta
    [bind try_finally try_catch Date_now fetch throw ret lift toast emit
       console_error getState localStorage_setItem
       Chat.await Chat.commit Chat.saveEffect
       Chat.setMessages Chat.setMessage Chat.setIsLoading Chat.setError
       Chat.setSources setState Chat.update].
  unfold Chat.Payload in *.
  destruct run as [u e sto lg]. cbn in *.
  destruct (clock e) as [t0 e1]. cbn in *.
  destruct (clock e1) as [t1 e2]. cbn in *.
  rewrite length_app, Nat.add_comm. cbn.
  destruct (serve
              (Chat.POST_chat
                 {| Chat.req_message := trim (Chat.message snap);
                    Chat.history :=
                      Chat.build_history (Chat.messages snap) |})
              e2) as [o e3]; cbn in *.
  subst o. cbn. rewrite Hjson. cbn. rewrite Herr, Hok. cbn.
  destruct (clock e3) as [t2 e4]. cbn.
  destruct (clock e4) as [t3 e5]. cbn.
  rewrite !length_app, Nat.add_comm. cbn.
  eexists _, _, _. split; [reflexivity|]. cbn.
  split; [rewrite <- app_assoc; reflexivity|].
  repeat (split; [reflexivity|]).
  unfold requested. rewrite !toasts_app, !flat_map_app. cbn.
  rewrite !app_nil_r. auto.
Qed.

(** The witness of X13: "hi" is sent and answered with "hello". *)
Lemma handleSubmit_appends_exchange_witness :
  let run := Chat.start Chat.first_message JsMap.empty Chat.answers_hello in
  let response := mkResponse 200 (Normal Chat.answer_hello) in
  is_blank (Chat.message Chat.first_message) = false
  /\ Chat.isLoading Chat.first_message = false
  /\ fst (serve (Chat.request_of Chat.first_message)
            (snd (clock (snd (clock (env run))))))
     = Resolves response
  /\ Chat.data_error Chat.answer_hello = false
  /\ ok response = true
  /\ exists userMessageObj assistantMessageObj final,
       Chat.dispatch (Chat.handleSubmit Chat.first_message) run
       = (Normal tt, final)
       /\ Chat.messages (Chat.st (ui final))
          = [userMessageObj; assistantMessageObj].
Proof.
  intros run response.
  split; [reflexivity|]. split; [reflexivity|]. split; [reflexivity|].
  split; [reflexivity|]. split; [reflexivity|].
  destruct (@handleSubmit_appends_exchange Chat.Script Chat.scripted
              Chat.first_message run response Chat.answer_hello
              eq_refl eq_refl eq_refl eq_refl eq_refl eq_refl)
    as (um & am & final & Hrun & Hms & _).
  exists um, am, final. split; [exact Hrun | exact Hms].
Defined.

(** Mounting on a storage, in any environment. *)
Lemma Chat_mount_cases {E : Type} `{Platform Chat.Req Chat.Payload E}
    (storage : JsMap.t Chat.Item) (e : E) :
  let run := {| ui := {| Chat.st := Chat.initial;
                         Chat.messages_changed := false |};
                env := e; localStorage := storage; log := [] |} in
  match JsMap.get Chat.chatHistory storage with
  | Some (Chat.Stringified (m :: ms)) =>
      Chat.mount run
      = (Normal tt,
         {| ui := {| Chat.st :=
                       Chat.with_messages (fun _ => m :: ms) Chat.initial;
                     Chat.messages_changed := false |};
            env := e;
            localStorage :=
              JsMap.set Chat.chatHistory (Chat.Stringified (m :: ms))
                storage;
            log := [ StorageGet Chat.chatHistory;
                     StorageSet Chat.chatHistory ] |})
  | Some (Chat.Stringified []) | None | Some (Chat.Text [] _ _) =>
      Chat.mount run
      = (Normal tt,
         {| ui := {| Chat.st := Chat.initial;
                     Chat.messages_changed := false |};
            env := e; localStorage := storage;
            log := [ StorageGet Chat.chatHistory ] |})
  | Some (Chat.Text (c :: raw) _ _) =>
      Chat.mount run
      = (Normal tt,
         {| ui := {| Chat.st := Chat.initial;
                     Chat.messages_changed := false |};
            env := e; localStorage := storage;
            log := [ StorageGet Chat.chatHistory; ConsoleError ] |})
  end.
Proof.
  cbv beta iota zeta delta
    [Chat.mount Chat.loadEffect Chat.saveEffect Chat.commit
       Chat.parse_messages Chat.setMessages
       bind try_catch throw ret console_error emit getState setState
       localStorage_getItem localStorage_setItem].
  unfold JsMap.get. cbn.
  destruct (assoc Chat.chatHistory storage)
    as [[[|m ms]|[|c raw] thrown Hraw]|]; reflexivity.
Qed.

(** X14.  A transcript survives a reload.  After a submit that passed the
    guard, whatever its outcome, a component mounted on the storage the
    submit left shows the transcript the submit ended with, and leaves
    every key of the storage with what it held.  After the history was
    cleared, a component mounted on the storage shows an empty transcript
    and leaves the storage as it is. *)
Theorem reload_restores_transcript
    (E : Type) (P : Platform Chat.Req Chat.Payload E)
    (run : Run Chat.Req Chat.Live E Chat.Item) (e' : E) :
  let reload (left : Run Chat.Req Chat.Live E Chat.Item) :=
    snd (Chat.mount {| ui := {| Chat.st := Chat.initial;
                                Chat.messages_changed := false |};
                       env := e'; localStorage := localStorage left;
                       log := [] |}) in
  (forall snap,
      is_blank (Chat.message snap) = false ->
      Chat.isLoading snap = false ->
      let final := snd (Chat.dispatch (Chat.handleSubmit snap) run) in
      Chat.messages (Chat.st (ui (reload final)))
      = Chat.messages (Chat.st (ui final))
      /\ forall key,
           JsMap.get key (localStorage (reload final))
           = JsMap.get key (localStorage final))
  /\ (let final := snd (Chat.dispatch Chat.confirmClearHistory run) in
      Chat.messages (Chat.st (ui (reload final))) = []
      /\ localStorage (reload final) = localStorage final).
Proof.
  intros reload. split.
  - intros snap Hb Hl final.
    pose proof (Chat_submit_saved snap run Hb Hl) as Hsaved.
    subst final reload. cbv beta.
    destruct (Chat.dispatch (Chat.handleSubmit snap) run) as [c final].
    destruct Hsaved as (_ & _ & Hne & Hget & _). cbn [snd].
    pose proof (Chat_mount_cases (localStorage final) e') as Hm.
    cbv zeta in Hm. rewrite Hget in Hm.
    destruct (Chat.messages (Chat.st (ui final))) as [|m ms] eqn:Hms;
      [congruence|].
    rewrite Hm. cbn. split; [reflexivity|].
    intros key.
    destruct (list_eq_dec N.eq_dec Chat.chatHistory key) as [<-|Hkey].
    + rewrite get_set_same. symmetry. exact Hget.
    + apply get_set_other. exact Hkey.
  - intros final. subst final reload. cbv beta.
    assert (Hgone : JsMap.get Chat.chatHistory
                      (localStorage
                         (snd (Chat.dispatch Chat.confirmClearHistory run)))
                    = None).
    { cbv beta iota delta
        [Chat.dispatch Chat.confirmClearHistory Chat.commit Chat.saveEffect
           Chat.setMessages Chat.setSources Chat.setError
           Chat.setIsClearDialogOpen Chat.update
           try_finally bind ret getState setState localStorage_removeItem].
      cbn. apply get_delete_same. }
    pose proof (Chat_mount_cases
                  (localStorage
                     (snd (Chat.dispatch Chat.confirmClearHistory run))) e')
      as Hm.
    cbv zeta in Hm. rewrite Hgone in Hm. rewrite Hm. cbn.
    split; reflexivity.
Qed.

(** The witness of X14: "hi" is sent, the back end answers 500, and the
    page is reloaded. *)
Lemma reload_restores_transcript_witness :
  let final :=
    snd (Chat.dispatch (Chat.handleSubmit Chat.first_message)
           (Chat.start Chat.first_message JsMap.empty Chat.server_error)) in
  let reloaded :=
    snd (Chat.mount (Chat.start Chat.initial (localStorage final)
                       Chat.offline)) in
  is_blank (Chat.message Chat.first_message) = false
  /\ Chat.isLoading Chat.first_message = false
  /\ Chat.messages (Chat.st (ui reloaded))
     = Chat.messages (Chat.st (ui final)).
Proof.
  intros final reloaded.
  split; [reflexivity|]. split; [reflexivity|].
  exact (proj1 (proj1 (@reload_restores_transcript Chat.Script Chat.scripted
                         (Chat.start Chat.first_message JsMap.empty
                            Chat.server_error)
                         Chat.offline)
                  Chat.first_message eq_refl eq_refl)).
Defined.

(** X15.  When the key holds a text that does not begin an array, so
    that parsing it or mapping over what it parses to throws, mounting
    returns normally with the initial state, reports the failure on the
    console, unless the text is empty, and leaves the storage as it is: the
    text is neither removed nor replaced. *)
Theorem mount_survives_corrupt_storage
    (E : Type) (P : Platform Chat.Req Chat.Payload E)
    (storage : JsMap.t Chat.Item) (raw : jsstring) (thrown : JsError)
    (not_array : begins_array raw = false) (e : E) :
  JsMap.get Chat.chatHistory storage
  = Some (Chat.Text raw thrown not_array) ->
  exists final,
    Chat.mount {| ui := {| Chat.st := Chat.initial;
                           Chat.messages_changed := false |};
                  env := e; localStorage := storage; log := [] |}
    = (Normal tt, final)
    /\ Chat.st (ui final) = Chat.initial
    /\ localStorage final = storage
    /\ env final = e
    /\ log final
       = StorageGet Chat.chatHistory
           :: (if falsy raw then [] else [ConsoleError]).
Proof.
  intros Hget.
  pose proof (Chat_mount_cases storage e) as Hm.
  cbv zeta in Hm. rewrite Hget in Hm.
  destruct raw as [|c raw]; rewrite Hm; eexists; repeat split.
Qed.

(** The witness of X15: the key holds a text that does not parse. *)
Lemma mount_survives_corrupt_storage_witness :
  JsMap.get Chat.chatHistory Chat.corrupt = Some Chat.oops
  /\ exists final,
       Chat.mount (Chat.start Chat.initial Chat.corrupt Chat.offline)
       = (Normal tt, final)
       /\ localStorage final = Chat.corrupt
       /\ log final = [StorageGet Chat.chatHistory; ConsoleError].
Proof.
  split; [reflexivity|].
  destruct (@mount_survives_corrupt_storage Chat.Script Chat.scripted
              Chat.corrupt (str "{oops")
              (mkError SyntaxError_ (str "Unexpected token o")) eq_refl
              Chat.offline eq_refl)
    as (final & Hrun & _ & Hsto & _ & Hlog).
  exists final. split; [exact Hrun|]. split; [exact Hsto | exact Hlog].
Defined.

(** ** The confessions panel, continued *)

Section ConfessionsFetches.
Context {E : Type} `{Platform CF.Req CF.Payload E}.

Lemma fetchConfessions_run (snap : CF.State)
    (run : Run CF.Req CF.State E unit) :
  let q := CF.GET_confessions (CF.is_replied_of snap) in
  CF.fetchConfessions snap run
  = (Normal tt,
     match CF.good_body q (env run) with
     | Some data =>
         {| ui := CF.with_loading false (CF.with_confessions data (ui run));
            env := snd (serve q (env run));
            localStorage := localStorage run;
            log := log run ++ [Requested q; Settled q] |}
     | None =>
         {| ui := CF.with_loading false (ui run);
            env := snd (serve q (env run));
            localStorage := localStorage run;
            log := log run
                     ++ [ Requested q; Settled q;
                          Toast toast_error
                            (str "Failed to load confessions");
                          ConsoleError ] |}
     end).
Proof.
  cbv zeta. unfold CF.good_body, CF.is_replied_of, CF.fetchConfessions.
  cbv beta iota delta
    [bind try_finally try_catch fetch throw ret lift toast emit
       console_error CF.check_ok CF.setLoading CF.setConfessions setState].
  destruct run as [u e sto lg]. cbn [ui env localStorage log].
  match goal with
  | |- context [serve ?r e] => destruct (serve r e) as [[err|response] e']
  end; cbn [fst snd ui env localStorage log].
  - destruct u; cbn. rewrite <- !app_assoc. reflexivity.
  - destruct (ok response); cbn [negb ui env localStorage log].
    + destruct (json response) as [data|err];
        cbn [ui env localStorage log]; destruct u; cbn;
        rewrite <- ?app_assoc; reflexivity.
    + destruct u; cbn. rewrite <- !app_assoc. reflexivity.
Qed.

Lemma fetchStats_run (run : Run CF.Req CF.State E unit) :
  let q := CF.GET_stats_summary in
  CF.fetchStats run
  = (Normal tt,
     match CF.good_body q (env run) with
     | Some data =>
         {| ui := CF.with_stats data (ui run);
            env := snd (serve q (env run));
            localStorage := localStorage run;
            log := log run ++ [Requested q; Settled q] |}
     | None =>
         {| ui := ui run;
            env := snd (serve q (env run));
            localStorage := localStorage run;
            log := log run ++ [Requested q; Settled q; ConsoleError] |}
     end).
Proof.
  cbv zeta. unfold CF.good_body, CF.fetchStats.
  cbv beta iota delta
    [bind try_finally try_catch fetch throw ret lift toast emit
       console_error CF.check_ok CF.setStats setState].
  destruct run as [u e sto lg]. cbn [ui env localStorage log].
  destruct (serve CF.GET_stats_summary e) as [[err|response] e'];
    cbn [fst snd ui env localStorage log].
  - rewrite <- !app_assoc. reflexivity.
  - destruct (ok response); cbn [negb ui env localStorage log].
    + destruct (json response) as [data|err];
        cbn [ui env localStorage log]; rewrite <- ?app_assoc; reflexivity.
    + rewrite <- !app_assoc. reflexivity.
Qed.

(** X16.  [fetchConfessions] returns normally whatever the back end does,
    sends the one list request of the filter of its render, with no
    [is_replied] for the filter "all", and ends with [loading] false.  When
    the reply has a 2xx status and a body that parses, the list becomes
    that body and nothing else is shown; otherwise the list is kept, an
    error toast is shown and the failure goes to the console.  No other
    field of the state changes. *)
Theorem fetchConfessions_settles (snap : CF.State)
    (run : Run CF.Req CF.State E unit) :
  let q := CF.GET_confessions
             (if eqb (CF.filter snap) (str "all") then None
              else Some (eqb (CF.filter snap) (str "replied"))) in
  exists final,
    CF.fetchConfessions snap run = (Normal tt, final)
    /\ CF.loading (ui final) = false
    /\ requested (log final) = requested (log run) ++ [q]
    /\ match CF.good_body q (env run) with
       | Some data =>
           ui final
           = CF.with_loading false (CF.with_confessions data (ui run))
           /\ log final = log run ++ [Requested q; Settled q]
       | None =>
           ui final = CF.with_loading false (ui run)
           /\ log final
              = log run
                  ++ [ Requested q; Settled q;
                       Toast toast_error (str "Failed to load confessions");
                       ConsoleError ]
       end.
Proof.
  cbv zeta.
  pose proof (fetchConfessions_run snap run) as Hrun. cbv zeta in Hrun.
  unfold CF.is_replied_of in Hrun.
  destruct (eqb (CF.filter snap) (str "all")); cbn [negb] in Hrun;
    rewrite Hrun; eexists; (split; [reflexivity|]);
    match goal with
    | |- context [CF.good_body ?q ?e] => destruct (CF.good_body q e)
    end; cbn [ui log];
    (split; [reflexivity|]);
    (split; [unfold requested; rewrite flat_map_app; reflexivity|]);
    split; reflexivity.
Qed.

(** X17.  [fetchStats] returns normally whatever the back end does, sends
    the one summary request and never shows a toast.  When the reply has a
    2xx status and a body that parses, the statistics become that body;
    otherwise the state is as it was and the failure goes to the console
    only. *)
Theorem fetchStats_settles (run : Run CF.Req CF.State E unit) :
  exists final,
    CF.fetchStats run = (Normal tt, final)
    /\ requested (log final) = requested (log run) ++ [CF.GET_stats_summary]
    /\ List.filter is_toast (log final) = List.filter is_toast (log run)
    /\ match CF.good_body CF.GET_stats_summary (env run) with
       | Some data => ui final = CF.with_stats data (ui run)
       | None =>
           ui final = ui run
           /\ log final
              = log run ++ [ Requested CF.GET_stats_summary;
                             Settled CF.GET_stats_summary; ConsoleError ]
       end.
Proof.
  pose proof (fetchStats_run run) as Hrun. cbv zeta in Hrun.
  rewrite Hrun. eexists. split; [reflexivity|].
  destruct (CF.good_body CF.GET_stats_summary (env run)); cbn [ui log];
    (split; [unfold requested; rewrite flat_map_app; reflexivity|]);
    (split; [rewrite toasts_app, app_nil_r; reflexivity|]);
    try split; reflexivity.
Qed.

End ConfessionsFetches.

Lemma falsy_trim (text : jsstring) : falsy (trim text) = is_blank text.
Proof.
  destruct (is_blank text) eqn:Hb; [apply trim_falsy, Hb|].
  destruct (falsy (trim text)) eqn:Hf; [|reflexivity].
  apply trim_falsy in Hf. congruence.
Qed.

Section ConfessionsActions.
Context {E : Type} `{Platform CF.Req CF.Payload E}.

(** X18.  When the request of an edit, a reply, a reply deletion or a
    deletion is answered with a 2xx status, the handler returns normally
    whatever the requests that follow are answered.  It shows the success
    toast, closes the dialog of the action, clears the selection and
    fetches the list again, with the filter of its render; it fetches the
    statistics again too, except after an edit.  It ends with
    [actionLoading] and [loading] false.  A failure of the list request
    that follows shows the toast of that request and not a failure of the
    action. *)
Theorem successful_action (a : CF.Action) (snap : CF.State)
    (run : Run CF.Req CF.State E unit) (q : CF.Req)
    (response : Response (CF.Payload q)) :
  CF.request_of a snap = Some q ->
  fst (serve q (env run)) = Resolves response ->
  ok response = true ->
  exists final success,
    CF.handler a snap run = (Normal tt, final)
    /\ requested (log final)
       = requested (log run)
           ++ q :: CF.GET_confessions (CF.is_replied_of snap)
                :: match a with
                   | CF.Edit => []
                   | _ => [CF.GET_stats_summary]
                   end
    /\ CF.dialog_open a (ui final) = false
    /\ CF.selectedConfession (ui final) = None
    /\ CF.actionLoading (ui final) = false
    /\ CF.loading (ui final) = false
    /\ (List.filter is_toast (log final)
        = List.filter is_toast (log run) ++ [Toast toast_success success]
        \/ List.filter is_toast (log final)
           = List.filter is_toast (log run)
               ++ [ Toast toast_success success;
                    Toast toast_error (str "Failed to load confessions") ]).
Proof.
  intros Hreq Hserve Hok. unfold CF.request_of in Hreq.
  destruct run as [u e sto lg]. cbn [env] in Hserve.
  destruct a; cbn [CF.handler];
    unfold CF.handleEdit, CF.handleReply, CF.handleDeleteReply,
      CF.handleDelete;
    destruct (CF.selectedConfession snap) as [selected|]; try discriminate;
    try (destruct (falsy (trim (CF.editedMessage snap))); try discriminate);
    try (destruct (falsy (trim (CF.replyText snap))); try discriminate);
    injection Hreq as <-;
    cbv beta iota delta
      [bind try_finally try_catch fetch throw ret toast emit console_error
         CF.check_ok CF.setActionLoading CF.setIsEditDialogOpen
         CF.setIsReplyDialogOpen CF.setIsDeleteDialogOpen
         CF.setIsDeleteReplyDialogOpen CF.setIsViewDialogOpen
         CF.setEditedMessage CF.setReplyText CF.setSelectedConfession
         setState];
    cbn [ui env localStorage log];
    match goal with
    | |- context [serve ?r e] => destruct (serve r e) as [o e']
    end;
    cbn [fst] in Hserve; subst o; cbn [ui env localStorage log];
    rewrite Hok; cbn [negb ui env localStorage log];
    rewrite fetchConfessions_run; cbv zeta; cbn [ui env localStorage log];
    match goal with
    | |- context [CF.good_body ?r ?x] => destruct (CF.good_body r x)
    end;
    try (rewrite fetchStats_run; cbv zeta; cbn [ui env localStorage log];
         match goal with
         | |- context [CF.good_body ?r ?x] => destruct (CF.good_body r x)
         end);
    eexists _, _; (split; [reflexivity|]);
    cbn [ui env localStorage log];
    (split;
     [unfold requested; rewrite !flat_map_app; cbn; rewrite ?app_nil_r;
      rewrite <- ?app_assoc; reflexivity|]);
    (split; [destruct u; reflexivity|]);
    (split; [destruct u; reflexivity|]);
    (split; [destruct u; reflexivity|]);
    (split; [destruct u; reflexivity|]);
    rewrite !toasts_app; cbn; rewrite ?app_nil_r;
    rewrite <- ?app_assoc; cbn;
    first [ left; reflexivity | right; reflexivity ].
Qed.

(** X19.  An action whose guard does not hold does nothing: with no
    confession selected, or for an edit or a reply with a text that is
    empty or white space only, the handler returns at once and leaves the
    state, the environment and the log as they were. *)
Theorem guarded_action_is_noop (a : CF.Action) (snap : CF.State)
    (run : Run CF.Req CF.State E unit) :
  CF.selectedConfession snap = None
  \/ (a = CF.Edit /\ is_blank (CF.editedMessage snap) = true)
  \/ (a = CF.Reply /\ is_blank (CF.replyText snap) = true) ->
  CF.handler a snap run = (Normal tt, run).
Proof.
  intros [Hsel|[[-> Hblank]|[-> Hblank]]].
  - destruct a; cbn [CF.handler];
      unfold CF.handleEdit, CF.handleReply, CF.handleDeleteReply,
        CF.handleDelete; rewrite Hsel; reflexivity.
  - cbn [CF.handler]. unfold CF.handleEdit.
    destruct (CF.selectedConfession snap); [|reflexivity].
    apply trim_falsy in Hblank. rewrite Hblank. reflexivity.
  - cbn [CF.handler]. unfold CF.handleReply.
    destruct (CF.selectedConfession snap); [|reflexivity].
    apply trim_falsy in Hblank. rewrite Hblank. reflexivity.
Qed.

(** X20.  The dialog of an action acts on the row whose button opened it,
    whatever was selected or typed before.  A deletion and a reply deletion
    confirmed in the dialog send the request for the id of that row.  The
    edit dialog starts with the message of the row, and the reply dialog
    with its reply, or with an empty text when there is none; confirmed
    without typing, they send that text for the id of the row, or nothing
    when it is empty or white space only.  Opening a dialog sends nothing. *)
Theorem dialog_targets_clicked_row (a : CF.Action) (c : CF.Confession)
    (run : Run CF.Req CF.State E unit) :
  let opened := snd (CF.opener a c run) in
  fst (CF.opener a c run) = Normal tt
  /\ CF.dialog_open a (ui opened) = true
  /\ CF.selectedConfession (ui opened) = Some c
  /\ log opened = log run
  /\ env opened = env run
  /\ CF.confessions (ui opened) = CF.confessions (ui run)
  /\ CF.request_of a (ui opened)
     = match a with
       | CF.Delete => Some (CF.DELETE_confession (CF.id c))
       | CF.DeleteReply => Some (CF.DELETE_reply (CF.id c))
       | CF.Edit =>
           if is_blank (CF.message c) then None
           else Some (CF.PUT_confession (CF.id c) (CF.message c))
       | CF.Reply =>
           match CF.reply c with
           | Some text =>
               if is_blank text then None
               else Some (CF.POST_reply (CF.id c) text)
           | None => None
           end
       end.
Proof.
  cbv zeta. destruct run as [u e sto lg].
  destruct a; cbn -[is_blank]; repeat (split; [reflexivity|]);
    unfold CF.request_of; cbn -[is_blank]; try reflexivity.
  - rewrite falsy_trim. reflexivity.
  - destruct (CF.reply c) as [[|ch text]|]; cbn -[is_blank];
      rewrite falsy_trim; reflexivity.
Qed.

End ConfessionsActions.

(** The witness of X18: a reply to the first of two confessions. *)
Lemma successful_action_witness :
  let run := {| ui := CF.replying; env := CF.two_confessions;
                localStorage := @JsMap.empty unit; log := [] |} in
  let q := CF.POST_reply (str "c1") (str "noted") in
  let response := mkResponse 200 (Normal tt) in
  CF.request_of CF.Reply CF.replying = Some q
  /\ fst (serve q (env run)) = Resolves response
  /\ ok response = true
  /\ exists final,
       CF.handler CF.Reply CF.replying run = (Normal tt, final)
       /\ CF.dialog_open CF.Reply (ui final) = false
       /\ CF.selectedConfession (ui final) = None.
Proof.
  intros run q response.
  assert (Hreq : CF.request_of CF.Reply CF.replying = Some q)
    by reflexivity.
  assert (Hserve : fst (serve q (env run)) = Resolves response)
    by reflexivity.
  assert (Hok : ok response = true) by reflexivity.
  split; [exact Hreq|]. split; [exact Hserve|]. split; [exact Hok|].
  destruct (@successful_action CF.Db CF.service CF.Reply CF.replying run q
              response Hreq Hserve Hok)
    as (final & success & Hrun & _ & Hdialog & Hsel & _).
  exists final. split; [exact Hrun|]. split; [exact Hdialog | exact Hsel].
Defined.

(** The witness of X19: a deletion with nothing selected. *)
Lemma guarded_action_is_noop_witness :
  let run := {| ui := CF.initial; env := CF.two_confessions;
                localStorage := @JsMap.empty unit; log := [] |} in
  CF.selectedConfession CF.initial = None
  /\ CF.handleDelete CF.initial run = (Normal tt, run).
Proof.
  intros run. split; [reflexivity|].
  exact (@guarded_action_is_noop CF.Db CF.service CF.Delete CF.initial run
           (or_introl eq_refl)).
Defined.

(** *** The panel and the back end *)

Lemma filter_map_length {A} (p : A -> bool) (g : A -> A) (l : list A) :
  (forall x, p (g x) = p x) ->
  length (List.filter p (List.map g l)) = length (List.filter p l).
Proof.
  intros Hp. induction l as [|x l IH]; simpl; [reflexivity|].
  rewrite Hp. destruct (p x); simpl; congruence.
Qed.

Lemma summary_amend_message (i msg : jsstring) (db : CF.Db) :
  CF.summary (CF.amend i (CF.with_message msg) db) = CF.summary db.
Proof.
  unfold CF.summary, CF.amend.
  rewrite length_map.
  rewrite !filter_map_length; [reflexivity| |];
    intros c; destruct (eqb (CF.id c) i); reflexivity.
Qed.

(** X21.  Against a back end that keeps the confessions, lists and counts
    them, and answers 404 for an id it does not hold, every action keeps
    the panel in step with the back end: when the list and the statistics
    shown are those of the back end before the action, they are those of
    the back end after it, whether the action went through, was refused or
    was held back by its guard.  An edit fetches the list only, and the
    statistics it leaves are right because an edit changes no count. *)
Theorem actions_keep_panel_in_sync (a : CF.Action) (db : CF.Db)
    (snap : CF.State) :
  CF.in_sync db snap ->
  let '(r, final) :=
    CF.handler a snap {| ui := snap; env := db;
                         localStorage := @JsMap.empty unit; log := [] |} in
  r = Normal tt
  /\ CF.in_sync (env final) (ui final)
  /\ CF.filter (ui final) = CF.filter snap.
Proof.
  intros [Hlist Hstats].
  destruct a; cbn [CF.handler];
    unfold CF.handleEdit, CF.handleReply, CF.handleDeleteReply,
      CF.handleDelete;
    (destruct (CF.selectedConfession snap) as [selected|];
     [|split; [reflexivity|]; split; [split; assumption | reflexivity]]);
    try (destruct (falsy (trim (CF.editedMessage snap)));
         [split; [reflexivity|]; split; [split; assumption | reflexivity]|]);
    try (destruct (falsy (trim (CF.replyText snap)));
         [split; [reflexivity|]; split; [split; assumption | reflexivity]|]);
    cbv beta iota delta
      [CF.fetchConfessions CF.fetchStats
         bind try_finally try_catch fetch throw ret lift toast emit
         console_error CF.check_ok
         CF.setActionLoading CF.setIsEditDialogOpen
         CF.setIsReplyDialogOpen CF.setIsDeleteDialogOpen
         CF.setIsDeleteReplyDialogOpen CF.setIsViewDialogOpen
         CF.setEditedMessage CF.setReplyText CF.setSelectedConfession
         CF.setLoading CF.setConfessions CF.setStats setState];
    cbn [snd ui env localStorage log serve CF.service CF.service_reply];
    destruct (CF.has (CF.id selected) db);
    unfold CF.answer, ok;
    cbn [fst snd ui env localStorage log http_status json negb andb
           Z.leb Z.compare Pos.compare Pos.compare_cont];
    (split; [reflexivity|]);
    (split; [|reflexivity]);
    unfold CF.in_sync, CF.is_replied_of;
    cbn [CF.confessions CF.stats CF.filter CF.with_confessions
           CF.with_stats CF.with_loading CF.with_actionLoading
           CF.with_selectedConfession CF.with_isEditDialogOpen
           CF.with_isReplyDialogOpen CF.with_isDeleteDialogOpen
           CF.with_isDeleteReplyDialogOpen CF.with_isViewDialogOpen
           CF.with_editedMessage CF.with_replyText ui env];
    try (split; [exact Hlist | exact Hstats]);
    (split; [reflexivity|]);
    try reflexivity.
  rewrite summary_amend_message. exact Hstats.
Qed.

(** The witness of X21: the panel after its mount, with a reply typed. *)
Lemma actions_keep_panel_in_sync_witness :
  CF.in_sync CF.two_confessions CF.replying
  /\ let '(r, final) :=
       CF.handler CF.Reply CF.replying
         {| ui := CF.replying; env := CF.two_confessions;
            localStorage := @JsMap.empty unit; log := [] |} in
     CF.in_sync (env final) (ui final).
Proof.
  assert (Hsync : CF.in_sync CF.two_confessions CF.replying)
    by (split; reflexivity).
  split; [exact Hsync|].
  pose proof (@actions_keep_panel_in_sync CF.Reply CF.two_confessions
                CF.replying Hsync) as W.
  destruct (CF.handler CF.Reply CF.replying _) as [r final].
  destruct W as (_ & Hkept & _). exact Hkept.
Defined.

(** ** The shell *)

Module DS := Dashboard.

Lemma step_keeps_menu_tab (s : DS.State) (a : DS.Action) :
  DS.possible a ->
  In (DS.activeTab s) (List.map DS.id DS.menuItems) ->
  In (DS.activeTab (DS.step s a)) (List.map DS.id DS.menuItems).
Proof.
  destruct a as [item| |]; cbn [DS.step DS.possible]; intros Hp Hin.
  - cbn [DS.setActiveTab DS.activeTab]. apply in_map. exact Hp.
  - exact Hin.
  - exact Hin.
Qed.

Lemma steps_keep_menu_tab (actions : list DS.Action) :
  forall s,
    Forall DS.possible actions ->
    In (DS.activeTab s) (List.map DS.id DS.menuItems) ->
    In (DS.activeTab (fold_left DS.step actions s))
       (List.map DS.id DS.menuItems)
    /\ DS.refreshKey (fold_left DS.step actions s)
       = (DS.refreshKey s
          + Z.of_nat
              (length
                 (List.filter
                    (fun a => match a with
                              | DS.Click _ => false
                              | _ => true
                              end)
                    actions)))%Z.
Proof.
  induction actions as [|a actions IH]; intros s Hall Hin.
  - cbn. split; [exact Hin | lia].
  - inversion Hall as [|? ? Ha Hrest]; subst.
    cbn [fold_left List.filter].
    destruct (IH (DS.step s a) Hrest (step_keeps_menu_tab s a Ha Hin))
      as [Htab Hkey].
    split; [exact Htab|]. rewrite Hkey.
    destruct a as [item| |]; cbn [DS.step DS.setActiveTab DS.refreshKey
                                   DS.handleKnowledgeAdded DS.handleRefresh
                                   length]; lia.
Qed.

Lemma menu_tab_is_rendered (s : DS.State) :
  In (DS.activeTab s) (List.map DS.id DS.menuItems) ->
  (exists item,
      DS.activeMenuItem s = Some item
      /\ DS.id item = DS.activeTab s
      /\ In item DS.menuItems)
  /\ ((exists key, DS.renderContent s = DS.KnowledgeList key)
      <-> DS.activeTab s = str "view").
Proof.
  destruct s as [tab key]. cbn [DS.activeTab]. intros Hin.
  vm_compute in Hin.
  repeat (destruct Hin as [<-|Hin];
          [split;
           [eexists; split; [vm_compute; reflexivity|];
            split; [reflexivity|]; vm_compute; tauto
           |split;
            [intros [k Hk]; vm_compute in Hk; try discriminate Hk;
             reflexivity
            |intros Hv; vm_compute in Hv; try discriminate Hv;
             eexists; vm_compute; reflexivity]]
          |]).
  destruct Hin.
Qed.

(** X22.  Whatever menu buttons are clicked and whatever panels call the
    two refresh callbacks, the active tab is the id of a menu item, so the
    header finds its item and the [default] branch of the switch is never
    taken: the knowledge list is shown for the tab "view" only.  The
    [key] of the knowledge list counts the calls of the two callbacks, so
    each call remounts the list, and a click does not. *)
Theorem active_tab_is_a_menu_item (actions : list DS.Action) :
  Forall DS.possible actions ->
  let s := fold_left DS.step actions DS.initial in
  (exists item,
      DS.activeMenuItem s = Some item
      /\ DS.id item = DS.activeTab s
      /\ In item DS.menuItems)
  /\ ((exists key, DS.renderContent s = DS.KnowledgeList key)
      <-> DS.activeTab s = str "view")
  /\ (DS.activeTab s = str "view" ->
      DS.renderContent s
      = DS.KnowledgeList
          (Z.of_nat
             (length
                (List.filter
                   (fun a => match a with
                             | DS.Click _ => false
                             | _ => true
                             end)
                   actions)))).
Proof.
  intros Hall s.
  assert (Hstart : In (DS.activeTab DS.initial)
                     (List.map DS.id DS.menuItems)).
  { left. reflexivity. }
  destruct (@steps_keep_menu_tab actions DS.initial Hall Hstart)
    as [Htab Hkey].
  fold s in Htab, Hkey.
  destruct (@menu_tab_is_rendered s Htab) as [Hitem Hview].
  split; [exact Hitem|]. split; [exact Hview|].
  intros Hv. unfold DS.renderContent. rewrite Hv.
  replace (eqb (str "view") (str "view")) with true by reflexivity.
  rewrite Hkey. reflexivity.
Qed.

(** The witness of X22: the chat is opened and then a panel reports new
    knowledge. *)
Lemma active_tab_is_a_menu_item_witness :
  let actions :=
    [ DS.Click {| DS.id := str "chat"; DS.label := str "Chat" |};
      DS.KnowledgeAdded ] in
  Forall DS.possible actions
  /\ exists item,
       DS.activeMenuItem (fold_left DS.step actions DS.initial) = Some item
       /\ DS.id item = DS.activeTab (fold_left DS.step actions DS.initial).
Proof.
  intros actions.
  assert (Hall : Forall DS.possible actions).
  { constructor; [right; left; reflexivity|].
    constructor; [exact I|]. constructor. }
  split; [exact Hall|].
  destruct (proj1 (@active_tab_is_a_menu_item actions Hall))
    as (item & Hfind & Hid & _).
  exists item. split; [exact Hfind | exact Hid].
Defined.

(** ** The configuration panel *)

Module RC := RagConfig.

Ltac settle_both e :=
  cbv beta iota delta
    [RC.loadAll RC.handleRefresh RC.fetch_both RC.fetchConfig_settled
       RC.fetchHealth_settled RC.send RC.settle
       RC.setConfig RC.setHealth RC.setLoading RC.setRefreshing
       bind try_catch throw ret lift toast emit console_error setState];
  cbn [ui env localStorage log];
  unfold RC.good_body;
  destruct (serve RC.GET_config e) as [[err1|response1] e1];
  cbn [fst snd ui env localStorage log];
  match goal with
  | |- context [serve RC.GET_health_detailed ?x] =>
      destruct (serve RC.GET_health_detailed x) as [[err2|response2] e2]
  end;
  cbn [fst snd ui env localStorage log RC.Payload] in *;
  repeat match goal with
         | |- context [ok ?r] => is_var r; destruct (ok r); cbn [negb]
         | |- context [json ?r] => is_var r; destruct (json r)
         end;
  cbn [fst snd ui env localStorage log negb].

Section RagConfigProperties.
Context {E : Type} `{Platform RC.Req RC.Payload E}.

(** X23.  [loadAll] returns normally whatever the back end does and in
    whichever order the two requests settle.  It sends the request for the
    configuration and then the one for the health, and ends with [loading]
    false.  The configuration becomes the body of its reply when that has
    a 2xx status and parses, and is kept otherwise; the same holds for the
    health.  So the state it ends in does not depend on the order. *)
Theorem loadAll_settles (config_first : bool)
    (run : Run RC.Req RC.State E unit) :
  exists final,
    RC.loadAll config_first run = (Normal tt, final)
    /\ RC.loading (ui final) = false
    /\ RC.refreshing (ui final) = RC.refreshing (ui run)
    /\ requested (log final)
       = requested (log run) ++ [RC.GET_config; RC.GET_health_detailed]
    /\ RC.config (ui final)
       = match RC.good_body RC.GET_config (env run) with
         | Some data => Some data
         | None => RC.config (ui run)
         end
    /\ RC.health (ui final)
       = match RC.good_body RC.GET_health_detailed
                 (snd (serve RC.GET_config (env run))) with
         | Some data => Some data
         | None => RC.health (ui run)
         end
    /\ ui final = ui (snd (RC.loadAll (negb config_first) run)).
Proof.
  destruct run as [u e sto lg].
  destruct config_first; cbn [negb]; settle_both e;
    (eexists; split; [reflexivity|]);
    cbn [ui env localStorage log RC.config RC.health RC.loading
           RC.refreshing RC.with_config RC.with_health RC.with_loading
           RC.with_refreshing];
    repeat (split; [reflexivity|]);
    (split;
     [unfold requested; rewrite !flat_map_app; cbn; rewrite ?app_nil_r;
      rewrite <- ?app_assoc; reflexivity|]);
    repeat (split; [reflexivity|]); reflexivity.
Qed.

(** X24.  [handleRefresh] returns normally and ends with the toast
    "Configuration refreshed" and with [refreshing] false, whatever the
    back end does: also when a fetch failed, or both.  A failed fetch
    shows its error toast before, and leaves what it would have replaced
    as it was. *)
Theorem handleRefresh_always_reports_success (config_first : bool)
    (run : Run RC.Req RC.State E unit) :
  exists final earlier,
    RC.handleRefresh config_first run = (Normal tt, final)
    /\ log final
       = earlier ++ [Toast toast_success (str "Configuration refreshed")]
    /\ RC.refreshing (ui final) = false
    /\ RC.loading (ui final) = RC.loading (ui run)
    /\ length (RC.toasts_of earlier)
       = (length (RC.toasts_of (log run))
          + (match RC.good_body RC.GET_config (env run) with
             | Some _ => 0
             | None => 1
             end)
          + (match RC.good_body RC.GET_health_detailed
                     (snd (serve RC.GET_config (env run))) with
             | Some _ => 0
             | None => 1
             end))%nat
    /\ RC.config (ui final)
       = match RC.good_body RC.GET_config (env run) with
         | Some data => Some data
         | None => RC.config (ui run)
         end
    /\ RC.health (ui final)
       = match RC.good_body RC.GET_health_detailed
                 (snd (serve RC.GET_config (env run))) with
         | Some data => Some data
         | None => RC.health (ui run)
         end.
Proof.
  destruct run as [u e sto lg].
  destruct config_first; settle_both e;
    (eexists _, _; split; [reflexivity|]);
    cbn [ui env localStorage log RC.config RC.health RC.loading
           RC.refreshing RC.with_config RC.with_health RC.with_loading
           RC.with_refreshing];
    (split; [reflexivity|]);
    repeat (split; [reflexivity|]);
    (split;
     [unfold RC.toasts_of; rewrite !toasts_app; cbn;
      rewrite ?length_app; cbn; lia|]);
    split; reflexivity.
Qed.

End RagConfigProperties.

(** With the back end unreachable a refresh shows two error toasts and
    then reports success; nothing was refreshed. *)
Lemma refresh_of_nothing :
  let final :=
    snd (RC.handleRefresh true
           {| ui := RC.initial; env := RC.down;
              localStorage := @JsMap.empty unit; log := [] |}) in
  RC.toasts_of (log final)
  = [ Toast toast_error (str "Failed to fetch configuration");
      Toast toast_error (str "Failed to fetch health status");
      Toast toast_success (str "Configuration refreshed") ]
  /\ RC.config (ui final) = None
  /\ RC.health (ui final) = None.
Proof. cbv zeta. repeat split; reflexivity. Qed.

(** *** What the view shows *)

Lemma last_segment_spec (sep : N) (s : jsstring) :
  existsb (N.eqb sep) (last_segment sep s) = false
  /\ ((existsb (N.eqb sep) s = false /\ last_segment sep s = s)
      \/ exists before, s = before ++ sep :: last_segment sep s).
Proof.
  induction s as [|c rest IH]; cbn [last_segment].
  - split; [reflexivity|]. left. split; reflexivity.
  - destruct IH as [Hfree Hcases].
    destruct (existsb (N.eqb sep) rest) eqn:Hrest.
    + split; [exact Hfree|]. right.
      destruct Hcases as [[Hno _]|[before Hsplit]]; [congruence|].
      exists (c :: before). cbn. f_equal. exact Hsplit.
    + destruct (N.eqb c sep) eqn:Hc.
      * split; [exact Hrest|]. right. apply N.eqb_eq in Hc. subst c.
        exists []. reflexivity.
      * split.
        -- cbn. rewrite Hrest, N.eqb_sym, Hc. reflexivity.
        -- left. split; [|reflexivity].
           cbn. rewrite Hrest, N.eqb_sym, Hc. reflexivity.
Qed.

(** X25.  The model shown in the embedding card contains no slash, and
    the model name ends with it: a name with no slash is shown whole, and
    otherwise what follows its last slash is shown. *)
Theorem shown_model_is_last_segment (c : RC.FullConfig) :
  let name := RC.model_name (RC.embedding c) in
  existsb (N.eqb 47) (RC.shown_model c) = false
  /\ ((existsb (N.eqb 47) name = false /\ RC.shown_model c = name)
      \/ exists before, name = before ++ 47%N :: RC.shown_model c).
Proof. cbv zeta. unfold RC.shown_model. apply last_segment_spec. Qed.

(** X26.  The badges of a list that is cut short account for all of it.
    The languages of the embedding card are the first six of the
    configuration, in order; the sources under an answer of the chat are
    its first three.  When the list is no longer than that it is shown
    whole and there is no "+n more" badge; otherwise the badge is there
    and its number is the number of the items not shown, which is then
    positive. *)
Theorem more_badge_counts_hidden :
  (forall c : RC.FullConfig,
      let all := RC.supports_languages (RC.embedding c) in
      (exists hidden, all = RC.shown_languages c ++ hidden
         /\ match RC.more_languages c with
            | Some n => n = Z.of_nat (length hidden) /\ (0 < n)%Z
                        /\ length (RC.shown_languages c) = 6%nat
            | None => hidden = []
            end))
  /\ (forall sources : list GC.SourceDoc,
         exists hidden, sources = GC.shown_sources sources ++ hidden
           /\ match GC.more_sources sources with
              | Some n => n = Z.of_nat (length hidden) /\ (0 < n)%Z
                          /\ length (GC.shown_sources sources) = 3%nat
              | None => hidden = []
              end).
Proof.
  split.
  - intros c all. unfold RC.shown_languages, RC.more_languages. fold all.
    exists (skipn 6 all). split; [symmetry; apply firstn_skipn|].
    destruct (6 <? length all)%nat eqn:Hlt.
    + apply Nat.ltb_lt in Hlt. rewrite length_skipn, length_firstn.
      repeat split; lia.
    + apply Nat.ltb_ge in Hlt. apply skipn_all2. exact Hlt.
  - intros sources. unfold GC.shown_sources, GC.more_sources.
    exists (skipn 3 sources). split; [symmetry; apply firstn_skipn|].
    destruct (3 <? length sources)%nat eqn:Hlt.
    + apply Nat.ltb_lt in Hlt. rewrite length_skipn, length_firstn.
      repeat split; lia.
    + apply Nat.ltb_ge in Hlt. apply skipn_all2. exact Hlt.
Qed.

(** ** Chat: the history after a failed send *)

Lemma Chat_build_history_step (m0 m1 : Chat.Message)
    (rest : list Chat.Message) :
  Chat.build_history (m0 :: m1 :: rest)
  = (if Chat.MessageType_eqb (Chat.type m0) Chat.user
        && Chat.MessageType_eqb (Chat.type m1) Chat.assistant
     then [Chat.exchange m0 m1]
     else [])
      ++ Chat.build_history rest.
Proof. reflexivity. Qed.

Lemma Chat_build_history_shifted (orphan : Chat.Message)
    (turns : list (Chat.Message * Chat.Message)) :
  (forall t, In t turns ->
     Chat.type (fst t) = Chat.user /\ Chat.type (snd t) = Chat.assistant) ->
  Chat.build_history (orphan :: flat_map (fun t => [fst t; snd t]) turns)
  = [].
Proof.
  revert orphan.
  induction turns as [|[m0 m1] turns IH]; intros orphan Hturns;
    [reflexivity|].
  cbn [flat_map fst snd app]. rewrite Chat_build_history_step.
  destruct (Hturns (m0, m1)) as [H0 H1]; [left; reflexivity|].
  cbn [fst snd] in H0, H1. rewrite H0.
  rewrite (IH m1) by (intros t Ht; apply Hturns; right; exact Ht).
  destruct (Chat.MessageType_eqb (Chat.type orphan) Chat.user); reflexivity.
Qed.

(** X27.  A failed send leaves its user message in the transcript, and
    from then on the loop that builds the history pairs the wrong
    messages: of a transcript made of answered exchanges, then the message
    of a failed send, then answered exchanges again, the history holds the
    exchanges before the failed send and none of those after it. *)
Theorem failed_send_silences_history
    (before after : list (Chat.Message * Chat.Message))
    (orphan : Chat.Message) :
  (forall t, In t (before ++ after) ->
     Chat.type (fst t) = Chat.user /\ Chat.type (snd t) = Chat.assistant) ->
  Chat.build_history
    (flat_map (fun t => [fst t; snd t]) before
       ++ orphan :: flat_map (fun t => [fst t; snd t]) after)
  = List.map (fun t => Chat.exchange (fst t) (snd t)) before.
Proof.
  intros Hturns.
  induction before as [|[m0 m1] before IH].
  - cbn [flat_map app List.map].
    apply Chat_build_history_shifted.
    intros t Ht. apply Hturns. exact Ht.
  - cbn [flat_map fst snd app List.map]. rewrite Chat_build_history_step.
    destruct (Hturns (m0, m1)) as [H0 H1]; [left; reflexivity|].
    cbn [fst snd] in H0, H1. rewrite H0, H1.
    cbn [Chat.MessageType_eqb andb app].
    f_equal. apply IH. intros t Ht. apply Hturns. right. exact Ht.
Qed.

(** The witness of X27: the first send failed and the second was
    answered. *)
Lemma failed_send_silences_history_witness :
  let second :=
    ({| Chat.id := str "2000"; Chat.type := Chat.user;
        Chat.content := str "hi again"; Chat.timestamp := 2000;
        Chat.sources := None |},
     {| Chat.id := str "2501"; Chat.type := Chat.assistant;
        Chat.content := str "hello"; Chat.timestamp := 2500;
        Chat.sources := Some [] |}) in
  (forall t, In t ([] ++ [second]) ->
     Chat.type (fst t) = Chat.user /\ Chat.type (snd t) = Chat.assistant)
  /\ Chat.build_history
       (flat_map (fun t => [fst t; snd t]) []
          ++ Chat.hi :: flat_map (fun t => [fst t; snd t]) [second])
     = List.map (fun t => Chat.exchange (fst t) (snd t)) [].
Proof.
  intros second.
  assert (Hturns : forall t, In t ([] ++ [second]) ->
            Chat.type (fst t) = Chat.user
            /\ Chat.type (snd t) = Chat.assistant).
  { intros t [<-|[]]. split; reflexivity. }
  split; [exact Hturns|].
  exact (@failed_send_silences_history [] [second] Chat.hi Hturns).
Defined.

(** ** The confessions panel: the effect on the filter *)

Lemma fetchConfessions_split {E : Type} `{Platform CF.Req CF.Payload E}
    (snap : CF.State) (run : Run CF.Req CF.State E unit) :
  CF.fetchConfessions snap run
  = bind (CF.fetchConfessions_started snap)
      (CF.fetchConfessions_settled snap) run.
Proof.
  unfold CF.fetchConfessions, CF.fetchConfessions_started,
    CF.fetchConfessions_settled.
  cbv beta iota delta
    [bind try_finally try_catch fetch throw ret lift toast emit
       console_error CF.check_ok CF.send CF.settle CF.setLoading
       CF.setConfessions setState].
  destruct run as [u e sto lg]. cbn [ui env localStorage log].
  match goal with
  | |- context [serve ?r e] => destruct (serve r e) as [[err|response] e']
  end; cbn [ui env localStorage log]; rewrite <- ?app_assoc;
    [reflexivity|].
  destruct (ok response); cbn [negb ui env localStorage log];
    [|reflexivity].
  destruct (json response); reflexivity.
Qed.

Lemma fetchStats_split {E : Type} `{Platform CF.Req CF.Payload E}
    (run : Run CF.Req CF.State E unit) :
  CF.fetchStats run
  = bind (CF.send CF.GET_stats_summary) CF.fetchStats_settled run.
Proof.
  unfold CF.fetchStats, CF.fetchStats_settled.
  cbv beta iota delta
    [bind try_finally try_catch fetch throw ret lift toast emit
       console_error CF.check_ok CF.send CF.settle CF.setStats setState].
  destruct run as [u e sto lg]. cbn [ui env localStorage log].
  destruct (serve CF.GET_stats_summary e) as [[err|response] e'];
    cbn [ui env localStorage log]; rewrite <- ?app_assoc; [reflexivity|].
  destruct (ok response); cbn [negb ui env localStorage log];
    [|reflexivity].
  destruct (json response); reflexivity.
Qed.


